(** * Real-time speech segmentation and translation pipeline

    A shallow embedding of [audio_capture.py], [realtime_stt.py] and
    [realtime_translator.py], followed by the properties of the
    specification that these modules decide.

    Conventions of the embedding.
    - A Python [float] (sample values, RMS energies, [time.time()] stamps,
      durations) is an exact rational [Q]; rounding is not modelled.
    - A Python [str] is its sequence of code points, [list N].
    - A method becomes a function from the object's state (a record of its
      attributes) to the new state and the returned value; a call that can
      raise returns a [PyResult].
    - External engines (numpy's [sqrt] and [fft], the Whisper model, the
      translation model, the clock) are arguments of the functions that call
      them; the calls made to a model are recorded in a trace field. *)

From Stdlib Require Import ZArith QArith Qround Lia Lqa List Bool String Ascii.
From stdpp Require Import base gmap list relations.

(** ** Python values and built-ins *)

Module Py.

(** The outcome of a call: a returned value or a raised exception. *)
Inductive PyResult (A : Type) : Type :=
| Return (a : A)
| Raise (exn : string).
Arguments Return {A} a.
Arguments Raise {A} exn.

#[global] Instance PyResult_eq_dec {A} `{EqDecision A} : EqDecision (PyResult A).
Proof. solve_decision. Defined.

(** [int(x)] on a float truncates toward zero. *)
Definition int (x : Q) : Z := Z.quot (Qnum x) (Z.pos (Qden x)).

(** [a < b] and [a <= b] on floats. *)
Definition ltb (a b : Q) : bool := negb (Qle_bool b a).
Definition leb (a b : Q) : bool := Qle_bool a b.

(** [max(a, b)]: the first argument unless the second is greater. *)
Definition max (a b : Q) : Q := if ltb a b then b else a.

(** [min(a, b)] on ints: the first argument unless the second is smaller. *)
Definition min (a b : Z) : Z := if (b <? a)%Z then b else a.

(** [sum(l)] over floats, starting from 0. *)
Definition sum (l : list Q) : Q := fold_left Qplus l 0%Q.

(** [l[i:]] and [l[:i]] with Python's treatment of negative and
    out-of-range indices. *)
Definition slice_from {A} (l : list A) (i : Z) : list A :=
  if (i <? 0)%Z then drop (Z.to_nat (Z.max (Z.of_nat (length l) + i) 0)) l
  else drop (Z.to_nat i) l.

Definition slice_to {A} (l : list A) (i : Z) : list A :=
  if (i <? 0)%Z then take (Z.to_nat (Z.max (Z.of_nat (length l) + i) 0)) l
  else take (Z.to_nat i) l.

(** [collections.deque(maxlen=n)]: [append] adds on the right and, when the
    bound is exceeded, discards from the left. *)
Record deque (A : Type) : Type := mkDeque {
  maxlen : nat;
  items : list A
}.
Arguments mkDeque {A} maxlen items.
Arguments maxlen {A} d.
Arguments items {A} d.

Definition deque_new {A} (n : nat) : deque A := mkDeque n [].

Definition deque_append {A} (d : deque A) (x : A) : deque A :=
  let l := items d ++ [x] in
  mkDeque (maxlen d) (if (maxlen d <? length l)%nat then tail l else l).

Definition deque_len {A} (d : deque A) : nat := length (items d).

(** [queue.Queue(maxsize)]: FIFO, bounded when [maxsize > 0]. *)
Record queue (A : Type) : Type := mkQueue {
  maxsize : Z;
  queued : list A
}.
Arguments mkQueue {A} maxsize queued.
Arguments maxsize {A} q.
Arguments queued {A} q.

Definition queue_new {A} (n : Z) : queue A := mkQueue n [].

Definition queue_full {A} (q : queue A) : bool :=
  ((0 <? maxsize q) && (maxsize q <=? Z.of_nat (length (queued q))))%Z.

(** [q.put(item, timeout=t)]: the caller waits while the queue is full.
    [freed] is the number of items that consumers took from the head of the
    queue during that wait (0 when they took none); if the queue is still
    full when the timeout expires the call raises [queue.Full] and the item
    is not enqueued. *)
Definition queue_put {A} (q : queue A) (item : A) (freed : nat)
  : queue A * PyResult unit :=
  let q1 := mkQueue (maxsize q) (drop freed (queued q)) in
  if queue_full q1 then (q1, Raise "Full")
  else (mkQueue (maxsize q) (queued q1 ++ [item]), Return tt).

(** [q.get(timeout=t)]: the head of the queue, or [queue.Empty] when no item
    arrived before the timeout. *)
Definition queue_get {A} (q : queue A) : queue A * PyResult A :=
  match queued q with
  | [] => (q, Raise "Empty")
  | x :: rest => (mkQueue (maxsize q) rest, Return x)
  end.

(** *** Strings *)

Definition str : Type := list N.

(** An ASCII literal as a [str]. *)
Definition lit (s : string) : str := map N_of_ascii (list_ascii_of_string s).

Definition str_eqb (a b : str) : bool := bool_decide (a = b).

(** [c.isspace()]: the code points that [str.strip()] removes. *)
Definition isspace (c : N) : bool :=
  ((9 <=? c) && (c <=? 13) || (28 <=? c) && (c <=? 32)
   || (c =? 133) || (c =? 160) || (c =? 5760)
   || (8192 <=? c) && (c <=? 8202)
   || (c =? 8232) || (c =? 8233) || (c =? 8239) || (c =? 8287)
   || (c =? 12288))%N.

Fixpoint lstrip_by (p : N -> bool) (s : str) : str :=
  match s with
  | [] => []
  | c :: s' => if p c then lstrip_by p s' else s
  end.

Definition rstrip_by (p : N -> bool) (s : str) : str :=
  rev (lstrip_by p (rev s)).

Definition strip_by (p : N -> bool) (s : str) : str :=
  rstrip_by p (lstrip_by p s).

(** [s.strip()] *)
Definition strip (s : str) : str := strip_by isspace s.

(** [s.strip(q)] where [q] is the one-character string holding the double
    quote (code point 34). *)
Definition strip_quote (s : str) : str := strip_by (N.eqb 34) s.

Fixpoint startswith (s prefix : str) : bool :=
  match prefix, s with
  | [], _ => true
  | _ :: _, [] => false
  | p :: prefix', c :: s' => (p =? c)%N && startswith s' prefix'
  end.

(** [s.split(sep, 1)[-1]] for a non-empty [sep]: what follows the first
    occurrence of [sep], or [None] when [sep] does not occur in [s] (then
    [sep in s] is false and [split] returns [[s]]). *)
Fixpoint after_first (sep s : str) : option str :=
  if startswith s sep then Some (drop (length sep) s)
  else match s with
       | [] => None
       | _ :: s' => after_first sep s'
       end.

(** [sub in s] *)
Definition contains (sub s : str) : bool :=
  match after_first sub s with Some _ => true | None => false end.

(** [s.lower()] on the ASCII letters; other code points are left as they
    are. *)
Definition lower_ascii (s : str) : str :=
  map (fun c => if ((65 <=? c) && (c <=? 90))%N then (c + 32)%N else c) s.

End Py.

(** ** audio_capture.py *)

Module AudioCapture.
Import Py.
#[local] Open Scope Q_scope.

(** One capture buffer: mono samples. *)
Definition frame : Type := list Q.

(** [class AudioCaptureConfig] *)
Record AudioCaptureConfig : Type := mkConfig {
  sample_rate : Z;
  channels : Z;
  chunk_size : Z;
  buffer_duration : Q;
  overlap_duration : Q;
  silence_threshold : Q;
  min_speech_duration : Q;
  max_silence_duration : Q;
  background_noise_threshold : Q
}.

(** [AudioCaptureConfig.__init__]: the default values. *)
Definition default_config : AudioCaptureConfig :=
  {| sample_rate := 16000;
     channels := 1;
     chunk_size := 1024;
     buffer_duration := 5;
     overlap_duration := 1;
     silence_threshold := 5 # 1000;
     min_speech_duration := 3 # 10;
     max_silence_duration := 2;
     background_noise_threshold := 8 # 1000 |}.

(** [class ChromeAudioCapture]: the attributes that the capture path reads
    or writes. A callback attribute is [true] when a callable is assigned. *)
Record ChromeAudioCapture : Type := mkCapture {
  config : AudioCaptureConfig;
  audio_buffer : deque frame;
  is_recording : bool;
  is_speaking : bool;
  speech_start_time : option Q;
  last_speech_time : option Q;
  silence_start_time : option Q;
  noise_buffer : deque Q;
  adaptive_threshold : Q;
  on_speech_ended : bool;
  on_continuous_audio : bool;
  continuous_mode : bool;
  last_processing_time : Q;
  processing_interval : Q
}.

(** [duration * sample_rate / chunk_size], truncated by [int]; the division
    raises when [chunk_size] is zero. *)
Definition chunks_for (cfg : AudioCaptureConfig) (duration : Q) : PyResult Z :=
  if (chunk_size cfg =? 0)%Z then Raise "ZeroDivisionError"
  else Return (int (duration * inject_Z (sample_rate cfg)
                    / inject_Z (chunk_size cfg))).

(** [ChromeAudioCapture.__init__] *)
Definition init (cfg : AudioCaptureConfig) : PyResult ChromeAudioCapture :=
  match chunks_for cfg (buffer_duration cfg) with
  | Raise e => Raise e
  | Return buffer_size =>
      if (buffer_size <? 0)%Z then Raise "ValueError"
      else Return
        {| config := cfg;
           audio_buffer := deque_new (Z.to_nat buffer_size);
           is_recording := false;
           is_speaking := false;
           speech_start_time := None;
           last_speech_time := None;
           silence_start_time := None;
           noise_buffer := deque_new 50;
           adaptive_threshold := silence_threshold cfg;
           on_speech_ended := false;
           on_continuous_audio := false;
           continuous_mode := true;
           last_processing_time := 0;
           processing_interval := 3 |}
  end.

(** Attribute assignments. *)
Definition set_audio_buffer (b : deque frame) (s : ChromeAudioCapture) :=
  mkCapture (config s) b (is_recording s) (is_speaking s)
    (speech_start_time s) (last_speech_time s) (silence_start_time s)
    (noise_buffer s) (adaptive_threshold s) (on_speech_ended s)
    (on_continuous_audio s) (continuous_mode s) (last_processing_time s)
    (processing_interval s).

Definition set_is_speaking (b : bool) (s : ChromeAudioCapture) :=
  mkCapture (config s) (audio_buffer s) (is_recording s) b
    (speech_start_time s) (last_speech_time s) (silence_start_time s)
    (noise_buffer s) (adaptive_threshold s) (on_speech_ended s)
    (on_continuous_audio s) (continuous_mode s) (last_processing_time s)
    (processing_interval s).

Definition set_speech_start_time (t : option Q) (s : ChromeAudioCapture) :=
  mkCapture (config s) (audio_buffer s) (is_recording s) (is_speaking s)
    t (last_speech_time s) (silence_start_time s)
    (noise_buffer s) (adaptive_threshold s) (on_speech_ended s)
    (on_continuous_audio s) (continuous_mode s) (last_processing_time s)
    (processing_interval s).

Definition set_last_speech_time (t : option Q) (s : ChromeAudioCapture) :=
  mkCapture (config s) (audio_buffer s) (is_recording s) (is_speaking s)
    (speech_start_time s) t (silence_start_time s)
    (noise_buffer s) (adaptive_threshold s) (on_speech_ended s)
    (on_continuous_audio s) (continuous_mode s) (last_processing_time s)
    (processing_interval s).

Definition set_silence_start_time (t : option Q) (s : ChromeAudioCapture) :=
  mkCapture (config s) (audio_buffer s) (is_recording s) (is_speaking s)
    (speech_start_time s) (last_speech_time s) t
    (noise_buffer s) (adaptive_threshold s) (on_speech_ended s)
    (on_continuous_audio s) (continuous_mode s) (last_processing_time s)
    (processing_interval s).

Definition set_noise_buffer (b : deque Q) (s : ChromeAudioCapture) :=
  mkCapture (config s) (audio_buffer s) (is_recording s) (is_speaking s)
    (speech_start_time s) (last_speech_time s) (silence_start_time s)
    b (adaptive_threshold s) (on_speech_ended s)
    (on_continuous_audio s) (continuous_mode s) (last_processing_time s)
    (processing_interval s).

Definition set_adaptive_threshold (t : Q) (s : ChromeAudioCapture) :=
  mkCapture (config s) (audio_buffer s) (is_recording s) (is_speaking s)
    (speech_start_time s) (last_speech_time s) (silence_start_time s)
    (noise_buffer s) t (on_speech_ended s)
    (on_continuous_audio s) (continuous_mode s) (last_processing_time s)
    (processing_interval s).

Definition set_on_speech_ended (b : bool) (s : ChromeAudioCapture) :=
  mkCapture (config s) (audio_buffer s) (is_recording s) (is_speaking s)
    (speech_start_time s) (last_speech_time s) (silence_start_time s)
    (noise_buffer s) (adaptive_threshold s) b
    (on_continuous_audio s) (continuous_mode s) (last_processing_time s)
    (processing_interval s).

Definition set_last_processing_time (t : Q) (s : ChromeAudioCapture) :=
  mkCapture (config s) (audio_buffer s) (is_recording s) (is_speaking s)
    (speech_start_time s) (last_speech_time s) (silence_start_time s)
    (noise_buffer s) (adaptive_threshold s) (on_speech_ended s)
    (on_continuous_audio s) (continuous_mode s) t
    (processing_interval s).

(** *** Voice activity detection *)

(** Lines 123-129 of [detect_voice_activity]: the RMS value joins the noise
    window and, from ten entries on, the threshold is set from the first ten
    entries of the window. *)
Definition update_noise_floor (s : ChromeAudioCapture) (rms : Q)
  : ChromeAudioCapture :=
  let s1 := set_noise_buffer (deque_append (noise_buffer s) rms) s in
  if (10 <=? deque_len (noise_buffer s1))%nat then
    let avg_noise := sum (take 10 (items (noise_buffer s1))) / 10 in
    set_adaptive_threshold
      (max (silence_threshold (config s1)) (avg_noise * 2)) s1
  else s1.

(** [np.mean(audio_data ** 2)] *)
Definition mean_square (audio_data : frame) : Q :=
  sum (map (fun v => v * v) audio_data)
  / inject_Z (Z.of_nat (length audio_data)).

(** [np.fft.fftfreq(n, 1/sample_rate)]: bin [k] is at [k * sample_rate / n]
    for the first [(n-1)//2 + 1] bins and at [(k - n) * sample_rate / n] for
    the others. *)
Definition fftfreq (n : nat) (rate : Z) : list Q :=
  map (fun k : nat =>
         let k := Z.of_nat k in
         let n := Z.of_nat n in
         inject_Z (if (k <? (n - 1) / 2 + 1)%Z then k else k - n)
         * (inject_Z rate / inject_Z n))
      (seq 0 n).

(** [np.sum(power[(freqs >= 300) & (freqs <= 3400)])] *)
Definition band_energy (freqs power : list Q) : Q :=
  sum (map snd (List.filter (fun fp => leb 300 (fst fp) && leb (fst fp) 3400)
                       (combine freqs power))).

Section Numpy.

(** [np.sqrt], and [np.abs(np.fft.fft(x)) ** 2] bin by bin. *)
Variable np_sqrt : Q -> Q.
Variable np_fft_abs2 : frame -> list Q.

Definition rms_of (audio_data : frame) : Q := np_sqrt (mean_square audio_data).

(** [speech_energy / (total_energy + 1e-10)] *)
Definition speech_ratio (rate : Z) (audio_data : frame) : Q :=
  let power := np_fft_abs2 audio_data in
  let freqs := fftfreq (length audio_data) rate in
  let speech_energy := band_energy freqs power in
  let total_energy := sum power in
  speech_energy / (total_energy + (1 # 10000000000)).

(** [detect_voice_activity]: [1/self.config.sample_rate] raises on a zero
    sample rate, after the noise window has been updated. *)
Definition detect_voice_activity (s : ChromeAudioCapture) (audio_data : frame)
  : ChromeAudioCapture * PyResult bool :=
  let rms := rms_of audio_data in
  let s1 := update_noise_floor s rms in
  let is_speech_rms := ltb (adaptive_threshold s1) rms in
  if is_speech_rms then
    if (sample_rate (config s1) =? 0)%Z then (s1, Raise "ZeroDivisionError")
    else (s1, Return (ltb (1 # 10)
                          (speech_ratio (sample_rate (config s1)) audio_data)))
  else (s1, Return false).

End Numpy.

(** *** Ring buffer *)

(** [get_audio_segment(duration_seconds)]: [None] on an empty buffer or
    when no chunk is needed, else the concatenation of the most recent
    chunks; [np.concatenate] raises on an empty list. *)
Definition get_audio_segment (s : ChromeAudioCapture) (duration_seconds : Q)
  : PyResult (option frame) :=
  match items (audio_buffer s) with
  | [] => Return None
  | _ =>
      match chunks_for (config s) duration_seconds with
      | Raise e => Raise e
      | Return chunks_needed =>
          let chunks_needed :=
            min chunks_needed (Z.of_nat (deque_len (audio_buffer s))) in
          if (chunks_needed =? 0)%Z then Return None
          else
            let recent_chunks :=
              slice_from (items (audio_buffer s)) (- chunks_needed) in
            match recent_chunks with
            | [] => Raise "ValueError"
            | _ => Return (Some (concat recent_chunks))
            end
      end
  end.

(** *** Segmentation state machine *)

(** Lines 185-221 of [audio_callback]: the speech/silence transition on one
    VAD decision taken at [current_time]. The second component is the
    segment handed to [on_speech_ended], if a segment is dispatched; an
    exception leaves the assignments made before it. *)
Definition update_speech_state (s : ChromeAudioCapture) (has_speech : bool)
    (current_time : Q) : ChromeAudioCapture * PyResult (option frame) :=
  if has_speech then
    let s1 := set_last_speech_time (Some current_time) s in
    if negb (is_speaking s1) then
      (set_silence_start_time None
         (set_speech_start_time (Some current_time)
            (set_is_speaking true s1)), Return None)
    else (s1, Return None)
  else
    if is_speaking s then
      let silence_start :=
        match silence_start_time s with
        | None => current_time
        | Some t => t
        end in
      let s1 := set_silence_start_time (Some silence_start) s in
      let silence_duration := current_time - silence_start in
      if leb (max_silence_duration (config s1)) silence_duration then
        match speech_start_time s1 with
        | None => (s1, Raise "TypeError")
        | Some speech_start =>
            if leb (min_speech_duration (config s1))
                   (current_time - speech_start) then
              let s2 := set_silence_start_time None
                          (set_is_speaking false s1) in
              if on_speech_ended s2 then (s2, get_audio_segment s2 3)
              else (s2, Return None)
            else (s1, Return None)
        end
      else (s1, Return None)
    else (s, Return None).



Section Callback.

Variable np_sqrt : Q -> Q.
Variable np_fft_abs2 : frame -> list Q.



End Callback.

(** The state machine driven by a sequence of VAD decisions with their time
    stamps: the final state and the outcome of every step. *)
Fixpoint run_speech_state (s : ChromeAudioCapture) (decisions : list (bool * Q))
  : ChromeAudioCapture * list (PyResult (option frame)) :=
  match decisions with
  | [] => (s, [])
  | (has_speech, current_time) :: rest =>
      let '(s1, out) := update_speech_state s has_speech current_time in
      let '(s2, outs) := run_speech_state s1 rest in
      (s2, out :: outs)
  end.

(** The noise window driven by a sequence of RMS values. *)
Definition feed_rms (s : ChromeAudioCapture) (values : list Q)
  : ChromeAudioCapture :=
  fold_left update_noise_floor values s.

(** One round of [_continuous_processing_worker] at [current_time]: the
    segment handed to [on_continuous_audio], if one is dispatched. *)
Definition continuous_processing_round (s : ChromeAudioCapture)
    (current_time : Q) : ChromeAudioCapture * option frame :=
  if leb (processing_interval s) (current_time - last_processing_time s) then
    match get_audio_segment s 3 with
    | Return (Some audio_segment) =>
        if on_continuous_audio s
        then (set_last_processing_time current_time s, Some audio_segment)
        else (s, None)
    | _ => (s, None)
    end
  else (s, None).

(** *** Example values *)

(** A capture object as [ChromeAudioCapture()] builds it. *)
Definition default_capture : ChromeAudioCapture :=
  {| config := default_config;
     audio_buffer := deque_new 78;
     is_recording := false;
     is_speaking := false;
     speech_start_time := None;
     last_speech_time := None;
     silence_start_time := None;
     noise_buffer := deque_new 50;
     adaptive_threshold := 5 # 1000;
     on_speech_ended := false;
     on_continuous_audio := false;
     continuous_mode := true;
     last_processing_time := 0;
     processing_interval := 3 |}.

(** Stand-ins for numpy on small examples: a square root that is exact on
    ratios of perfect squares, and the power spectrum of a one-sample
    buffer. *)
Definition sqrt_exact (q : Q) : Q := Z.sqrt (Qnum q) # Pos.sqrt (Qden q).
Definition power_1 (a : frame) : list Q := map (fun v => v * v) a.


(** The classifier driven by a sequence of buffers. *)
Definition classify_run (np_sqrt : Q -> Q) (np_fft_abs2 : frame -> list Q)
    (s : ChromeAudioCapture) (buffers : list frame) : ChromeAudioCapture :=
  fold_left (fun s a => fst (detect_voice_activity np_sqrt np_fft_abs2 s a))
            buffers s.

(** A configuration whose minimum speech duration (5 s) exceeds its maximum
    silence (2 s), and a capture object in the Speaking state since time 0
    with one buffer stored and a callback registered. *)
Definition patient_config : AudioCaptureConfig :=
  mkConfig 16000 1 1024 5 1 (5 # 1000) 5 2 (8 # 1000).

Definition patient_speaking : ChromeAudioCapture :=
  mkCapture patient_config (mkDeque 78 [[1 # 2]]) true true (Some 0) (Some 0)
    None (deque_new 50) (5 # 1000) true false true 0 3.

End AudioCapture.

(** ** realtime_stt.py *)

Module RealtimeSTT.
Import Py.
#[local] Open Scope Q_scope.

Definition frame : Type := list Q.

(** [class RealtimeSTTConfig]: the options read by the transcription path. *)
Record RealtimeSTTConfig : Type := mkConfig {
  sample_rate : Z;
  min_audio_length : Q;
  max_audio_length : Q;
  suppress_tokens : list str
}.

(** [RealtimeSTTConfig.__init__] without a [config.json]. *)
Definition default_config : RealtimeSTTConfig :=
  {| sample_rate := 16000;
     min_audio_length := 1;
     max_audio_length := 10;
     suppress_tokens :=
       [ lit "Thank you"; lit "Thanks for"; lit "ubscribe"; lit "my channel";
         lit "for watching"; lit "Amara";
         [35222; 32884]%N; [12372; 35222; 32884]%N ] |}.

(** What the stage does that is visible from outside: calls of the model,
    log records, callbacks. *)
Inductive event : Type :=
| ModelCall (audio : frame)
| LogWarning (msg : string)
| LogError (msg : string)
| ErrorCallback (msg : string)
| TranscriptionCallback (text : str).

(** [class RealtimeSTT]. [model_loaded] is [self.model is not None]; a
    callback attribute is [true] when a callable is assigned; [trace] lists
    the events so far, oldest first. *)
Record RealtimeSTT : Type := mkSTT {
  config : RealtimeSTTConfig;
  model_loaded : bool;
  audio_queue : queue (option frame);
  result_queue : list str;
  is_running : bool;
  on_transcription : bool;
  on_error : bool;
  processing_times : list Q;
  last_result : str;
  trace : list event
}.

(** [RealtimeSTT.__init__] *)
Definition init (cfg : RealtimeSTTConfig) : RealtimeSTT :=
  {| config := cfg;
     model_loaded := false;
     audio_queue := queue_new 0;
     result_queue := [];
     is_running := false;
     on_transcription := false;
     on_error := false;
     processing_times := [];
     last_result := [];
     trace := [] |}.

Definition set_last_result (r : str) (s : RealtimeSTT) : RealtimeSTT :=
  mkSTT (config s) (model_loaded s) (audio_queue s) (result_queue s)
    (is_running s) (on_transcription s) (on_error s) (processing_times s)
    r (trace s).

Definition set_processing_times (l : list Q) (s : RealtimeSTT) : RealtimeSTT :=
  mkSTT (config s) (model_loaded s) (audio_queue s) (result_queue s)
    (is_running s) (on_transcription s) (on_error s) l
    (last_result s) (trace s).

Definition set_audio_queue (q : queue (option frame)) (s : RealtimeSTT)
  : RealtimeSTT :=
  mkSTT (config s) (model_loaded s) q (result_queue s)
    (is_running s) (on_transcription s) (on_error s) (processing_times s)
    (last_result s) (trace s).

Definition set_result_queue (q : list str) (s : RealtimeSTT) : RealtimeSTT :=
  mkSTT (config s) (model_loaded s) (audio_queue s) q
    (is_running s) (on_transcription s) (on_error s) (processing_times s)
    (last_result s) (trace s).

Definition set_is_running (b : bool) (s : RealtimeSTT) : RealtimeSTT :=
  mkSTT (config s) (model_loaded s) (audio_queue s) (result_queue s)
    b (on_transcription s) (on_error s) (processing_times s)
    (last_result s) (trace s).

Definition set_model_loaded (b : bool) (s : RealtimeSTT) : RealtimeSTT :=
  mkSTT (config s) b (audio_queue s) (result_queue s)
    (is_running s) (on_transcription s) (on_error s) (processing_times s)
    (last_result s) (trace s).

Definition emit (e : event) (s : RealtimeSTT) : RealtimeSTT :=
  mkSTT (config s) (model_loaded s) (audio_queue s) (result_queue s)
    (is_running s) (on_transcription s) (on_error s) (processing_times s)
    (last_result s) (trace s ++ [e]).

Section Transcription.

(** [str.lower] *)
Variable str_lower : str -> str.

(** [_filter_transcription] *)
Definition _filter_transcription (s : RealtimeSTT) (text : str)
  : RealtimeSTT * str :=
  if (Z.of_nat (length (strip text)) <? 2)%Z then (s, [])
  else
    let text := strip text in
    if existsb (fun suppress_token =>
                  contains (str_lower suppress_token) (str_lower text))
               (suppress_tokens (config s))
    then (s, [])
    else if str_eqb text (last_result s) then (s, [])
    else (set_last_result text s, text).

(** [self.processing_times.append(t)], keeping the last ten. *)
Definition record_time (t : Q) (times : list Q) : list Q :=
  let times := times ++ [t] in
  if (10 <? length times)%nat then tail times else times.

(** [_transcribe_audio]. [transcribe] stands for [self.model.transcribe]
    followed by [result["text"]], and [processing_time] for the elapsed
    [time.time()] difference. Inside the [try] every exception is logged and
    turned into the empty string. *)
Definition _transcribe_audio (s : RealtimeSTT) (audio_data : frame)
    (transcribe : frame -> PyResult str) (processing_time : Q)
  : RealtimeSTT * PyResult str :=
  if negb (model_loaded s) then (s, Raise "RuntimeError")
  else if (sample_rate (config s) =? 0)%Z
  then (emit (LogError "Transcription error") s, Return [])
  else
    let duration := inject_Z (Z.of_nat (length audio_data))
                    / inject_Z (sample_rate (config s)) in
    if ltb duration (min_audio_length (config s)) then (s, Return [])
    else
      let audio_data :=
        if ltb (max_audio_length (config s)) duration then
          let max_samples :=
            int (max_audio_length (config s)
                 * inject_Z (sample_rate (config s))) in
          slice_from audio_data (- max_samples)
        else audio_data in
      let s1 := emit (ModelCall audio_data) s in
      match transcribe audio_data with
      | Raise _ => (emit (LogError "Transcription error") s1, Return [])
      | Return result_text =>
          let text := strip result_text in
          let s2 := set_processing_times
                      (record_time processing_time (processing_times s1)) s1 in
          let '(s3, out) := _filter_transcription s2 text in
          (s3, Return out)
      end.

(** One iteration of the loop of [_processing_worker]: [None] when the loop
    ends (condition false, or termination signal). *)
Definition _processing_worker_step (s : RealtimeSTT)
    (transcribe : frame -> PyResult str) (processing_time : Q)
  : option RealtimeSTT :=
  if negb (is_running s) && bool_decide (queued (audio_queue s) = [])
  then None
  else
    match queue_get (audio_queue s) with
    | (_, Raise _) => Some s
    | (_, Return None) => None
    | (q, Return (Some audio_data)) =>
        let s1 := set_audio_queue q s in
        match _transcribe_audio s1 audio_data transcribe processing_time with
        | (s2, Raise _) =>
            let s3 := emit (LogError "Processing worker error") s2 in
            Some (if on_error s3
                  then emit (ErrorCallback "STT processing error") s3
                  else s3)
        | (s2, Return text) =>
            match text with
            | [] => Some s2
            | _ =>
                let s3 := set_result_queue (result_queue s2 ++ [text]) s2 in
                Some (if on_transcription s3
                      then emit (TranscriptionCallback text) s3 else s3)
            end
        end
    end.

End Transcription.

(** [start]: [load_ok] tells whether [whisper.load_model] succeeds when the
    model has to be loaded; a failure is reported and raised again. A fresh
    model is warmed up on one second of silence. *)
Definition start (s : RealtimeSTT) (load_ok : bool)
  : RealtimeSTT * PyResult unit :=
  if is_running s then (emit (LogWarning "STT already running") s, Return tt)
  else if model_loaded s then (set_is_running true s, Return tt)
  else if load_ok then
    let dummy_audio := repeat 0 (Z.to_nat (sample_rate (config s))) in
    (set_is_running true
       (emit (ModelCall dummy_audio) (set_model_loaded true s)), Return tt)
  else
    let s1 := emit (LogError "Failed to load Whisper model") s in
    (if on_error s1
     then emit (ErrorCallback "Failed to load Whisper model") s1 else s1,
     Raise "Exception").

(** [process_audio]: the put has a timeout of one second; [freed] is as in
    [queue_put]. *)
Definition process_audio (s : RealtimeSTT) (audio_data : frame) (freed : nat)
  : RealtimeSTT :=
  if negb (is_running s) then emit (LogWarning "STT not running") s
  else
    match queue_put (audio_queue s) (Some audio_data) freed with
    | (q, Return _) => set_audio_queue q s
    | (q, Raise _) =>
        emit (LogWarning "Audio queue full, dropping audio data")
             (set_audio_queue q s)
    end.

(** A stage in good order: it runs only with its model loaded. *)
Definition loaded_when_running (s : RealtimeSTT) : Prop :=
  is_running s = true -> model_loaded s = true.

(** *** Example values *)

(** A running stage with the model loaded, as [start] leaves it. *)
Definition running_stt : RealtimeSTT :=
  set_is_running true (set_model_loaded true (init default_config)).

(** A quarter of a second of silence at 16 kHz, and twelve seconds of
    silence for a stage configured at 100 Hz. *)
Definition quarter_second : frame := repeat 0 4000.

Definition coarse_stt : RealtimeSTT :=
  set_is_running true
    (set_model_loaded true (init (mkConfig 100 1 10 []))).


End RealtimeSTT.

(** ** hashlib.md5 over UTF-8 *)

Module Md5.
Import Py.
#[local] Open Scope N_scope.

(** [text.encode('utf-8')]: [None] stands for [UnicodeEncodeError], raised
    on a surrogate code point. *)
Definition utf8_char (c : N) : option (list N) :=
  if c <? 128 then Some [c]
  else if c <? 2048 then
    Some [N.lor 192 (N.shiftr c 6); N.lor 128 (N.land c 63)]
  else if c <? 65536 then
    if (55296 <=? c) && (c <=? 57343) then None
    else Some [N.lor 224 (N.shiftr c 12);
               N.lor 128 (N.land (N.shiftr c 6) 63);
               N.lor 128 (N.land c 63)]
  else if c <? 1114112 then
    Some [N.lor 240 (N.shiftr c 18);
          N.lor 128 (N.land (N.shiftr c 12) 63);
          N.lor 128 (N.land (N.shiftr c 6) 63);
          N.lor 128 (N.land c 63)]
  else None.

Fixpoint utf8_encode (s : str) : option (list N) :=
  match s with
  | [] => Some []
  | c :: s' =>
      match utf8_char c, utf8_encode s' with
      | Some b, Some bs => Some (b ++ bs)
      | _, _ => None
      end
  end.

Definition mask32 : N := 4294967295.
Definition add32 (a b : N) : N := N.land (a + b) mask32.
Definition not32 (a : N) : N := N.lxor a mask32.
Definition rotl32 (x : N) (c : N) : N :=
  N.lor (N.land (N.shiftl x c) mask32) (N.shiftr x (32 - c)).

(** Per-round shift amounts and the constants [floor(2^32 * abs(sin(i+1)))]. *)
Definition shifts : list N :=
  [7; 12; 17; 22; 7; 12; 17; 22; 7; 12; 17; 22; 7; 12; 17; 22;
   5; 9; 14; 20; 5; 9; 14; 20; 5; 9; 14; 20; 5; 9; 14; 20;
   4; 11; 16; 23; 4; 11; 16; 23; 4; 11; 16; 23; 4; 11; 16; 23;
   6; 10; 15; 21; 6; 10; 15; 21; 6; 10; 15; 21; 6; 10; 15; 21].

Definition sines : list N :=
  [3614090360; 3905402710; 606105819; 3250441966; 4118548399; 1200080426;
   2821735955; 4249261313; 1770035416; 2336552879; 4294925233; 2304563134;
   1804603682; 4254626195; 2792965006; 1236535329; 4129170786; 3225465664;
   643717713; 3921069994; 3593408605; 38016083; 3634488961; 3889429448;
   568446438; 3275163606; 4107603335; 1163531501; 2850285829; 4243563512;
   1735328473; 2368359562; 4294588738; 2272392833; 1839030562; 4259657740;
   2763975236; 1272893353; 4139469664; 3200236656; 681279174; 3936430074;
   3572445317; 76029189; 3654602809; 3873151461; 530742520; 3299628645;
   4096336452; 1126891415; 2878612391; 4237533241; 1700485571; 2399980690;
   4293915773; 2240044497; 1873313359; 4264355552; 2734768916; 1309151649;
   4149444226; 3174756917; 718787259; 3951481745].

(** Little-endian bytes of a word and back. *)
Definition le_bytes (n : nat) (w : N) : list N :=
  map (fun i => N.land (N.shiftr w (8 * N.of_nat i)) 255) (seq 0 n).

Fixpoint le_word (bs : list N) : N :=
  match bs with
  | [] => 0
  | b :: bs' => b + 256 * le_word bs'
  end.

(** The message followed by the byte 128, zero bytes up to 56 modulo 64 and
    the bit length on eight bytes. *)
Definition pad (msg : list N) : list N :=
  let len := N.of_nat (length msg) in
  let zeros := N.to_nat ((119 - len mod 64) mod 64) in
  msg ++ [128] ++ repeat 0 zeros ++ le_bytes 8 (N.land (8 * len) 18446744073709551615).

Fixpoint chunks (fuel : nat) (n : nat) (l : list N) : list (list N) :=
  match fuel, l with
  | O, _ | _, [] => []
  | S fuel', _ => take n l :: chunks fuel' n (drop n l)
  end.

Definition state : Type := N * N * N * N.

Definition round (m : list N) (st : state) (isk : N * (N * N)) : state :=
  let '(a, b, c, d) := st in
  let '(i, (s, k)) := isk in
  let '(f, g) :=
    if i <? 16 then (N.lor (N.land b c) (N.land (not32 b) d), i)
    else if i <? 32 then
      (N.lor (N.land d b) (N.land (not32 d) c), (5 * i + 1) mod 16)
    else if i <? 48 then (N.lxor b (N.lxor c d), (3 * i + 5) mod 16)
    else (N.lxor c (N.lor b (not32 d)), (7 * i) mod 16) in
  let f := add32 (add32 (add32 f a) k) (nth (N.to_nat g) m 0) in
  (d, add32 b (rotl32 f s), b, c).

Definition schedule : list (N * (N * N)) :=
  combine (map N.of_nat (seq 0 64)) (combine shifts sines).

Definition compress (st : state) (block : list N) : state :=
  let m := map le_word (chunks 16 4 block) in
  let '(a, b, c, d) := st in
  let '(a', b', c', d') := fold_left (round m) schedule st in
  (add32 a a', add32 b b', add32 c c', add32 d d').

Definition digest (msg : list N) : list N :=
  let p := pad msg in
  let '(a, b, c, d) :=
    fold_left compress (chunks (length p) 64 p)
              (1732584193, 4023233417, 2562383102, 271733878) in
  le_bytes 4 a ++ le_bytes 4 b ++ le_bytes 4 c ++ le_bytes 4 d.

Definition hex_digit (n : N) : N := if n <? 10 then 48 + n else 87 + n.

(** [hashlib.md5(data).hexdigest()] *)
Definition hexdigest (msg : list N) : str :=
  flat_map (fun b => [hex_digit (N.shiftr b 4); hex_digit (N.land b 15)])
           (digest msg).

End Md5.

(** ** realtime_translator.py *)

Module RealtimeTranslator.
Import Py.
#[local] Open Scope Q_scope.

(** [class RealtimeTranslatorConfig]: the options read by the translation
    path. *)
Record RealtimeTranslatorConfig : Type := mkConfig {
  use_cache : bool;
  max_queue_size : Z;
  min_text_length : Z;
  max_text_length : Z;
  skip_duplicates : bool
}.

(** [RealtimeTranslatorConfig.__init__] *)
Definition default_config : RealtimeTranslatorConfig :=
  {| use_cache := true;
     max_queue_size := 20;
     min_text_length := 2;
     max_text_length := 500;
     skip_duplicates := true |}.

(** What the stage does that is visible from outside. [EngineCall] carries
    the prompt handed to the tokenizer and the model. *)
Inductive event : Type :=
| EngineCall (prompt : str)
| LogWarning (msg : string)
| LogError (msg : string)
| ErrorCallback (msg : string)
| TranslationCallback (original translated : str).

(** [class RealtimeTranslator]. [model_loaded] is false when [self.model] or
    [self.tokenizer] is [None]; [trace] lists the events so far, oldest
    first. *)
Record RealtimeTranslator : Type := mkTranslator {
  config : RealtimeTranslatorConfig;
  model_loaded : bool;
  translation_cache : gmap str str;
  translation_queue : queue (option str);
  result_queue : list (str * str);
  is_running : bool;
  last_translated_text : str;
  translation_times : list Q;
  cache_hits : nat;
  cache_misses : nat;
  on_translation : bool;
  on_error : bool;
  trace : list event
}.

(** [RealtimeTranslator.__init__]; [loaded] is the result of [load_cache()]. *)
Definition init (cfg : RealtimeTranslatorConfig) (loaded : gmap str str)
  : RealtimeTranslator :=
  {| config := cfg;
     model_loaded := false;
     translation_cache := if use_cache cfg then loaded else ∅;
     translation_queue := queue_new (max_queue_size cfg);
     result_queue := [];
     is_running := false;
     last_translated_text := [];
     translation_times := [];
     cache_hits := 0;
     cache_misses := 0;
     on_translation := false;
     on_error := false;
     trace := [] |}.

Definition set_model_loaded (b : bool) (s : RealtimeTranslator) :=
  mkTranslator (config s) b (translation_cache s) (translation_queue s)
    (result_queue s) (is_running s) (last_translated_text s)
    (translation_times s) (cache_hits s) (cache_misses s)
    (on_translation s) (on_error s) (trace s).

Definition set_translation_cache (c : gmap str str) (s : RealtimeTranslator) :=
  mkTranslator (config s) (model_loaded s) c (translation_queue s)
    (result_queue s) (is_running s) (last_translated_text s)
    (translation_times s) (cache_hits s) (cache_misses s)
    (on_translation s) (on_error s) (trace s).

Definition set_translation_queue (q : queue (option str))
    (s : RealtimeTranslator) :=
  mkTranslator (config s) (model_loaded s) (translation_cache s) q
    (result_queue s) (is_running s) (last_translated_text s)
    (translation_times s) (cache_hits s) (cache_misses s)
    (on_translation s) (on_error s) (trace s).

Definition set_result_queue (q : list (str * str)) (s : RealtimeTranslator) :=
  mkTranslator (config s) (model_loaded s) (translation_cache s)
    (translation_queue s) q (is_running s) (last_translated_text s)
    (translation_times s) (cache_hits s) (cache_misses s)
    (on_translation s) (on_error s) (trace s).

Definition set_is_running (b : bool) (s : RealtimeTranslator) :=
  mkTranslator (config s) (model_loaded s) (translation_cache s)
    (translation_queue s) (result_queue s) b (last_translated_text s)
    (translation_times s) (cache_hits s) (cache_misses s)
    (on_translation s) (on_error s) (trace s).

Definition set_last_translated_text (t : str) (s : RealtimeTranslator) :=
  mkTranslator (config s) (model_loaded s) (translation_cache s)
    (translation_queue s) (result_queue s) (is_running s) t
    (translation_times s) (cache_hits s) (cache_misses s)
    (on_translation s) (on_error s) (trace s).

Definition set_translation_times (l : list Q) (s : RealtimeTranslator) :=
  mkTranslator (config s) (model_loaded s) (translation_cache s)
    (translation_queue s) (result_queue s) (is_running s)
    (last_translated_text s) l (cache_hits s) (cache_misses s)
    (on_translation s) (on_error s) (trace s).

Definition set_cache_hits (n : nat) (s : RealtimeTranslator) :=
  mkTranslator (config s) (model_loaded s) (translation_cache s)
    (translation_queue s) (result_queue s) (is_running s)
    (last_translated_text s) (translation_times s) n (cache_misses s)
    (on_translation s) (on_error s) (trace s).

Definition set_cache_misses (n : nat) (s : RealtimeTranslator) :=
  mkTranslator (config s) (model_loaded s) (translation_cache s)
    (translation_queue s) (result_queue s) (is_running s)
    (last_translated_text s) (translation_times s) (cache_hits s) n
    (on_translation s) (on_error s) (trace s).

Definition emit (e : event) (s : RealtimeTranslator) :=
  mkTranslator (config s) (model_loaded s) (translation_cache s)
    (translation_queue s) (result_queue s) (is_running s)
    (last_translated_text s) (translation_times s) (cache_hits s)
    (cache_misses s) (on_translation s) (on_error s) (trace s ++ [e]).

(** The number of times the translation engine was invoked so far. *)
Definition is_engine_call (e : event) : bool :=
  match e with EngineCall _ => true | _ => false end.

Definition engine_calls (s : RealtimeTranslator) : nat :=
  length (List.filter is_engine_call (trace s)).

(** [get_cache_key]: the hexadecimal MD5 digest of the UTF-8 bytes. The
    [lru_cache] around it does not change what it returns. *)
Definition get_cache_key (text : str) : PyResult str :=
  match Md5.utf8_encode text with
  | None => Raise "UnicodeEncodeError"
  | Some data => Return (Md5.hexdigest data)
  end.

(** The text that [translate_text] works on after its first lines:
    [text.strip()], cut to [max_text_length] code points when longer. *)
Definition normalize (cfg : RealtimeTranslatorConfig) (text : str) : str :=
  let text := strip text in
  if (max_text_length cfg <? Z.of_nat (length text))%Z
  then slice_to text (max_text_length cfg) else text.

(** The instruction placed before the text in the prompt. *)
Definition prompt_prefix : str :=
  lit "Translate the following Japanese text into Korean. "
  ++ lit "Provide natural and accurate Korean translation. "
  ++ lit "Keep the original line breaks. Do not add any explanation."
  ++ [10; 10]%N.

(** The post-processing of the decoded output: drop everything up to the
    first echo of [text], then strip blanks, double quotes and blanks.
    [split] raises on an empty separator. *)
Definition postprocess (text out_text : str) : PyResult str :=
  let stripped o := strip (strip_quote (strip o)) in
  match after_first text out_text with
  | Some rest =>
      match text with
      | [] => Raise "ValueError"
      | _ => Return (stripped (strip rest))
      end
  | None => Return (stripped out_text)
  end.

(** [self.translation_times.append(t)], keeping the last ten. *)
Definition record_time (t : Q) (times : list Q) : list Q :=
  let times := times ++ [t] in
  if (10 <? length times)%nat then tail times else times.

(** [translate_text]. [engine] stands for the tokenizer, [model.generate]
    and [tokenizer.decode] applied to the prompt, and [processing_time] for
    the elapsed [time.time()] difference. *)
Definition translate_text (s : RealtimeTranslator) (text : str)
    (engine : str -> PyResult str) (processing_time : Q)
  : RealtimeTranslator * PyResult str :=
  let cfg := config s in
  if bool_decide (text = [])
     || (Z.of_nat (length (strip text)) <? min_text_length cfg)%Z
  then (s, Return [])
  else
    let text := normalize cfg text in
    if skip_duplicates cfg && str_eqb text (last_translated_text s)
    then (s, Return [])
    else
      let cache_key : PyResult (option str) :=
        if use_cache cfg then
          match get_cache_key text with
          | Raise e => Raise e
          | Return k => Return (Some k)
          end
        else Return None in
      match cache_key with
      | Raise e => (s, Raise e)
      | Return cache_key =>
          match cache_key ≫= (fun k => translation_cache s !! k) with
          | Some cached =>
              (set_last_translated_text text
                 (set_cache_hits (S (cache_hits s)) s), Return cached)
          | None =>
              let s1 := set_cache_misses (S (cache_misses s)) s in
              if negb (model_loaded s1) then (s1, Raise "RuntimeError")
              else
                let s2 := emit (EngineCall (prompt_prefix ++ text)) s1 in
                let failed := (emit (LogError "Translation error") s2,
                               Return text) in
                match engine (prompt_prefix ++ text) with
                | Raise _ => failed
                | Return out_text =>
                    match postprocess text out_text with
                    | Raise _ => failed
                    | Return out_text =>
                        let s3 :=
                          match cache_key with
                          | Some (c :: k) =>
                              set_translation_cache
                                (<[c :: k := out_text]> (translation_cache s2))
                                s2
                          | _ => s2
                          end in
                        let s4 := set_translation_times
                                    (record_time processing_time
                                       (translation_times s3)) s3 in
                        (set_last_translated_text text s4, Return out_text)
                    end
                end
          end
      end.

(** [translate_async]: the put has a timeout of one second; [freed] is as in
    [queue_put]. *)
Definition translate_async (s : RealtimeTranslator) (text : str) (freed : nat)
  : RealtimeTranslator * PyResult unit :=
  if negb (is_running s)
  then (emit (LogWarning "Translator not running") s, Return tt)
  else if bool_decide (text = [])
          || (Z.of_nat (length (strip text)) <? min_text_length (config s))%Z
  then (s, Return tt)
  else
    match queue_put (translation_queue s) (Some (strip text)) freed with
    | (q, Return _) => (set_translation_queue q s, Return tt)
    | (q, Raise _) =>
        (emit (LogWarning "Translation queue full, dropping request")
              (set_translation_queue q s), Return tt)
    end.





(** *** The outcomes of a call, and example values *)

(** The input passes the length filter at the head of [translate_text]. *)
Definition accepted (cfg : RealtimeTranslatorConfig) (text : str) : Prop :=
  text <> [] /\ (min_text_length cfg <= Z.of_nat (length (strip text)))%Z.

(** The six ways a call of [translate_text] can end: the input is filtered
    out, the cache key cannot be computed, the cache answers, the model is
    not loaded, the engine or the post-processing fails, the engine
    translates. *)
Inductive ending (s : RealtimeTranslator) (text : str)
    (engine : str -> PyResult str) (processing_time : Q)
  : RealtimeTranslator -> PyResult str -> Prop :=
| Filtered :
    ~ accepted (config s) text
    \/ (skip_duplicates (config s) = true
        /\ normalize (config s) text = last_translated_text s) ->
    ending s text engine processing_time s (Return [])
| KeyError e :
    use_cache (config s) = true ->
    get_cache_key (normalize (config s) text) = Raise e ->
    ending s text engine processing_time s (Raise e)
| Hit k cached :
    accepted (config s) text ->
    use_cache (config s) = true ->
    get_cache_key (normalize (config s) text) = Return k ->
    translation_cache s !! k = Some cached ->
    ending s text engine processing_time
      (set_last_translated_text (normalize (config s) text)
         (set_cache_hits (S (cache_hits s)) s))
      (Return cached)
| NotLoaded :
    model_loaded s = false ->
    ending s text engine processing_time
      (set_cache_misses (S (cache_misses s)) s) (Raise "RuntimeError")
| Failed :
    accepted (config s) text ->
    model_loaded s = true ->
    (forall out, engine (prompt_prefix ++ normalize (config s) text)
                 = Return out ->
                 exists e, postprocess (normalize (config s) text) out
                           = Raise e) ->
    ending s text engine processing_time
      (emit (LogError "Translation error")
         (emit (EngineCall (prompt_prefix ++ normalize (config s) text))
            (set_cache_misses (S (cache_misses s)) s)))
      (Return (normalize (config s) text))
| Translated raw out :
    accepted (config s) text ->
    model_loaded s = true ->
    engine (prompt_prefix ++ normalize (config s) text) = Return raw ->
    postprocess (normalize (config s) text) raw = Return out ->
    (use_cache (config s) = true ->
     exists k, get_cache_key (normalize (config s) text) = Return k
               /\ translation_cache s !! k = None) ->
    ending s text engine processing_time
      (set_last_translated_text (normalize (config s) text)
         (set_translation_times
            (record_time processing_time (translation_times s))
            (set_translation_cache
               (if use_cache (config s) then
                  match get_cache_key (normalize (config s) text) with
                  | Return k => <[k := out]> (translation_cache s)
                  | Raise _ => translation_cache s
                  end
                else translation_cache s)
               (emit (EngineCall (prompt_prefix ++ normalize (config s) text))
                  (set_cache_misses (S (cache_misses s)) s)))))
      (Return out).

(** A translator as [RealtimeTranslator()] builds it on an empty cache file,
    once the model is loaded. *)
Definition ready : RealtimeTranslator :=
  set_model_loaded true (init default_config ∅).

(** A text and an engine that answers every prompt. *)
Definition hello : str := lit "Hello world".
Definition annyeong : str -> PyResult str := fun _ => Return (lit "annyeong").

(** Two texts of 501 characters: a space, 499 times the letter a, and a
    last letter that differs. *)
Definition long_b : str := (32 :: repeat 97 499 ++ [98])%N.
Definition long_c : str := (32 :: repeat 97 499 ++ [99])%N.


End RealtimeTranslator.

(** ** audio_capture.py: the states of a capture object *)

Module CaptureStates.
Import Py AudioCapture.
#[local] Open Scope Q_scope.


(** An outcome that dispatches a segment. *)
Definition is_segment (r : PyResult (option frame)) : bool :=
  match r with Return (Some _) => true | _ => false end.

(** *** Example values *)



Definition continuous_capture : ChromeAudioCapture :=
  mkCapture default_config (mkDeque 78 [[1 # 2]]) true false None None
    None (deque_new 50) (5 # 1000) false true true 0 3.

End CaptureStates.

(** ** audio_capture.py: the choice of the capture device *)

Module AudioDevice.
Import Py.

(** The entries of a PyAudio device description that the search reads. *)
Record device_info : Type := mkDevice {
  name : str;
  maxInputChannels : Z
}.

(** [priority_keywords]: the keyword groups in priority order. *)
Definition priority_keywords : list (list str) :=
  [ [lit "WASAPI"; lit "loopback"];
    [lit "VoiceMeeter Output"; lit "VB-Audio"];
    [lit "CABLE Output"; lit "VB-Audio"];
    [[49828; 53580; 47112; 50724; 32; 48121; 49828]%N; lit "Stereo Mix"];
    [lit "Virtual Desktop Audio"];
    [lit "Steam Streaming Speakers"; lit "Input"];
    [lit "Speakers"; lit "Input"];
    [[47560; 51060; 53356]%N; lit "Microphone"] ].

Section Search.

(** [str.lower] *)
Variable str_lower : str -> str.

(** The body of the inner loop for one device: [d] is what
    [get_device_info_by_index(i)] gives; an exception is swallowed and the
    loop goes on. *)
Definition device_matches (keywords : list str) (d : PyResult device_info)
  : bool :=
  match d with
  | Raise _ => false
  | Return device_info =>
      if (maxInputChannels device_info =? 0)%Z then false
      else
        let name_lower := str_lower (name device_info) in
        forallb (fun keyword => contains (str_lower keyword) name_lower)
                keywords
  end.

(** [for i in range(get_device_count())], from index [i] on. *)
Fixpoint first_device (keywords : list str) (devices : list (PyResult device_info))
    (i : nat) : option nat :=
  match devices with
  | [] => None
  | d :: rest =>
      if device_matches keywords d then Some i
      else first_device keywords rest (S i)
  end.

(** [for keywords in priority_keywords] *)
Fixpoint search (groups : list (list str))
    (devices : list (PyResult device_info)) : option nat :=
  match groups with
  | [] => None
  | keywords :: rest =>
      match first_device keywords devices 0 with
      | Some i => Some i
      | None => search rest devices
      end
  end.

(** [get_default_speaker_device]: [default_index] is the ['index'] entry of
    [get_default_input_device_info()], or the exception it raises. *)
Definition get_default_speaker_device (devices : list (PyResult device_info))
    (default_index : PyResult Z) : Z :=
  match search priority_keywords devices with
  | Some i => Z.of_nat i
  | None =>
      match default_index with
      | Return i => i
      | Raise _ => 0%Z
      end
  end.

End Search.

End AudioDevice.

(** ** realtime_stt.py: the worker loop and stop *)

Module RealtimeSTTControl.
Import Py RealtimeSTT.
#[local] Open Scope Q_scope.

Section Worker.

Variable str_lower : str -> str.

(** The texts that successive calls of [_filter_transcription] let through,
    in order: the worker drops an empty result ([if text:]). *)
Fixpoint filter_run (s : RealtimeSTT) (texts : list str)
  : RealtimeSTT * list str :=
  match texts with
  | [] => (s, [])
  | text :: rest =>
      let '(s1, out) := _filter_transcription str_lower s text in
      let '(s2, outs) := filter_run s1 rest in
      (s2, match out with [] => outs | _ => out :: outs end)
  end.

(** [_processing_worker]: the loop, for at most [fuel] iterations; [None]
    when the loop has not ended by then. When the loop ends on the
    termination signal, the signal has been taken off the queue. *)
Fixpoint _processing_worker (fuel : nat) (s : RealtimeSTT)
    (transcribe : frame -> PyResult str) (processing_time : Q)
  : option RealtimeSTT :=
  match fuel with
  | O => None
  | S fuel =>
      match _processing_worker_step str_lower s transcribe processing_time with
      | Some s1 => _processing_worker fuel s1 transcribe processing_time
      | None =>
          if negb (is_running s) && bool_decide (queued (audio_queue s) = [])
          then Some s
          else Some (set_audio_queue (fst (queue_get (audio_queue s))) s)
      end
  end.

End Worker.

(** [stop]: the termination signal is put without a timeout; on a bounded
    queue that is full the call waits for a consumer, and [None] stands for
    a call that has not returned. The queue of [__init__] is unbounded. The
    wait for the worker thread that follows changes no attribute. *)
Definition stop (s : RealtimeSTT) : option RealtimeSTT :=
  if negb (is_running s) then Some s
  else
    let s1 := set_is_running false s in
    match queue_put (audio_queue s1) None 0 with
    | (q, Return _) => Some (set_audio_queue q s1)
    | (_, Raise _) => None
    end.

(** The segments handed to the model, oldest first. *)
Definition model_calls (s : RealtimeSTT) : list frame :=
  omap (fun e => match e with ModelCall a => Some a | _ => None end) (trace s).

(** The duration test of [_transcribe_audio] passes without cutting. *)
Definition fits (cfg : RealtimeSTTConfig) (audio : frame) : Prop :=
  let duration := inject_Z (Z.of_nat (length audio))
                  / inject_Z (sample_rate cfg) in
  min_audio_length cfg <= duration /\ duration <= max_audio_length cfg.

(** One move of the stage: a call of [start], [process_audio] or [stop]
    that returns, or an iteration of the worker after which the loop goes
    on. *)
Inductive stt_step (str_lower : str -> str) (s : RealtimeSTT)
  : RealtimeSTT -> Prop :=
| step_start (load_ok : bool) : stt_step str_lower s (fst (start s load_ok))
| step_process_audio (audio_data : frame) (freed : nat) :
    stt_step str_lower s (process_audio s audio_data freed)
| step_stop (s1 : RealtimeSTT) : stop s = Some s1 -> stt_step str_lower s s1
| step_work (transcribe : frame -> PyResult str) (processing_time : Q)
    (s1 : RealtimeSTT) :
    _processing_worker_step str_lower s transcribe processing_time = Some s1 ->
    stt_step str_lower s s1.

(** A stage that runs, or has something queued, has its model loaded; and
    the worker has never reported an error. *)
Definition never_failed (s : RealtimeSTT) : Prop :=
  (is_running s = true \/ queued (audio_queue s) <> [] ->
   model_loaded s = true)
  /\ Forall (fun e => e <> LogError "Processing worker error"
                      /\ e <> ErrorCallback "STT processing error")
            (trace s).

(** An event other than a call of [on_error]. *)
Definition not_error_callback (e : event) : Prop :=
  match e with ErrorCallback _ => False | _ => True end.

(** *** Example values *)

(** A running stage with a quarter of a second waiting; one second at
    100 Hz, and the 100 Hz stage with that second waiting. *)
Definition waiting_stt : RealtimeSTT :=
  set_audio_queue (mkQueue 0 [Some quarter_second]) running_stt.

Definition one_second : frame := repeat 0 100.

Definition coarse_waiting : RealtimeSTT :=
  set_audio_queue (mkQueue 0 [Some one_second]) coarse_stt.

End RealtimeSTTControl.

(** ** realtime_translator.py: statistics, cache keys and what a stage keeps *)

Module TranslatorStats.
Import Py RealtimeTranslator.
#[local] Open Scope Q_scope.

(** The dictionary that [get_stats] returns. *)
Record stats : Type := mkStats {
  cache_hit_rate : Q;
  cache_entries : nat;
  avg_translation_time : Q;
  queue_size : nat;
  result_queue_size : nat;
  stats_cache_hits : nat;
  stats_cache_misses : nat
}.

(** [get_stats] *)
Definition get_stats (s : RealtimeTranslator) : stats :=
  let total_cache_requests := (cache_hits s + cache_misses s)%nat in
  let cache_hit_rate :=
    if (0 <? total_cache_requests)%nat
    then inject_Z (Z.of_nat (cache_hits s))
         / inject_Z (Z.of_nat total_cache_requests)
    else 0 in
  let avg_translation_time :=
    match translation_times s with
    | [] => 0
    | _ => sum (translation_times s)
           / inject_Z (Z.of_nat (length (translation_times s)))
    end in
  {| cache_hit_rate := cache_hit_rate;
     cache_entries := size (translation_cache s);
     avg_translation_time := avg_translation_time;
     queue_size := length (queued (translation_queue s));
     result_queue_size := length (result_queue s);
     stats_cache_hits := cache_hits s;
     stats_cache_misses := cache_misses s |}.

(** A code point that [str.encode('utf-8')] accepts. *)
Definition encodable (c : N) : bool :=
  ((c <? 1114112) && negb ((55296 <=? c) && (c <=? 57343)))%N.

(** [c in '0123456789abcdef'] *)
Definition is_hex_digit (c : N) : bool :=
  ((48 <=? c) && (c <=? 57) || (97 <=? c) && (c <=? 102))%N.






End TranslatorStats.

(** ** overlay_ui.py *)

Module OverlayUI.
Import Py.
#[local] Open Scope Q_scope.

(** [class OverlayConfig]: the options read when subtitles are updated. *)
Record OverlayConfig : Type := mkConfig {
  auto_hide_enabled : bool;
  auto_hide_delay : Q;
  lyrics_style : bool;
  max_history_lines : Z;
  show_original : bool;
  show_translated : bool;
  max_line_length : Z
}.

(** [OverlayConfig.__init__] *)
Definition default_config : OverlayConfig :=
  {| auto_hide_enabled := true;
     auto_hide_delay := 10;
     lyrics_style := true;
     max_history_lines := 5;
     show_original := true;
     show_translated := true;
     max_line_length := 80 |}.

(** The entries of the update queue, by their ['type']. *)
Inductive update : Type :=
| Subtitle (original translated : str)
| Hide
| Show.

(** [class TransparentOverlay]. A label is [None] until the user interface
    creates it and holds its text afterwards; [hide_timer] is the delay of
    the timer that is counting, if one is; the queue lists the pending
    updates, oldest first. *)
Record TransparentOverlay : Type := mkOverlay {
  config : OverlayConfig;
  original_label : option str;
  translated_label : option str;
  is_visible : bool;
  current_original : str;
  current_translated : str;
  last_update_time : Q;
  translation_history : list (str * str);
  hide_timer : option Q;
  update_queue : list update
}.

(** [TransparentOverlay.__init__], with the configuration as loaded and the
    clock reading [now]. *)
Definition init (cfg : OverlayConfig) (now : Q) : TransparentOverlay :=
  {| config := cfg;
     original_label := None;
     translated_label := None;
     is_visible := true;
     current_original := [];
     current_translated := [];
     last_update_time := now;
     translation_history := [];
     hide_timer := None;
     update_queue := [] |}.

(** The text of the translated label before the first subtitle. *)
Definition waiting : str :=
  [49892; 49884; 44036; 32; 48264; 50669; 51012; 32; 44592; 45796; 47532;
   45716; 32; 51473; 46; 46; 46]%N.

(** The labels that [_create_lyrics_style_ui] and [_create_default_style_ui]
    create: one for each kind of text that is shown. *)
Definition create_labels (s : TransparentOverlay) : TransparentOverlay :=
  mkOverlay (config s)
    (if show_original (config s) then Some [] else original_label s)
    (if show_translated (config s) then Some waiting else translated_label s)
    (is_visible s) (current_original s) (current_translated s)
    (last_update_time s) (translation_history s) (hide_timer s)
    (update_queue s).

(** Attribute assignments. *)
Definition set_labels (o t : option str) (s : TransparentOverlay) :=
  mkOverlay (config s) o t (is_visible s) (current_original s)
    (current_translated s) (last_update_time s) (translation_history s)
    (hide_timer s) (update_queue s).

Definition set_is_visible (b : bool) (s : TransparentOverlay) :=
  mkOverlay (config s) (original_label s) (translated_label s) b
    (current_original s) (current_translated s) (last_update_time s)
    (translation_history s) (hide_timer s) (update_queue s).

Definition set_current (original translated : str) (now : Q)
    (s : TransparentOverlay) :=
  mkOverlay (config s) (original_label s) (translated_label s) (is_visible s)
    original translated now (translation_history s) (hide_timer s)
    (update_queue s).

Definition set_translation_history (h : list (str * str))
    (s : TransparentOverlay) :=
  mkOverlay (config s) (original_label s) (translated_label s) (is_visible s)
    (current_original s) (current_translated s) (last_update_time s) h
    (hide_timer s) (update_queue s).

Definition set_hide_timer (t : option Q) (s : TransparentOverlay) :=
  mkOverlay (config s) (original_label s) (translated_label s) (is_visible s)
    (current_original s) (current_translated s) (last_update_time s)
    (translation_history s) t (update_queue s).

Definition set_update_queue (q : list update) (s : TransparentOverlay) :=
  mkOverlay (config s) (original_label s) (translated_label s) (is_visible s)
    (current_original s) (current_translated s) (last_update_time s)
    (translation_history s) (hide_timer s) q.

Definition set_config (cfg : OverlayConfig) (s : TransparentOverlay) :=
  mkOverlay cfg (original_label s) (translated_label s) (is_visible s)
    (current_original s) (current_translated s) (last_update_time s)
    (translation_history s) (hide_timer s) (update_queue s).

(** [update_subtitle], [show] and [hide]: the queue is unbounded. *)
Definition update_subtitle (s : TransparentOverlay)
    (original_text translated_text : str) : TransparentOverlay :=
  set_update_queue (update_queue s ++ [Subtitle original_text translated_text])
    s.

Definition show (s : TransparentOverlay) : TransparentOverlay :=
  set_update_queue (update_queue s ++ [Show]) s.

Definition hide (s : TransparentOverlay) : TransparentOverlay :=
  set_update_queue (update_queue s ++ [Hide]) s.

(** [_show_overlay] and [_hide_overlay] *)
Definition _show_overlay (s : TransparentOverlay) : TransparentOverlay :=
  if is_visible s then s else set_is_visible true s.

Definition _hide_overlay (s : TransparentOverlay) : TransparentOverlay :=
  if negb (is_visible s) then s else set_is_visible false s.

(** The two assignments to the labels that both styles make: a label is
    written when it exists and its kind of text is shown. *)
Definition write_labels (original translated : str) (s : TransparentOverlay)
  : TransparentOverlay :=
  set_labels
    (match original_label s with
     | Some old => Some (if show_original (config s) then original else old)
     | None => None
     end)
    (match translated_label s with
     | Some old => Some (if show_translated (config s) then translated else old)
     | None => None
     end)
    s.

(** [_update_default_style] *)
Definition _update_default_style (s : TransparentOverlay)
    (original translated : str) : TransparentOverlay :=
  write_labels original translated s.

(** [_update_lyrics_style]: the history takes the current pair, which
    [_update_subtitle_display] has already set to the new texts. *)
Definition _update_lyrics_style (s : TransparentOverlay)
    (original translated : str) : TransparentOverlay :=
  let s1 :=
    if negb (bool_decide (current_translated s = []))
       && negb (str_eqb (current_translated s) waiting)
    then
      let h := translation_history s
               ++ [(current_original s, current_translated s)] in
      set_translation_history
        (if (max_history_lines (config s) <? Z.of_nat (length h))%Z
         then tail h else h) s
    else s in
  write_labels original translated s1.

(** [text[:max_line_length] + "..."] when the text is longer. *)
Definition clip (cfg : OverlayConfig) (text : str) : str :=
  if (max_line_length cfg <? Z.of_nat (length text))%Z
  then slice_to text (max_line_length cfg) ++ lit "..."
  else text.

(** [_update_subtitle_display]; [now] is the value of [time.time()]. *)
Definition _update_subtitle_display (s : TransparentOverlay)
    (original translated : str) (now : Q) : TransparentOverlay :=
  let s1 := set_current original translated now s in
  let s2 := if negb (is_visible s1) then _show_overlay s1 else s1 in
  let original := clip (config s2) original in
  let translated := clip (config s2) translated in
  let s3 := if lyrics_style (config s2)
            then _update_lyrics_style s2 original translated
            else _update_default_style s2 original translated in
  let s4 := match hide_timer s3 with
            | Some _ => set_hide_timer None s3
            | None => s3
            end in
  if auto_hide_enabled (config s4) && ltb 0 (auto_hide_delay (config s4))
  then set_hide_timer (Some (auto_hide_delay (config s4))) s4
  else s4.

(** The loop of [_check_updates] over the queued updates; [clock i] is the
    [i]-th reading of [time.time()] made during the call. The second
    component counts the readings made. *)
Fixpoint drain (s : TransparentOverlay) (updates : list update)
    (clock : nat -> Q) (i : nat) : TransparentOverlay * nat :=
  match updates with
  | [] => (s, i)
  | Subtitle original translated :: rest =>
      drain (_update_subtitle_display s original translated (clock i))
            rest clock (S i)
  | Hide :: rest => drain (_hide_overlay s) rest clock i
  | Show :: rest => drain (_show_overlay s) rest clock i
  end.

(** [_check_updates]: the queue is emptied, then the overlay is hidden when
    it has not been updated for longer than the delay. *)
Definition _check_updates (s : TransparentOverlay) (clock : nat -> Q)
  : TransparentOverlay :=
  let '(s1, i) := drain (set_update_queue [] s) (update_queue s) clock 0 in
  if auto_hide_enabled (config s1)
     && ltb 0 (auto_hide_delay (config s1))
     && ltb (auto_hide_delay (config s1)) (clock i - last_update_time s1)
  then (if is_visible s1 then _hide_overlay s1 else s1)
  else s1.

(** The loop of [_update_history_lines]: [pop(0)] raises on an empty list. *)
Fixpoint pop_while_longer (h : list (str * str)) (lines : Z)
  : list (str * str) * PyResult unit :=
  if (lines <? Z.of_nat (length h))%Z then
    match h with
    | [] => ([], Raise "IndexError")
    | _ :: h' => pop_while_longer h' lines
    end
  else (h, Return tt).

(** [_update_history_lines] *)
Definition _update_history_lines (s : TransparentOverlay) (lines : Z)
  : TransparentOverlay * PyResult unit :=
  let cfg := config s in
  let s1 := set_config
              (mkConfig (auto_hide_enabled cfg) (auto_hide_delay cfg)
                 (lyrics_style cfg) lines (show_original cfg)
                 (show_translated cfg) (max_line_length cfg)) s in
  let '(h, r) := pop_while_longer (translation_history s1) lines in
  (set_translation_history h s1, r).





Section Colors.

(** [int(s, 16)] *)
Variable int16 : str -> PyResult Z.


End Colors.




(** The last subtitle among queued updates. *)
Fixpoint last_subtitle (updates : list update) : option (str * str) :=
  match updates with
  | [] => None
  | u :: rest =>
      match last_subtitle rest with
      | Some p => Some p
      | None =>
          match u with
          | Subtitle original translated => Some (original, translated)
          | _ => None
          end
      end
  end.

(** The number of subtitle updates among queued updates. *)
Definition subtitles (updates : list update) : nat :=
  length (List.filter (fun u => match u with Subtitle _ _ => true | _ => false end)
                      updates).

(** The history respects the configured number of lines. *)
Definition history_ok (s : TransparentOverlay) : Prop :=
  (0 <= max_history_lines (config s))%Z
  /\ (Z.of_nat (length (translation_history s))
      <= max_history_lines (config s))%Z.

(** *** Example values *)

(** An overlay with its labels created, and one with a subtitle queued. *)
Definition fresh_overlay : TransparentOverlay :=
  create_labels (init default_config 0).

Definition one_queued : TransparentOverlay :=
  update_subtitle fresh_overlay (lit "konnichiwa") (lit "annyeong").

End OverlayUI.

(** ** main.py *)

Module Main.
Import Py.
#[local] Open Scope Q_scope.

#[local] Set Warnings "-register-all".

(** A value read by [json.load]. *)
Inductive json : Type :=
| JNull
| JBool (b : bool)
| JNumber (q : Q)
| JString (s : str)
| JArray (l : list json)
| JObject (entries : gmap str json).

(** [bool(v)] *)
Definition truthy (v : json) : bool :=
  match v with
  | JNull => false
  | JBool b => b
  | JNumber q => negb (Qeq_bool q 0)
  | JString s => negb (bool_decide (s = []))
  | JArray l => match l with [] => false | _ => true end
  | JObject entries => negb (bool_decide (entries = ∅))
  end.

(** [class ChromeRealtimeTranslatorConfig]. The first four attributes exist
    only once [load_base_config] has assigned them: [None] stands for an
    attribute that is not set. *)
Record ChromeRealtimeTranslatorConfig : Type := mkConfig {
  model_name : option json;
  max_new_tokens : option json;
  use_cache : option json;
  cache_dir : option json;
  log_level : option json;
  enable_audio_capture : bool;
  enable_stt : bool;
  enable_translation : bool;
  enable_overlay : bool;
  stt_workers : Z;
  translation_workers : Z;
  save_debug_audio : bool;
  show_performance_stats : bool;
  stats_interval : Q
}.

(** [base_config.get(key, default)] *)
Definition get (base_config : gmap str json) (key : string) (default : json)
  : json :=
  match base_config !! lit key with
  | Some v => v
  | None => default
  end.

(** The attributes that [load_base_config] assigns. [config_file] is [None]
    when [config.json] does not exist, and otherwise what [open] and
    [json.load] give; every exception is caught and logged, and [get] on a
    value that is not an object raises before anything is assigned. *)
Definition load_base_config (config_file : option (PyResult json))
  : option (json * json * json * json * json) :=
  match config_file with
  | Some (Return (JObject base_config)) =>
      Some (get base_config "model_name"
              (JString (lit "tencent/Hunyuan-MT-7B")),
            get base_config "max_new_tokens" (JNumber 256),
            get base_config "use_cache" (JBool true),
            get base_config "cache_dir" (JString (lit ".cache")),
            get base_config "log_level" (JString (lit "INFO")))
  | _ => None
  end.

(** [ChromeRealtimeTranslatorConfig.__init__]: the file is read first, the
    fixed settings are assigned afterwards. *)
Definition config_init (config_file : option (PyResult json))
  : ChromeRealtimeTranslatorConfig :=
  let loaded := load_base_config config_file in
  {| model_name := match loaded with Some (m, _, _, _, _) => Some m | None => None end;
     max_new_tokens := match loaded with Some (_, n, _, _, _) => Some n | None => None end;
     use_cache := match loaded with Some (_, _, u, _, _) => Some u | None => None end;
     cache_dir := match loaded with Some (_, _, _, d, _) => Some d | None => None end;
     log_level := Some (JString (lit "INFO"));
     enable_audio_capture := true;
     enable_stt := true;
     enable_translation := true;
     enable_overlay := true;
     stt_workers := 1;
     translation_workers := 2;
     save_debug_audio := false;
     show_performance_stats := true;
     stats_interval := 30 |}.

(** [self.stats] *)
Record statistics : Type := mkStatistics {
  audio_segments_processed : nat;
  texts_transcribed : nat;
  translations_completed : nat;
  errors : nat
}.

(** [class ChromeRealtimeTranslator]; [error_log] lists the messages logged
    at level error, oldest first. *)
Record ChromeRealtimeTranslator : Type := mkSystem {
  config : ChromeRealtimeTranslatorConfig;
  audio_capture : option AudioCapture.ChromeAudioCapture;
  stt : option RealtimeSTT.RealtimeSTT;
  translator : option RealtimeTranslator.RealtimeTranslator;
  overlay : option OverlayUI.TransparentOverlay;
  is_running : bool;
  stats : statistics;
  error_log : list string
}.

(** [ChromeRealtimeTranslator.__init__] *)
Definition init (cfg : ChromeRealtimeTranslatorConfig)
  : ChromeRealtimeTranslator :=
  {| config := cfg;
     audio_capture := None;
     stt := None;
     translator := None;
     overlay := None;
     is_running := false;
     stats := mkStatistics 0 0 0 0;
     error_log := [] |}.

Definition set_audio_capture (c : option AudioCapture.ChromeAudioCapture)
    (s : ChromeRealtimeTranslator) :=
  mkSystem (config s) c (stt s) (translator s) (overlay s) (is_running s)
    (stats s) (error_log s).

Definition set_stt (c : option RealtimeSTT.RealtimeSTT)
    (s : ChromeRealtimeTranslator) :=
  mkSystem (config s) (audio_capture s) c (translator s) (overlay s)
    (is_running s) (stats s) (error_log s).

Definition set_translator (c : option RealtimeTranslator.RealtimeTranslator)
    (s : ChromeRealtimeTranslator) :=
  mkSystem (config s) (audio_capture s) (stt s) c (overlay s) (is_running s)
    (stats s) (error_log s).

Definition set_overlay (c : option OverlayUI.TransparentOverlay)
    (s : ChromeRealtimeTranslator) :=
  mkSystem (config s) (audio_capture s) (stt s) (translator s) c
    (is_running s) (stats s) (error_log s).

Definition set_stats (st : statistics) (s : ChromeRealtimeTranslator) :=
  mkSystem (config s) (audio_capture s) (stt s) (translator s) (overlay s)
    (is_running s) st (error_log s).

(** [self.logger.error(msg)] followed by [self.stats['errors'] += 1]. *)
Definition count_error (msg : string) (s : ChromeRealtimeTranslator) :=
  mkSystem (config s) (audio_capture s) (stt s) (translator s) (overlay s)
    (is_running s)
    (mkStatistics (audio_segments_processed (stats s))
       (texts_transcribed (stats s)) (translations_completed (stats s))
       (S (errors (stats s))))
    (error_log s ++ [msg]).

Definition log_error (msg : string) (s : ChromeRealtimeTranslator) :=
  mkSystem (config s) (audio_capture s) (stt s) (translator s) (overlay s)
    (is_running s) (stats s) (error_log s ++ [msg]).

(** What the constructors of the components find around them: whether
    [pyaudio.PyAudio()] and [cache_dir.mkdir] succeed, the configuration
    that [RealtimeSTTConfig()] builds, the cache that [load_cache] returns,
    the configuration of the overlay after [load], and the clock. *)
Record environment : Type := mkEnvironment {
  pyaudio_ok : bool;
  stt_config : RealtimeSTT.RealtimeSTTConfig;
  cache_dir_ok : bool;
  loaded_cache : gmap str str;
  overlay_config : OverlayUI.OverlayConfig;
  now : Q
}.

(** [ChromeAudioCapture(AudioCaptureConfig())] with the two callbacks
    assigned. *)
Definition new_audio_capture (env : environment)
  : PyResult AudioCapture.ChromeAudioCapture :=
  if pyaudio_ok env then
    match AudioCapture.init AudioCapture.default_config with
    | Return c =>
        Return (AudioCapture.mkCapture (AudioCapture.config c)
                  (AudioCapture.audio_buffer c) (AudioCapture.is_recording c)
                  (AudioCapture.is_speaking c)
                  (AudioCapture.speech_start_time c)
                  (AudioCapture.last_speech_time c)
                  (AudioCapture.silence_start_time c)
                  (AudioCapture.noise_buffer c)
                  (AudioCapture.adaptive_threshold c) true true
                  (AudioCapture.continuous_mode c)
                  (AudioCapture.last_processing_time c)
                  (AudioCapture.processing_interval c))
    | Raise e => Raise e
    end
  else Raise "OSError".

(** [RealtimeSTT(stt_config)] with the two callbacks assigned. *)
Definition new_stt (env : environment) : RealtimeSTT.RealtimeSTT :=
  let c := RealtimeSTT.init (stt_config env) in
  RealtimeSTT.mkSTT (RealtimeSTT.config c) (RealtimeSTT.model_loaded c)
    (RealtimeSTT.audio_queue c) (RealtimeSTT.result_queue c)
    (RealtimeSTT.is_running c) true true (RealtimeSTT.processing_times c)
    (RealtimeSTT.last_result c) (RealtimeSTT.trace c).

(** [RealtimeTranslator(translator_config)] with the two callbacks assigned;
    the configuration is the default one but for [use_cache]. *)
Definition new_translator (env : environment) (use_cache : json)
  : PyResult RealtimeTranslator.RealtimeTranslator :=
  if cache_dir_ok env then
    let d := RealtimeTranslator.default_config in
    let c := RealtimeTranslator.init
               (RealtimeTranslator.mkConfig (truthy use_cache)
                  (RealtimeTranslator.max_queue_size d)
                  (RealtimeTranslator.min_text_length d)
                  (RealtimeTranslator.max_text_length d)
                  (RealtimeTranslator.skip_duplicates d))
               (loaded_cache env) in
    Return (RealtimeTranslator.mkTranslator (RealtimeTranslator.config c)
              (RealtimeTranslator.model_loaded c)
              (RealtimeTranslator.translation_cache c)
              (RealtimeTranslator.translation_queue c)
              (RealtimeTranslator.result_queue c)
              (RealtimeTranslator.is_running c)
              (RealtimeTranslator.last_translated_text c)
              (RealtimeTranslator.translation_times c)
              (RealtimeTranslator.cache_hits c)
              (RealtimeTranslator.cache_misses c) true true
              (RealtimeTranslator.trace c))
  else Raise "OSError".

(** [_initialize_components]: an exception is logged and raised again; the
    components assigned before it stay assigned. *)
Definition _initialize_components (s : ChromeRealtimeTranslator)
    (env : environment) : ChromeRealtimeTranslator * PyResult unit :=
  let failed (s : ChromeRealtimeTranslator) (e : string) :=
    (log_error "Failed to initialize components" s, @Raise unit e) in
  let audio : PyResult ChromeRealtimeTranslator :=
    if enable_audio_capture (config s) then
      match new_audio_capture env with
      | Return c => Return (set_audio_capture (Some c) s)
      | Raise e => Raise e
      end
    else Return s in
  match audio with
  | Raise e => failed s e
  | Return s1 =>
      let s2 := if enable_stt (config s1)
                then set_stt (Some (new_stt env)) s1 else s1 in
      let translation : PyResult ChromeRealtimeTranslator :=
        if enable_translation (config s2) then
          match model_name (config s2), use_cache (config s2) with
          | Some _, Some u =>
              match new_translator env u with
              | Return t => Return (set_translator (Some t) s2)
              | Raise e => Raise e
              end
          | _, _ => Raise "AttributeError"
          end
        else Return s2 in
      match translation with
      | Raise e => failed s2 e
      | Return s3 =>
          let s4 := if enable_overlay (config s3)
                    then set_overlay
                           (Some (OverlayUI.init (overlay_config env) (now env)))
                           s3
                    else s3 in
          (s4, Return tt)
      end
  end.

(** [_on_audio_segment]. [freed] is as in [queue_put]; [save] is the outcome
    of [save_audio_buffer_to_file] when debugging audio is saved. *)
Definition _on_audio_segment (s : ChromeRealtimeTranslator)
    (audio_data : RealtimeSTT.frame) (freed : nat) (save : PyResult unit)
  : ChromeRealtimeTranslator :=
  let st := stats s in
  let s1 := set_stats
              (mkStatistics (S (audio_segments_processed st))
                 (texts_transcribed st) (translations_completed st)
                 (errors st)) s in
  match stt s1 with
  | None => s1
  | Some c =>
      let s2 := set_stt (Some (RealtimeSTT.process_audio c audio_data freed))
                  s1 in
      if save_debug_audio (config s2) then
        match audio_capture s2 with
        | None => count_error "Failed to process audio" s2
        | Some _ =>
            match save with
            | Return _ => s2
            | Raise _ => count_error "Failed to process audio" s2
            end
        end
      else s2
  end.

(** [_on_transcription] *)
Definition _on_transcription (s : ChromeRealtimeTranslator) (text : str)
    (freed : nat) : ChromeRealtimeTranslator :=
  if bool_decide (text = []) || (Z.of_nat (length (strip text)) <? 2)%Z
  then s
  else
    let st := stats s in
    let s1 := set_stats
                (mkStatistics (audio_segments_processed st)
                   (S (texts_transcribed st)) (translations_completed st)
                   (errors st)) s in
    match translator s1 with
    | None => s1
    | Some t =>
        match RealtimeTranslator.translate_async t text freed with
        | (t1, Return _) => set_translator (Some t1) s1
        | (t1, Raise _) =>
            count_error "Failed to request translation"
              (set_translator (Some t1) s1)
        end
    end.

(** [_on_translation] *)
Definition _on_translation (s : ChromeRealtimeTranslator)
    (original translated : str) : ChromeRealtimeTranslator :=
  if bool_decide (translated = [])
     || (Z.of_nat (length (strip translated)) <? 1)%Z
  then s
  else
    let st := stats s in
    let s1 := set_stats
                (mkStatistics (audio_segments_processed st)
                   (texts_transcribed st) (S (translations_completed st))
                   (errors st)) s in
    match overlay s1 with
    | None => s1
    | Some o =>
        set_overlay (Some (OverlayUI.update_subtitle o original translated)) s1
    end.

(** [_on_continuous_audio] *)
Definition _on_continuous_audio (s : ChromeRealtimeTranslator)
    (audio_data : RealtimeSTT.frame) (freed : nat)
  : ChromeRealtimeTranslator :=
  match stt s with
  | None => s
  | Some c =>
      set_stt (Some (RealtimeSTT.process_audio c audio_data freed)) s
  end.

(** [_on_stt_error] and [_on_translation_error] *)
Definition _on_stt_error (s : ChromeRealtimeTranslator)
  : ChromeRealtimeTranslator := count_error "STT Error" s.

Definition _on_translation_error (s : ChromeRealtimeTranslator)
  : ChromeRealtimeTranslator := count_error "Translation Error" s.

(** *** Example values *)

(** A [config.json] that holds an empty object, and surroundings in which
    every constructor succeeds. *)
Definition empty_object : option (PyResult json) := Some (Return (JObject ∅)).

Definition kind_environment : environment :=
  mkEnvironment true RealtimeSTT.default_config true ∅
    OverlayUI.default_config 0.

(** A system with a running translator and an overlay. *)
Definition wired : ChromeRealtimeTranslator :=
  set_overlay (Some OverlayUI.fresh_overlay)
    (set_translator
       (Some (RealtimeTranslator.set_is_running true RealtimeTranslator.ready))
       (init (config_init empty_object))).

(** A system with a running STT stage. *)
Definition wired_stt : ChromeRealtimeTranslator :=
  set_stt (Some RealtimeSTT.running_stt) (init (config_init empty_object)).

End Main.

(** ** realtime_translator.py: loading the model and starting *)

Module TranslatorStart.
Import Py RealtimeTranslator.
#[local] Open Scope Q_scope.

(** The text that [_warmup_model] translates. *)
Definition dummy_text : str := lit "Hello world".

(** [_warmup_model]: the warm-up is a call of [translate_text], and an
    exception is logged as a warning. *)
Definition _warmup_model (s : RealtimeTranslator)
    (engine : str -> PyResult str) (processing_time : Q) : RealtimeTranslator :=
  match translate_text s dummy_text engine processing_time with
  | (s1, Return _) => s1
  | (s1, Raise _) => emit (LogWarning "Model warmup failed") s1
  end.

(** [load_model]: [load_ok] tells whether the two [from_pretrained] calls
    succeed; a failure is reported and raised again. *)
Definition load_model (s : RealtimeTranslator) (load_ok : bool)
    (engine : str -> PyResult str) (processing_time : Q)
  : RealtimeTranslator * PyResult unit :=
  if model_loaded s then (s, Return tt)
  else if load_ok
  then (_warmup_model (set_model_loaded true s) engine processing_time,
        Return tt)
  else
    let s1 := emit (LogError "Failed to load translation model") s in
    (if on_error s1
     then emit (ErrorCallback "Failed to load translation model") s1 else s1,
     Raise "Exception").

(** [start], up to the creation of the worker threads, which the state does
    not record. *)
Definition start (s : RealtimeTranslator) (load_ok : bool)
    (engine : str -> PyResult str) (processing_time : Q)
  : RealtimeTranslator * PyResult unit :=
  if is_running s
  then (emit (LogWarning "Translator already running") s, Return tt)
  else
    match (if model_loaded s then (s, Return tt)
           else load_model s load_ok engine processing_time) with
    | (s1, Raise e) => (s1, Raise e)
    | (s1, Return _) => (set_is_running true s1, Return tt)
    end.

(** A translator as [RealtimeTranslator()] builds it on an empty cache
    file. *)
Definition fresh : RealtimeTranslator := init default_config ∅.

End TranslatorStart.

(** * Properties *)

(** ** Facts about the Python built-ins *)

Module PyFacts.
Import Py.

Lemma leb_le (a b : Q) : leb a b = true <-> (a <= b)%Q.
Proof. apply Qle_bool_iff. Qed.

Lemma ltb_lt (a b : Q) : ltb a b = true <-> (a < b)%Q.
Proof.
  unfold ltb. rewrite negb_true_iff. split.
  - intros H. apply Qnot_le_lt. intros Hle.
    apply Qle_bool_iff in Hle. congruence.
  - intros H. destruct (Qle_bool b a) eqn:E; [|reflexivity].
    apply Qle_bool_iff in E. exfalso. exact (Qlt_not_le _ _ H E).
Qed.





Lemma deque_append_room {A} (d : deque A) (x : A) :
  (deque_len d < maxlen d)%nat ->
  items (deque_append d x) = items d ++ [x].
Proof.
  unfold deque_len, deque_append. simpl. intros H.
  rewrite length_app. simpl.
  destruct (Nat.ltb_spec (maxlen d) (length (items d) + 1)) as [Hlt|Hge]; [lia|].
  reflexivity.
Qed.






(** [strip] is idempotent. *)
Lemma lstrip_by_idem (p : N -> bool) (s : str) :
  lstrip_by p (lstrip_by p s) = lstrip_by p s.
Proof.
  induction s as [|c s IH]; [reflexivity|].
  simpl. destruct (p c) eqn:E; [exact IH|]. simpl. rewrite E. reflexivity.
Qed.

Lemma lstrip_by_snoc (p : N -> bool) (s : str) (c : N) :
  p c = false -> lstrip_by p (s ++ [c]) = lstrip_by p s ++ [c].
Proof.
  intros Hc. induction s as [|x s IH]; simpl.
  - rewrite Hc. reflexivity.
  - destruct (p x); [exact IH|reflexivity].
Qed.

Lemma rstrip_by_cons (p : N -> bool) (s : str) (c : N) :
  p c = false -> rstrip_by p (c :: s) = c :: rstrip_by p s.
Proof.
  intros Hc. unfold rstrip_by. simpl.
  rewrite lstrip_by_snoc by exact Hc. rewrite rev_app_distr. reflexivity.
Qed.

Lemma rstrip_by_idem (p : N -> bool) (s : str) :
  rstrip_by p (rstrip_by p s) = rstrip_by p s.
Proof.
  unfold rstrip_by. rewrite rev_involutive, lstrip_by_idem. reflexivity.
Qed.

Lemma lstrip_by_length (p : N -> bool) (s : str) :
  (length (lstrip_by p s) <= length s)%nat.
Proof.
  induction s as [|c s IH]; simpl; [lia|]. destruct (p c); simpl; lia.
Qed.

Lemma lstrip_by_rstrip_by (p : N -> bool) (s : str) :
  lstrip_by p s = s -> lstrip_by p (rstrip_by p s) = rstrip_by p s.
Proof.
  destruct s as [|c s]; [reflexivity|]. simpl.
  destruct (p c) eqn:E.
  - intros H. pose proof (lstrip_by_length p s) as Hl.
    rewrite H in Hl. simpl in Hl. lia.
  - intros _. rewrite rstrip_by_cons by exact E. simpl. rewrite E. reflexivity.
Qed.

Lemma strip_by_idem (p : N -> bool) (s : str) :
  strip_by p (strip_by p s) = strip_by p s.
Proof.
  unfold strip_by.
  rewrite (lstrip_by_rstrip_by p (lstrip_by p s)) by apply lstrip_by_idem.
  apply rstrip_by_idem.
Qed.

Lemma strip_idem (s : str) : strip (strip s) = strip s.
Proof. apply strip_by_idem. Qed.

Lemma str_eqb_eq (a b : str) : str_eqb a b = true <-> a = b.
Proof. unfold str_eqb. apply bool_decide_eq_true. Qed.

End PyFacts.

(** ** audio_capture.py: ring buffer, classifier, segmentation *)

Module AudioCaptureFacts.
Import Py PyFacts AudioCapture.
#[local] Open Scope Q_scope.


Lemma update_noise_floor_frame (s : ChromeAudioCapture) (r : Q) :
  audio_buffer (update_noise_floor s r) = audio_buffer s
  /\ config (update_noise_floor s r) = config s
  /\ is_speaking (update_noise_floor s r) = is_speaking s.
Proof. unfold update_noise_floor. simpl. case_match; auto. Qed.


Section Capture.

Variable np_sqrt : Q -> Q.
Variable np_fft_abs2 : frame -> list Q.

Lemma detect_updates_noise_floor (s : ChromeAudioCapture) (a : frame) :
  fst (detect_voice_activity np_sqrt np_fft_abs2 s a)
  = update_noise_floor s (rms_of np_sqrt a).
Proof. unfold detect_voice_activity. repeat case_match; reflexivity. Qed.



End Capture.



Lemma init_default : init default_config = Return default_capture.
Proof. reflexivity. Qed.




(** *** The noise floor *)

Lemma update_noise_floor_window (s : ChromeAudioCapture) (r : Q) :
  noise_buffer (update_noise_floor s r) = deque_append (noise_buffer s) r.
Proof. unfold update_noise_floor. simpl. case_match; reflexivity. Qed.

Lemma feed_rms_snoc (s : ChromeAudioCapture) (l : list Q) (r : Q) :
  feed_rms s (l ++ [r]) = update_noise_floor (feed_rms s l) r.
Proof. unfold feed_rms. rewrite fold_left_app. reflexivity. Qed.

Lemma feed_rms_warmup_window (s : ChromeAudioCapture) (l : list Q) :
  noise_buffer s = deque_new 50 -> (length l <= 50)%nat ->
  noise_buffer (feed_rms s l) = mkDeque 50 l
  /\ config (feed_rms s l) = config s.
Proof.
  intros Hs. induction l as [|r l IH] using rev_ind; intros Hl.
  - simpl. auto.
  - rewrite length_app in Hl. simpl in Hl.
    destruct IH as [IHb IHc]; [lia|].
    rewrite feed_rms_snoc, update_noise_floor_window, IHb.
    destruct (update_noise_floor_frame (feed_rms s l) r) as (_ & Hc & _).
    rewrite Hc, IHc. split; [|reflexivity].
    unfold deque_append. simpl. rewrite length_app. simpl.
    destruct (Nat.ltb_spec 50 (length l + 1)); [lia|reflexivity].
Qed.

(** During warm-up the claim of C2 holds: from the tenth value up to the
    fiftieth, the threshold is the static threshold or twice the mean of the
    first ten values collected, whichever is greater. *)
Lemma noise_floor_warmup (s : ChromeAudioCapture) (l : list Q) :
  noise_buffer s = deque_new 50 ->
  (10 <= length l <= 50)%nat ->
  adaptive_threshold (feed_rms s l)
  = max (silence_threshold (config s)) (sum (take 10 l) / 10 * 2).
Proof.
  intros Hs Hl. destruct l as [|r l _] using rev_ind; [simpl in Hl; lia|].
  rewrite length_app in Hl. simpl in Hl.
  destruct (feed_rms_warmup_window s l Hs) as [Hb Hc]; [lia|].
  assert (Happ : deque_append (mkDeque 50 l) r = mkDeque 50 (l ++ [r])).
  { unfold deque_append. cbn [maxlen items]. rewrite length_app.
    cbn [length]. destruct (Nat.ltb_spec 50 (length l + 1)); [lia|reflexivity]. }
  rewrite feed_rms_snoc. unfold update_noise_floor.
  cbn [noise_buffer set_noise_buffer config].
  rewrite Hb, Hc, Happ. unfold deque_len. cbn [items].
  rewrite length_app. cbn [length].
  destruct (Nat.leb_spec 10 (length l + 1)); [|lia]. reflexivity.
Qed.

(** C2, evaluated on the code: with the default configuration, ten buffers of
    RMS 0.001 followed by fifty buffers of RMS 0.05. After fifty buffers the
    threshold is the floor derived from the first ten values, 0.005; after
    sixty it is 0.1, twice the mean of the ten oldest values still in the
    fifty-entry window. The threshold is recomputed on every buffer from the
    head of the sliding window. *)
Theorem noise_floor_slides_with_window :
  let values := repeat (1 # 1000) 10 ++ repeat (5 # 100) 50 in
  let buffers := map (fun v => [v]) values in
  let first_ten_floor :=
    max (silence_threshold default_config) (sum (take 10 values) / 10 * 2) in
  (forall np_sqrt np_fft_abs2 s a,
      fst (detect_voice_activity np_sqrt np_fft_abs2 s a)
      = update_noise_floor s (rms_of np_sqrt a))
  /\ map (rms_of sqrt_exact) buffers = values
  /\ first_ten_floor = 5 # 1000
  /\ adaptive_threshold
       (classify_run sqrt_exact power_1 default_capture (take 50 buffers))
     = first_ten_floor
  /\ adaptive_threshold
       (classify_run sqrt_exact power_1 default_capture buffers) == 1 # 10
  /\ adaptive_threshold (feed_rms default_capture values) == 1 # 10.
Proof.
  split; [exact detect_updates_noise_floor|].
  vm_compute. repeat split; reflexivity.
Qed.

(** *** The classifier *)



(** *** The segmentation state machine *)

Lemma silent_step_waits (s : ChromeAudioCapture) (t0 t : Q) :
  is_speaking s = true ->
  speech_start_time s = Some t0 ->
  t - t0 < min_speech_duration (config s) ->
  update_speech_state s false t
  = (set_silence_start_time
       (Some (match silence_start_time s with Some x => x | None => t end)) s,
     Return None).
Proof.
  intros Hsp Ht0 Hshort. unfold update_speech_state. rewrite Hsp.
  cbn [speech_start_time set_silence_start_time config].
  rewrite Ht0. apply ltb_lt in Hshort. unfold ltb in Hshort.
  apply negb_true_iff in Hshort. unfold leb. rewrite Hshort.
  destruct (Qle_bool (max_silence_duration (config s)) _); reflexivity.
Qed.

Lemma silent_run_waits (t0 ss : Q) (ts : list Q) (s : ChromeAudioCapture) :
  is_speaking s = true ->
  speech_start_time s = Some t0 ->
  silence_start_time s = Some ss ->
  Forall (fun t => t - t0 < min_speech_duration (config s)) ts ->
  run_speech_state s (map (pair false) ts)
  = (s, map (fun _ => Return None) ts).
Proof.
  intros Hsp Ht0 Hss. induction 1 as [|t ts Ht _ IH]; [reflexivity|].
  cbn [map run_speech_state].
  rewrite (silent_step_waits s t0 t Hsp Ht0 Ht), Hss.
  replace (set_silence_start_time (Some ss) s) with s
    by (unfold set_silence_start_time; rewrite <- Hss; destruct s; reflexivity).
  rewrite IH. reflexivity.
Qed.

(** C3, as stated, fails: with the default durations (0.3 s of speech, 2 s of
    silence) a speech run of length zero started at time 0 and followed by
    silence from 0.1 on is not emitted at 2.0, when the silence has lasted
    1.9 s, and is emitted at 2.1, the first buffer at which the silence has
    lasted 2 s: the state is Idle there. *)
Lemma short_utterance_emitted_when_silence_elapses :
  let s := set_on_speech_ended true
             (set_audio_buffer
                (deque_append (audio_buffer default_capture) [1 # 2])
                default_capture) in
  let run := run_speech_state s
               [(true, 0); (false, 1 # 10); (false, 20 # 10); (false, 21 # 10)] in
  snd run = [Return None; Return None; Return None; Return (Some [1 # 2])]
  /\ is_speaking (fst run) = false
  /\ silence_start_time (fst run) = None
  /\ ltb (0 - 0) (min_speech_duration default_config) = true
  /\ ltb ((20 # 10) - (1 # 10)) (max_silence_duration default_config) = true
  /\ leb (max_silence_duration default_config) ((21 # 10) - (1 # 10)) = true.
Proof. vm_compute. repeat split; reflexivity. Qed.

(** C3, amended: in the Speaking state, silent buffers arriving while less
    than min_speech_duration has passed since the speech started (whatever
    the length of the silence, max_silence_duration or more included) emit
    nothing and leave the state Speaking with the silence start set and the
    speech start unchanged; the first silent buffer at which both
    max_silence_duration of silence and min_speech_duration since the speech
    start have passed moves the state to Idle, clears the silence start and,
    when a callback is registered, dispatches the segment taken from the ring
    buffer; when min_speech_duration is at most max_silence_duration and the
    silence started after the speech, that buffer is the one at which
    max_silence_duration first elapses; and a silent buffer in the Idle
    state changes nothing and emits nothing. *)
Theorem short_utterance_flush (s idle : ChromeAudioCapture) (t0 : Q)
    (ts : list Q) (now now_idle : Q) :
  is_speaking s = true ->
  speech_start_time s = Some t0 ->
  ts <> [] ->
  Forall (fun t => t - t0 < min_speech_duration (config s)) ts ->
  is_speaking idle = false ->
  let ss := match silence_start_time s with
            | Some x => x
            | None => hd now ts
            end in
  let s1 := set_silence_start_time (Some ss) s in
  let s2 := set_silence_start_time None (set_is_speaking false s1) in
  run_speech_state s (map (pair false) ts)
  = (s1, map (fun _ => Return None) ts)
  /\ (is_speaking s1 = true /\ silence_start_time s1 = Some ss
      /\ speech_start_time s1 = Some t0)
  /\ (max_silence_duration (config s) <= now - ss ->
      min_speech_duration (config s) <= now - t0 ->
      update_speech_state s1 false now
      = (s2, if on_speech_ended s then get_audio_segment s 3 else Return None)
        /\ is_speaking s2 = false /\ silence_start_time s2 = None)
  /\ (max_silence_duration (config s) <= now - ss ->
      min_speech_duration (config s) <= max_silence_duration (config s) ->
      t0 <= ss ->
      is_speaking (fst (update_speech_state s1 false now)) = false)
  /\ update_speech_state idle false now_idle = (idle, Return None).
Proof.
  intros Hsp Ht0 Hne Hts Hidle ss s1 s2.
  assert (Hflush : max_silence_duration (config s) <= now - ss ->
            min_speech_duration (config s) <= now - t0 ->
            update_speech_state s1 false now
            = (s2, if on_speech_ended s then get_audio_segment s 3
                   else Return None)).
  { intros Hmax Hmin. unfold update_speech_state.
    cbn [s1 is_speaking set_silence_start_time silence_start_time config
         speech_start_time]. rewrite Hsp, Ht0.
    apply leb_le in Hmax, Hmin. rewrite Hmax, Hmin.
    change (set_silence_start_time None
              (set_is_speaking false (set_silence_start_time (Some ss) s1)))
      with s2.
    change (on_speech_ended s2) with (on_speech_ended s).
    change (get_audio_segment s2 3) with (get_audio_segment s 3).
    destruct (on_speech_ended s); reflexivity. }
  split; [|split; [|split; [|split]]].
  - destruct ts as [|t ts]; [contradiction|].
    inversion Hts as [|? ? Ht Hrest]; subst.
    cbn [map run_speech_state].
    rewrite (silent_step_waits s t0 t Hsp Ht0 Ht).
    replace (match silence_start_time s with Some x => x | None => t end)
      with ss by (unfold ss; destruct (silence_start_time s); reflexivity).
    fold s1.
    rewrite (silent_run_waits t0 ss ts s1); auto.
  - auto.
  - intros Hmax Hmin. rewrite (Hflush Hmax Hmin). auto.
  - intros Hmax Hle Hord. rewrite Hflush; [reflexivity|exact Hmax|lra].
  - unfold update_speech_state. rewrite Hidle. reflexivity.
Qed.

Lemma short_utterance_flush_witness :
  Forall (fun t => t - 0 < min_speech_duration (config patient_speaking))
         [1; 3]
  /\ run_speech_state patient_speaking [(false, 1); (false, 3)]
     = (set_silence_start_time (Some 1) patient_speaking,
        [Return None; Return None])
  /\ snd (update_speech_state
            (set_silence_start_time (Some 1) patient_speaking) false 5)
     = Return (Some [1 # 2]).
Proof.
  assert (Hts : Forall (fun t => t - 0 < min_speech_duration
                                          (config patient_speaking)) [1; 3]).
  { repeat constructor. }
  assert (Hne : [1; 3] <> @nil Q) by discriminate.
  pose proof (short_utterance_flush patient_speaking default_capture 0 [1; 3]
                5 0 eq_refl eq_refl Hne Hts eq_refl) as (Hrun & _ & Hflush & _).
  split; [exact Hts|]. split; [exact Hrun|].
  destruct Hflush as (Hstep & _); [vm_compute; discriminate ..|].
  exact (f_equal snd Hstep).
Defined.

End AudioCaptureFacts.

(** ** realtime_stt.py: the transcription stage *)

Module RealtimeSTTFacts.
Import Py PyFacts RealtimeSTT.
#[local] Open Scope Q_scope.

Section Filter.

Variable str_lower : str -> str.

Lemma filter_repeat (s : RealtimeSTT) (text : str) :
  strip text = last_result s ->
  _filter_transcription str_lower s text = (s, []).
Proof.
  intros H. unfold _filter_transcription.
  destruct (_ <? 2)%Z; [reflexivity|].
  destruct (existsb _ _); [reflexivity|].
  apply str_eqb_eq in H. rewrite H. reflexivity.
Qed.

Lemma filter_outcome (s s1 : RealtimeSTT) (text out : str) :
  _filter_transcription str_lower s text = (s1, out) ->
  (out = [] /\ s1 = s)
  \/ (out = strip text /\ s1 = set_last_result (strip text) s
      /\ (2 <= Z.of_nat (length (strip text)))%Z).
Proof.
  unfold _filter_transcription.
  destruct (Z.ltb_spec (Z.of_nat (length (strip text))) 2) as [Hlt|Hlen].
  { intros H; injection H as <- <-; auto. }
  destruct (existsb _ _).
  { intros H; injection H as <- <-; auto. }
  destruct (str_eqb _ _).
  { intros H; injection H as <- <-; auto. }
  intros H; injection H as <- <-. right. auto.
Qed.

(** C8: a result whose text equals the last accepted result is discarded:
    the filter returns the empty string and keeps its state. In particular,
    once a text has gone through the filter, the same text, or the result
    just accepted, presented again is discarded, so that two segments with
    the same transcription deliver one result. *)
Theorem repeat_suppression (s s1 : RealtimeSTT) (text out : str) :
  _filter_transcription str_lower s text = (s1, out) ->
  (forall (s' : RealtimeSTT) (text' : str),
      strip text' = last_result s' ->
      _filter_transcription str_lower s' text' = (s', []))
  /\ _filter_transcription str_lower s1 text = (s1, [])
  /\ (out <> [] ->
      last_result s1 = out
      /\ _filter_transcription str_lower s1 out = (s1, [])).
Proof.
  intros H. split; [exact filter_repeat|].
  destruct (filter_outcome s s1 text out H) as [[-> ->]|(-> & -> & Hlen)].
  - split; [exact H|]. intros Hne. contradiction.
  - split.
    + apply filter_repeat. reflexivity.
    + intros _. split; [reflexivity|].
      apply filter_repeat. simpl. apply strip_idem.
Qed.

End Filter.

Lemma repeat_suppression_witness :
  _filter_transcription lower_ascii running_stt (lit " konnichiwa ")
  = (set_last_result (lit "konnichiwa") running_stt, lit "konnichiwa")
  /\ _filter_transcription lower_ascii
       (set_last_result (lit "konnichiwa") running_stt) (lit " konnichiwa ")
     = (set_last_result (lit "konnichiwa") running_stt, []).
Proof.
  assert (H : _filter_transcription lower_ascii running_stt
                (lit " konnichiwa ")
              = (set_last_result (lit "konnichiwa") running_stt,
                 lit "konnichiwa")) by (vm_compute; reflexivity).
  split; [exact H|].
  exact (proj1 (proj2 (repeat_suppression lower_ascii _ _ _ _ H))).
Defined.

(** [start] is the only method that sets [is_running], and it loads the
    model first: a running stage has its model loaded. *)
Lemma init_loaded_when_running (cfg : RealtimeSTTConfig) :
  loaded_when_running (init cfg).
Proof. unfold loaded_when_running. discriminate. Qed.

Lemma start_loaded_when_running (s : RealtimeSTT) (load_ok : bool) :
  loaded_when_running s -> loaded_when_running (fst (start s load_ok)).
Proof.
  unfold loaded_when_running, start. intros H.
  destruct (is_running s) eqn:Hr; [intros _; exact (H eq_refl)|].
  destruct (model_loaded s) eqn:Hm; [intros _; exact Hm|].
  destruct load_ok; [reflexivity|].
  cbn [fst]. destruct (on_error _); cbn; rewrite Hr; discriminate.
Qed.

Lemma process_audio_loaded_when_running (s : RealtimeSTT) (audio : frame)
    (freed : nat) :
  loaded_when_running s -> loaded_when_running (process_audio s audio freed).
Proof.
  unfold loaded_when_running, process_audio. intros H.
  destruct (is_running s) eqn:Hr; cbn [negb].
  - destruct (queue_put _ _ _) as [q [u|e]]; intros _; exact (H eq_refl).
  - cbn. rewrite Hr. discriminate.
Qed.

Section Segments.

Variable str_lower : str -> str.


End Segments.


End RealtimeSTTFacts.

(** ** realtime_translator.py: cache, filters, back-pressure *)

Module RealtimeTranslatorFacts.
Import Py PyFacts RealtimeTranslator.
#[local] Open Scope Q_scope.

Lemma get_cache_key_nonempty (text k : str) :
  get_cache_key text = Return k -> exists c k', k = c :: k'.
Proof.
  unfold get_cache_key. destruct (Md5.utf8_encode text) as [data|]; [|discriminate].
  intros H. injection H as <-.
  unfold Md5.hexdigest, Md5.digest.
  destruct (fold_left _ _ _) as [[[a b] c] d].
  cbn [Md5.le_bytes seq map app flat_map]. eauto.
Qed.

Lemma accepted_guard (cfg : RealtimeTranslatorConfig) (text : str) :
  accepted cfg text <->
  bool_decide (text = [])
  || (Z.of_nat (length (strip text)) <? min_text_length cfg)%Z = false.
Proof.
  unfold accepted. rewrite orb_false_iff, bool_decide_eq_false, Z.ltb_ge.
  reflexivity.
Qed.

Lemma translate_text_ending (s : RealtimeTranslator) (text : str)
    (engine : str -> PyResult str) (processing_time : Q) :
  ending s text engine processing_time
    (fst (translate_text s text engine processing_time))
    (snd (translate_text s text engine processing_time)).
Proof.
  unfold translate_text. cbv zeta.
  destruct (bool_decide (text = [])
            || (Z.of_nat (length (strip text)) <? min_text_length (config s))%Z)
    eqn:Hguard.
  { cbn [fst snd]. apply Filtered. left. rewrite accepted_guard, Hguard.
    discriminate. }
  apply accepted_guard in Hguard.
  destruct (skip_duplicates (config s)
            && str_eqb (normalize (config s) text) (last_translated_text s))
    eqn:Hdup.
  { cbn [fst snd]. apply Filtered. right. apply andb_true_iff in Hdup as [Hs He].
    apply str_eqb_eq in He. auto. }
  destruct (use_cache (config s)) eqn:Hcache.
  - destruct (get_cache_key (normalize (config s) text)) as [k|e] eqn:Hkey.
    2:{ cbn [fst snd]. apply KeyError; auto. }
    cbn [mbind option_bind].
    destruct (translation_cache s !! k) as [cached|] eqn:Hlook.
    { cbn [fst snd]. eapply Hit; eauto. }
    cbn [model_loaded set_cache_misses].
    destruct (model_loaded s) eqn:Hmodel; cbn [negb].
    2:{ cbn [fst snd]. apply NotLoaded; auto. }
    destruct (engine (prompt_prefix ++ normalize (config s) text))
      as [raw|e] eqn:Heng.
    2:{ cbn [fst snd]. apply Failed; auto. intros out Hout. congruence. }
    destruct (postprocess (normalize (config s) text) raw) as [out|e] eqn:Hpost.
    2:{ cbn [fst snd]. apply Failed; auto. intros out Hout.
        rewrite Heng in Hout. injection Hout as <-. eauto. }
    destruct (get_cache_key_nonempty _ _ Hkey) as (c & k' & ->).
    pose proof (Translated s text engine processing_time raw out Hguard Hmodel
                  Heng Hpost) as Hend.
    rewrite Hcache, Hkey in Hend. cbn [fst snd]. apply Hend. eauto.
  - cbn [mbind option_bind].
    cbn [model_loaded set_cache_misses].
    destruct (model_loaded s) eqn:Hmodel; cbn [negb].
    2:{ cbn [fst snd]. apply NotLoaded; auto. }
    destruct (engine (prompt_prefix ++ normalize (config s) text))
      as [raw|e] eqn:Heng.
    2:{ cbn [fst snd]. apply Failed; auto. intros out Hout. congruence. }
    destruct (postprocess (normalize (config s) text) raw) as [out|e] eqn:Hpost.
    2:{ cbn [fst snd]. apply Failed; auto. intros out Hout.
        rewrite Heng in Hout. injection Hout as <-. eauto. }
    pose proof (Translated s text engine processing_time raw out Hguard Hmodel
                  Heng Hpost) as Hend.
    rewrite Hcache in Hend. cbn [fst snd]. apply Hend. discriminate.
Qed.


Lemma translate_text_duplicate (s : RealtimeTranslator) (text : str)
    (engine : str -> PyResult str) (processing_time : Q) :
  skip_duplicates (config s) = true ->
  normalize (config s) text = last_translated_text s ->
  translate_text s text engine processing_time = (s, Return []).
Proof.
  intros Hskip Hlast. unfold translate_text. cbv zeta.
  destruct (_ || _); [reflexivity|].
  apply str_eqb_eq in Hlast. rewrite Hskip, Hlast. reflexivity.
Qed.

Lemma translate_text_hit (s : RealtimeTranslator) (text k cached : str)
    (engine : str -> PyResult str) (processing_time : Q) :
  accepted (config s) text ->
  skip_duplicates (config s) = false ->
  use_cache (config s) = true ->
  get_cache_key (normalize (config s) text) = Return k ->
  translation_cache s !! k = Some cached ->
  translate_text s text engine processing_time
  = (set_last_translated_text (normalize (config s) text)
       (set_cache_hits (S (cache_hits s)) s), Return cached).
Proof.
  intros Hacc Hskip Hcache Hkey Hlook. unfold translate_text. cbv zeta.
  apply accepted_guard in Hacc. rewrite Hacc, Hskip, Hcache, Hkey.
  cbn [andb mbind option_bind]. rewrite Hlook. reflexivity.
Qed.

(** [translate_text] reads its input only through the normalized text. *)
Lemma translate_text_normalized (s : RealtimeTranslator) (x y : str)
    (engine : str -> PyResult str) (processing_time : Q) :
  accepted (config s) x -> accepted (config s) y ->
  normalize (config s) x = normalize (config s) y ->
  translate_text s x engine processing_time
  = translate_text s y engine processing_time.
Proof.
  intros Hx Hy Hn. unfold translate_text. cbv zeta.
  apply accepted_guard in Hx, Hy. rewrite Hx, Hy, Hn. reflexivity.
Qed.

Lemma normalize_long (cfg : RealtimeTranslatorConfig) (text : str) :
  (0 <= max_text_length cfg <= Z.of_nat (length (strip text)))%Z ->
  normalize cfg text = take (Z.to_nat (max_text_length cfg)) (strip text).
Proof.
  intros H. unfold normalize, slice_to.
  destruct (Z.ltb_spec (max_text_length cfg) (Z.of_nat (length (strip text)))).
  - destruct (Z.ltb_spec (max_text_length cfg) 0); [lia|reflexivity].
  - rewrite take_ge by lia. reflexivity.
Qed.

Lemma normalize_short (cfg : RealtimeTranslatorConfig) (text : str) :
  strip text = text ->
  (Z.of_nat (length text) <= max_text_length cfg)%Z ->
  normalize cfg text = text.
Proof.
  intros Hs Hl. unfold normalize. rewrite Hs.
  destruct (Z.ltb_spec (max_text_length cfg) (Z.of_nat (length text)));
    [lia|reflexivity].
Qed.

Ltac record_simpl :=
  cbn [fst snd config trace cache_hits cache_misses last_translated_text
       translation_cache model_loaded is_running translation_queue
       translation_times result_queue on_translation on_error
       set_last_translated_text set_cache_hits set_cache_misses
       set_translation_cache set_translation_times set_translation_queue
       set_result_queue set_is_running set_model_loaded emit] in *.

(** *** Two calls in a row *)

(** C1, as stated, fails: with the default configuration the second of two
    identical calls is discarded by the last-request filter. It returns the
    empty string, not the cached translation, and the hit counter stays at
    zero. *)
Lemma second_call_is_filtered_not_served :
  let engine : str -> PyResult str := fun _ => Return (lit "annyeong") in
  let first := translate_text ready (lit "Hello world") engine 0 in
  let second := translate_text (fst first) (lit "Hello world") engine 0 in
  snd first = Return (lit "annyeong")
  /\ (exists k, get_cache_key (lit "Hello world") = Return k
                /\ translation_cache (fst first) !! k = Some (lit "annyeong"))
  /\ snd second = Return []
  /\ cache_hits (fst second) = 0%nat
  /\ cache_misses (fst second) = 1%nat.
Proof.
  vm_compute. repeat split. eexists. split; reflexivity.
Qed.

(** C1, amended: when the first call translated the text with the engine
    without error, or answered it from the cache, a second call with the same
    text does not invoke the engine again if the last-request filter or the
    cache is enabled. With skip_duplicates enabled (the default) the second
    call is discarded by the last-request filter: it returns the empty string
    and changes nothing, counters included. With skip_duplicates disabled
    and the cache enabled, the second call returns the result of the first
    from the cache and increments the hit counter, not the miss counter. *)
Theorem translate_twice (s : RealtimeTranslator) (x out : str)
    (engine1 engine2 : str -> PyResult str) (time1 time2 : Q) :
  let first := translate_text s x engine1 time1 in
  let second := translate_text (fst first) x engine2 time2 in
  snd first = Return out ->
  trace (fst first)
  = trace s ++ [EngineCall (prompt_prefix ++ normalize (config s) x)]
  \/ cache_hits (fst first) = S (cache_hits s) ->
  (engine_calls (fst first) <= S (engine_calls s))%nat
  /\ (skip_duplicates (config s) = true ->
      second = (fst first, Return []))
  /\ (skip_duplicates (config s) = false -> use_cache (config s) = true ->
      snd second = Return out
      /\ cache_hits (fst second) = S (cache_hits (fst first))
      /\ cache_misses (fst second) = cache_misses (fst first)
      /\ engine_calls (fst second) = engine_calls (fst first)).
Proof.
  cbv zeta. intros Hout Hdone.
  pose proof (translate_text_ending s x engine1 time1) as H1.
  destruct (translate_text s x engine1 time1) as [s1 r1]. cbn [fst snd] in *.
  subst r1.
  assert (Hno : forall l : list event, l <> [] -> trace s ++ l <> trace s).
  { intros l Hl Heq. apply Hl.
    apply (app_inv_head (trace s)). rewrite app_nil_r. exact Heq. }
  inversion H1 as [Hf| |k cached Hacc Hc Hk Hl| |Hacc Hm He
                  |raw out' Hacc Hm He Hp Hk]; subst.
  - (* filtered *)
    exfalso. destruct Hdone as [Ht|Hh]; [|lia].
    symmetry in Ht. revert Ht. apply Hno. discriminate.
  - (* served from the cache *)
    split; [unfold engine_calls; record_simpl; lia|]. split.
    + intros Hskip. apply translate_text_duplicate; record_simpl; auto.
    + intros Hskip _.
      rewrite (translate_text_hit _ x k out); record_simpl; auto.
  - (* the engine failed *)
    exfalso. destruct Hdone as [Ht|Hh]; record_simpl; [|lia].
    rewrite <- app_assoc in Ht. apply app_inv_head in Ht. discriminate.
  - (* translated *)
    split.
    { unfold engine_calls. record_simpl.
      rewrite List.filter_app, length_app. cbn. lia. }
    split.
    + intros Hskip. apply translate_text_duplicate; record_simpl; auto.
    + intros Hskip Hcache.
      destruct (Hk Hcache) as (k & Hkey & Hnone).
      rewrite (translate_text_hit _ x k out); record_simpl; auto.
      rewrite Hcache, Hkey. apply lookup_insert_eq.
Qed.

Lemma translate_twice_witness :
  snd (translate_text ready hello annyeong 0) = Return (lit "annyeong")
  /\ translate_text (fst (translate_text ready hello annyeong 0)) hello
       annyeong 0
     = (fst (translate_text ready hello annyeong 0), Return []).
Proof.
  assert (H1 : snd (translate_text ready hello annyeong 0)
               = Return (lit "annyeong")) by (vm_compute; reflexivity).
  split; [exact H1|].
  refine (proj1 (proj2 (translate_twice ready hello (lit "annyeong")
                          annyeong annyeong 0 0 H1 _)) eq_refl).
  left. vm_compute. reflexivity.
Defined.

(** *** Engine failure *)

(** C6, as stated, fails: on an engine failure the call returns the text it
    was working on, which is the input trimmed and cut to max_text_length,
    not the input as given. *)
Lemma failed_translation_returns_trimmed_text :
  let failing : str -> PyResult str := fun _ => Raise "engine" in
  let call := translate_text ready (lit " hello ") failing 0 in
  snd call = Return (lit "hello")
  /\ lit "hello" <> lit " hello "
  /\ translation_cache (fst call) = translation_cache ready.
Proof.
  vm_compute. repeat split. discriminate.
Qed.

(** C6, amended: when the translation engine raises on a request, the cache
    map after the call is the cache map before it, and the call returns the
    text it was working on: the input trimmed and cut to max_text_length,
    which is the input itself when the input is already trimmed and within
    the limit. The miss counter is incremented and the last-request text is
    not updated. *)
Theorem failed_translation_not_cached (s : RealtimeTranslator) (x : str)
    (engine : str -> PyResult str) (processing_time : Q) (e : string) :
  let call := translate_text s x engine processing_time in
  engine (prompt_prefix ++ normalize (config s) x) = Raise e ->
  translation_cache (fst call) = translation_cache s
  /\ (engine_calls (fst call) <> engine_calls s ->
      snd call = Return (normalize (config s) x)
      /\ engine_calls (fst call) = S (engine_calls s)
      /\ cache_misses (fst call) = S (cache_misses s)
      /\ last_translated_text (fst call) = last_translated_text s)
  /\ (strip x = x -> (Z.of_nat (length x) <= max_text_length (config s))%Z ->
      normalize (config s) x = x).
Proof.
  cbv zeta. intros Hraise.
  pose proof (translate_text_ending s x engine processing_time) as H.
  destruct (translate_text s x engine processing_time) as [s' r].
  cbn [fst snd] in *.
  split; [|split; [|apply normalize_short]].
  - inversion H; subst; record_simpl; try reflexivity. congruence.
  - intros Hcalls.
    inversion H as [| | | | |raw out Hacc Hm He]; subst;
      try (exfalso; apply Hcalls; reflexivity); [|congruence].
    repeat split.
    unfold engine_calls. record_simpl.
    rewrite !List.filter_app, !length_app. cbn. lia.
Qed.

Lemma failed_translation_not_cached_witness :
  snd (translate_text ready hello (fun _ => Raise "engine") 0) = Return hello
  /\ translation_cache (fst (translate_text ready hello
                               (fun _ => Raise "engine") 0))
     = translation_cache ready.
Proof.
  pose proof (failed_translation_not_cached ready hello
                (fun _ => Raise "engine") 0 "engine" eq_refl)
    as (Hcache & Hret & _).
  split; [|exact Hcache].
  apply Hret. vm_compute. discriminate.
Defined.

(** *** Truncation *)

(** C10, as stated, fails: the text is trimmed before it is cut. Two inputs
    of 501 characters that start with a space and agree on their first 500
    characters keep their last, different character; they are hashed to
    different cache keys, and once the first has been translated and cached
    (and another text translated after it) the first is answered from the
    cache while the second goes to the engine. *)
Lemma truncation_follows_trimming :
  let cached : str -> PyResult str := fun _ => Return (lit "cached") in
  let fresh : str -> PyResult str := fun _ => Return (lit "fresh") in
  let primed :=
    fst (translate_text (fst (translate_text ready long_b cached 0))
           hello cached 0) in
  length long_b = 501%nat
  /\ take 500 long_b = take 500 long_c
  /\ normalize default_config long_b <> take 500 long_b
  /\ get_cache_key (normalize default_config long_b)
     <> get_cache_key (normalize default_config long_c)
  /\ snd (translate_text primed long_b fresh 0) = Return (lit "cached")
  /\ snd (translate_text primed long_c fresh 0) = Return (lit "fresh").
Proof.
  cbv zeta. split; [reflexivity|]. split; [reflexivity|].
  split; [apply (proj1 (bool_decide_eq_false _)); vm_compute; reflexivity|].
  split; [apply (proj1 (bool_decide_eq_false _)); vm_compute; reflexivity|].
  split; vm_compute; reflexivity.
Qed.

(** C10, amended: an input whose trimmed text is longer than max_text_length
    is handled through the first max_text_length characters of its trimmed
    text: the duplicate filter, the cache key and the prompt use that
    truncated text only. Consequently two inputs whose trimmed texts have at
    least max_text_length characters and agree on the first max_text_length
    of them have the same cache key and make [translate_text] behave the
    same; on a cache hit both return the same cached translation. *)
Theorem truncation_before_cache (s : RealtimeTranslator) (x y : str)
    (engine : str -> PyResult str) (processing_time : Q) :
  let cfg := config s in
  let n := Z.to_nat (max_text_length cfg) in
  (0 <= max_text_length cfg)%Z ->
  accepted cfg x -> accepted cfg y ->
  (n <= length (strip x))%nat -> (n <= length (strip y))%nat ->
  take n (strip x) = take n (strip y) ->
  normalize cfg x = take n (strip x)
  /\ normalize cfg y = normalize cfg x
  /\ get_cache_key (normalize cfg y) = get_cache_key (normalize cfg x)
  /\ translate_text s y engine processing_time
     = translate_text s x engine processing_time
  /\ (skip_duplicates cfg = true ->
      take n (strip x) = last_translated_text s ->
      translate_text s x engine processing_time = (s, Return []))
  /\ (forall k cached : str,
        skip_duplicates cfg = false -> use_cache cfg = true ->
        get_cache_key (take n (strip x)) = Return k ->
        translation_cache s !! k = Some cached ->
        snd (translate_text s x engine processing_time) = Return cached
        /\ snd (translate_text s y engine processing_time) = Return cached)
  /\ (engine_calls (fst (translate_text s x engine processing_time))
      <> engine_calls s ->
      exists rest : list event,
        trace (fst (translate_text s x engine processing_time))
        = trace s ++ EngineCall (prompt_prefix ++ take n (strip x)) :: rest).
Proof.
  intros cfg n Hmax Hx Hy Hlx Hly Hagree.
  assert (Hnx : normalize cfg x = take n (strip x))
    by (apply normalize_long; lia).
  assert (Hny : normalize cfg y = take n (strip y))
    by (apply normalize_long; lia).
  assert (Hn : normalize cfg y = normalize cfg x) by congruence.
  assert (Hsame : translate_text s y engine processing_time
                  = translate_text s x engine processing_time)
    by (apply translate_text_normalized; auto).
  split; [exact Hnx|]. split; [exact Hn|]. split; [congruence|].
  split; [exact Hsame|]. split; [|split].
  - intros Hskip Hlast. apply translate_text_duplicate; [exact Hskip|].
    fold cfg. congruence.
  - intros k cached Hskip Hcache Hkey Hlook. rewrite Hsame.
    rewrite (translate_text_hit s x k cached); fold cfg; auto.
    rewrite Hnx. exact Hkey.
  - pose proof (translate_text_ending s x engine processing_time) as H.
    destruct (translate_text s x engine processing_time) as [s' r].
    cbn [fst snd] in *. intros Hcalls. unfold cfg in Hnx.
    inversion H; subst; try (exfalso; apply Hcalls; reflexivity);
      record_simpl; rewrite Hnx, <- ?app_assoc; eauto.
Qed.

Lemma truncation_before_cache_witness :
  accepted default_config (repeat 97%N 500 ++ lit "b")
  /\ translate_text ready (repeat 97%N 500 ++ lit "c") annyeong 0
     = translate_text ready (repeat 97%N 500 ++ lit "b") annyeong 0.
Proof.
  assert (Hb : accepted default_config (repeat 97%N 500 ++ lit "b")).
  { split; [discriminate|]. vm_compute. discriminate. }
  assert (Hc : accepted default_config (repeat 97%N 500 ++ lit "c")).
  { split; [discriminate|]. vm_compute. discriminate. }
  split; [exact Hb|].
  refine (proj1 (proj2 (proj2 (proj2
            (truncation_before_cache ready _ _ annyeong 0 _ Hb Hc _ _ _))))).
  - vm_compute. discriminate.
  - vm_compute. apply Nat.leb_le. reflexivity.
  - vm_compute. apply Nat.leb_le. reflexivity.
  - vm_compute. reflexivity.
Defined.

(** *** Back-pressure *)









End RealtimeTranslatorFacts.

(** ** audio_capture.py: what the callback keeps and never does *)

Module CaptureStatesFacts.
Import Py PyFacts AudioCapture AudioCaptureFacts CaptureStates.
#[local] Open Scope Q_scope.








Section Reachable.

Variable np_sqrt : Q -> Q.
Variable np_fft_abs2 : frame -> list Q.







End Reachable.

Lemma idle_silent_run (s : ChromeAudioCapture) (ts : list Q) :
  is_speaking s = false ->
  run_speech_state s (map (pair false) ts)
  = (s, map (fun _ => Return None) ts).
Proof.
  intros Hidle. induction ts as [|t ts IH]; [reflexivity|].
  cbn [map run_speech_state]. unfold update_speech_state at 1.
  rewrite Hidle, IH. reflexivity.
Qed.

Lemma segment_step (s : ChromeAudioCapture) (b : bool) (t : Q) (seg : frame) :
  snd (update_speech_state s b t) = Return (Some seg) ->
  b = false /\ is_speaking s = true /\ on_speech_ended s = true
  /\ is_speaking (fst (update_speech_state s b t)) = false
  /\ silence_start_time (fst (update_speech_state s b t)) = None.
Proof.
  unfold update_speech_state.
  destruct b; [destruct (negb _); discriminate|].
  destruct (is_speaking s); [|discriminate].
  destruct (leb _ _); [|discriminate].
  destruct (speech_start_time _); [|discriminate].
  destruct (leb _ _); [|discriminate].
  destruct (on_speech_ended _) eqn:Hcb; [|discriminate].
  intros _. cbn in Hcb. cbn. auto.
Qed.


(** X4: a run of silent frames dispatches at most one segment, and a frame
    classified as speech dispatches none. *)
Theorem one_segment_per_silence (s : ChromeAudioCapture) (ts : list Q) :
  (length (List.filter is_segment
             (snd (run_speech_state s (map (pair false) ts)))) <= 1)%nat
  /\ forall t, snd (update_speech_state s true t) = Return None.
Proof.
  split.
  - revert s. induction ts as [|t ts IH]; intros s; [simpl; lia|].
    cbn [map run_speech_state].
    destruct (update_speech_state s false t) as [s1 out] eqn:Hstep.
    destruct (run_speech_state s1 (map (pair false) ts)) as [s2 outs] eqn:Hrun.
    cbn [snd List.filter].
    destruct (is_segment out) eqn:Hseg.
    + destruct out as [[seg|]|]; try discriminate.
      destruct (segment_step s false t seg) as (_ & _ & _ & Hi & _).
      { rewrite Hstep. reflexivity. }
      rewrite Hstep in Hi. cbn [fst] in Hi.
      rewrite (idle_silent_run s1 ts Hi) in Hrun. injection Hrun as _ <-.
      cbn [length]. clear. induction ts; simpl; lia.
    + specialize (IH s1). rewrite Hrun in IH. exact IH.
  - intros t. unfold update_speech_state.
    destruct (negb _); reflexivity.
Qed.






(** X6: a round of the continuous-processing worker that dispatches a segment
    records the time of the round and changes nothing else; the segment is
    the one [get_audio_segment] returns for three seconds; and every later
    round less than the processing interval after it dispatches nothing and
    leaves the state as it is. *)
Theorem continuous_round_rate_limit (s : ChromeAudioCapture) (t : Q)
    (seg : frame) :
  snd (continuous_processing_round s t) = Some seg ->
  let s' := fst (continuous_processing_round s t) in
  s' = set_last_processing_time t s
  /\ processing_interval s <= t - last_processing_time s
  /\ on_continuous_audio s = true
  /\ get_audio_segment s 3 = Return (Some seg)
  /\ forall t', t' - t < processing_interval s ->
       continuous_processing_round s' t' = (s', None).
Proof.
  unfold continuous_processing_round.
  destruct (leb (processing_interval s) _) eqn:Hint; [|discriminate].
  destruct (get_audio_segment s 3) as [[seg'|]|] eqn:Hget; try discriminate.
  destruct (on_continuous_audio s) eqn:Hcb; [|discriminate].
  cbn [fst snd]. intros H. injection H as ->.
  split; [reflexivity|]. split; [apply leb_le, Hint|].
  split; [reflexivity|]. split; [reflexivity|].
  intros t' Ht'. cbn [processing_interval last_processing_time
                      set_last_processing_time].
  apply ltb_lt in Ht'. unfold ltb in Ht'. apply negb_true_iff in Ht'.
  unfold leb. rewrite Ht'. reflexivity.
Qed.

Lemma continuous_round_rate_limit_witness :
  snd (continuous_processing_round continuous_capture 3) = Some [1 # 2]
  /\ fst (continuous_processing_round continuous_capture 3)
     = set_last_processing_time 3 continuous_capture.
Proof.
  split; [reflexivity|].
  exact (proj1 (continuous_round_rate_limit continuous_capture 3 [1 # 2]
                  eq_refl)).
Defined.

End CaptureStatesFacts.

(** ** audio_capture.py: the choice of the capture device *)

Module AudioDeviceFacts.
Import Py AudioDevice.

Section Search.

Variable str_lower : str -> str.

Lemma first_device_spec (keywords : list str)
    (devices : list (PyResult device_info)) (i0 : nat) :
  match first_device str_lower keywords devices i0 with
  | Some i =>
      exists d, (i0 <= i)%nat /\ devices !! (i - i0)%nat = Some d
                /\ device_matches str_lower keywords d = true
                /\ forall j d', (j < i - i0)%nat -> devices !! j = Some d' ->
                     device_matches str_lower keywords d' = false
  | None => Forall (fun d => device_matches str_lower keywords d = false) devices
  end.
Proof.
  revert i0. induction devices as [|d rest IH]; intros i0; cbn [first_device].
  - constructor.
  - destruct (device_matches str_lower keywords d) eqn:Hd.
    + exists d. rewrite Nat.sub_diag. repeat split; auto. intros j d' Hj. lia.
    + specialize (IH (S i0)).
      destruct (first_device str_lower keywords rest (S i0)) as [i|].
      * destruct IH as (d1 & Hle & Hl & Hm & Hfirst).
        exists d1. split; [lia|].
        replace (i - i0)%nat with (S (i - S i0)) by lia.
        split; [exact Hl|]. split; [exact Hm|].
        intros [|j] d' Hj Hl'.
        -- injection Hl' as <-. exact Hd.
        -- apply (Hfirst j d'); [lia|exact Hl'].
      * constructor; assumption.
Qed.

Lemma search_spec (groups : list (list str))
    (devices : list (PyResult device_info)) :
  match search str_lower groups devices with
  | Some i =>
      exists earlier keywords later d,
        groups = earlier ++ keywords :: later
        /\ devices !! i = Some d
        /\ device_matches str_lower keywords d = true
        /\ (forall j d', (j < i)%nat -> devices !! j = Some d' ->
              device_matches str_lower keywords d' = false)
        /\ Forall (fun g =>
                     Forall (fun d => device_matches str_lower g d = false)
                            devices) earlier
  | None =>
      Forall (fun g => Forall (fun d => device_matches str_lower g d = false)
                              devices) groups
  end.
Proof.
  induction groups as [|g rest IH]; cbn [search].
  - constructor.
  - pose proof (first_device_spec g devices 0) as Hf.
    destruct (first_device str_lower g devices 0) as [i|].
    + destruct Hf as (d & _ & Hl & Hm & Hfirst).
      rewrite Nat.sub_0_r in Hl, Hfirst.
      exists [], g, rest, d. repeat split; auto.
    + destruct (search str_lower rest devices) as [i|].
      * destruct IH as (earlier & kw & later & d & -> & Hl & Hm & Hfirst & He).
        exists (g :: earlier), kw, later, d. repeat split; auto.
      * constructor; assumption.
Qed.

(** X7: the device search returns either the index of a device that has
    input channels and whose lower-cased name contains every lower-cased
    keyword of one priority group, no device matching an earlier group and
    no device of lower index matching that group; or, when no device matches
    any group, the index of the default input device, or 0 when asking for
    it fails. A device without input channels, or whose description cannot
    be read, is never selected by the search. *)
Theorem device_search_priority (devices : list (PyResult device_info))
    (default_index : PyResult Z) :
  let r := get_default_speaker_device str_lower devices default_index in
  (exists (i : nat) earlier keywords later info,
      r = Z.of_nat i
      /\ priority_keywords = earlier ++ keywords :: later
      /\ devices !! i = Some (Return info)
      /\ maxInputChannels info <> 0%Z
      /\ Forall (fun keyword =>
                   contains (str_lower keyword) (str_lower (name info)) = true)
                keywords
      /\ (forall j d', (j < i)%nat -> devices !! j = Some d' ->
            device_matches str_lower keywords d' = false)
      /\ Forall (fun g =>
                   Forall (fun d => device_matches str_lower g d = false)
                          devices) earlier)
  \/ (Forall (fun g => Forall (fun d => device_matches str_lower g d = false)
                              devices) priority_keywords
      /\ r = match default_index with Return i => i | Raise _ => 0%Z end).
Proof.
  intros r. subst r. unfold get_default_speaker_device.
  pose proof (search_spec priority_keywords devices) as Hs.
  destruct (search str_lower priority_keywords devices) as [i|].
  - left. destruct Hs as (earlier & kw & later & d & Hg & Hl & Hm & Hfirst & He).
    destruct d as [info|e]; [|discriminate].
    cbn [device_matches] in Hm.
    destruct (Z.eqb_spec (maxInputChannels info) 0); [discriminate|].
    exists i, earlier, kw, later, info. repeat split; auto.
    apply Forall_forall. intros k Hk.
    rewrite forallb_forall in Hm. apply Hm. apply list_elem_of_In. exact Hk.
  - right. split; [exact Hs|reflexivity].
Qed.

End Search.

End AudioDeviceFacts.

(** ** realtime_stt.py: the worker loop and stop *)

Module RealtimeSTTControlFacts.
Import Py PyFacts RealtimeSTT RealtimeSTTFacts RealtimeSTTControl.
#[local] Open Scope Q_scope.

Section Filter.

Variable str_lower : str -> str.

Lemma filter_accepts (s s1 : RealtimeSTT) (text out : str) :
  _filter_transcription str_lower s text = (s1, out) ->
  config s1 = config s
  /\ (out = [] -> s1 = s)
  /\ (out <> [] ->
      out = strip text /\ last_result s1 = out /\ out <> last_result s
      /\ (2 <= length out)%nat
      /\ Forall (fun token =>
                   contains (str_lower token) (str_lower out) = false)
                (suppress_tokens (config s))).
Proof.
  unfold _filter_transcription.
  destruct (Z.ltb_spec (Z.of_nat (length (strip text))) 2) as [Hlt|Hlen].
  { intros H; injection H as <- <-. repeat split; auto; intros; congruence. }
  destruct (existsb _ _) eqn:Hex.
  { intros H; injection H as <- <-. repeat split; auto; intros; congruence. }
  destruct (str_eqb _ _) eqn:Heq.
  { intros H; injection H as <- <-. repeat split; auto; intros; congruence. }
  intros H; injection H as <- <-. split; [reflexivity|].
  split.
  { intros Hnil. rewrite Hnil in Hlen. simpl in Hlen. lia. }
  intros _. split; [reflexivity|]. split; [reflexivity|]. split.
  { intros Hl. apply str_eqb_eq in Hl. congruence. }
  split; [lia|].
  apply Forall_forall. intros token Hin.
  destruct (contains _ _) eqn:Hc; [|reflexivity].
  assert (existsb (fun suppress_token =>
                     contains (str_lower suppress_token)
                              (str_lower (strip text)))
                  (suppress_tokens (config s)) = true).
  { apply existsb_exists. exists token. split; [|exact Hc].
    apply list_elem_of_In. exact Hin. }
  congruence.
Qed.

(** X8: over any sequence of texts put through [_filter_transcription], every
    text let through is trimmed, has at least two characters and contains no
    suppressed token; no two results delivered in a row are equal, the first
    differs from the result remembered before, and the stage remembers the
    last one delivered. *)
Theorem accepted_results_distinct (s : RealtimeSTT) (texts : list str) :
  let outs := snd (filter_run str_lower s texts) in
  Forall (fun out =>
            strip out = out /\ (2 <= length out)%nat
            /\ Forall (fun token =>
                         contains (str_lower token) (str_lower out) = false)
                      (suppress_tokens (config s))) outs
  /\ (forall (i : nat) (a b : str),
        outs !! i = Some a -> outs !! S i = Some b -> a <> b)
  /\ (forall a, head outs = Some a -> a <> last_result s)
  /\ last_result (fst (filter_run str_lower s texts))
     = default (last_result s) (last outs).
Proof.
  revert s. induction texts as [|text rest IH]; intros s.
  - cbn. repeat split; auto; intros; discriminate.
  - cbn [filter_run].
    destruct (_filter_transcription str_lower s text) as [s1 out] eqn:Hf.
    destruct (filter_accepts s s1 text out Hf) as (Hcfg & Hnil & Hacc).
    specialize (IH s1).
    destruct (filter_run str_lower s1 rest) as [s2 outs] eqn:Hrun.
    cbn [fst snd] in *. rewrite Hcfg in IH.
    destruct IH as (Hall & Hadj & Hhead & Hlast).
    destruct out as [|c out'].
    + rewrite (Hnil eq_refl) in *. auto.
    + destruct Hacc as (Hout & Hlr & Hne & Hlen & Htok); [discriminate|].
      split.
      { constructor; [|exact Hall]. split; [|auto].
        rewrite Hout. apply strip_idem. }
      split.
      { intros [|i] a b Ha Hb.
        - cbn in Ha. injection Ha as <-.
          intros <-. apply (Hhead (c :: out')); [|symmetry; exact Hlr].
          destruct outs; [discriminate|]. cbn in Hb. cbn. congruence.
        - apply (Hadj i a b); assumption. }
      split.
      { intros a Ha. cbn in Ha. injection Ha as <-. exact Hne. }
      rewrite Hlast, Hlr. destruct outs as [|o outs']; [reflexivity|].
      change (last ((c :: out') :: o :: outs')) with (last (o :: outs')).
      destruct (last (o :: outs')) eqn:El; [reflexivity|].
      apply last_None in El. discriminate.
Qed.

Ltac conjs := repeat match goal with |- _ /\ _ => split end.

Lemma filter_frame (s : RealtimeSTT) (text : str) :
  let s1 := fst (_filter_transcription str_lower s text) in
  config s1 = config s /\ model_loaded s1 = model_loaded s
  /\ audio_queue s1 = audio_queue s /\ result_queue s1 = result_queue s
  /\ is_running s1 = is_running s /\ on_transcription s1 = on_transcription s
  /\ on_error s1 = on_error s /\ trace s1 = trace s
  /\ (snd (_filter_transcription str_lower s text) <> [] ->
      last_result s1 = snd (_filter_transcription str_lower s text)).
Proof.
  unfold _filter_transcription.
  destruct (_ <? 2)%Z; [cbn; conjs; auto; intros; congruence|].
  destruct (existsb _ _); [cbn; conjs; auto; intros; congruence|].
  destruct (str_eqb _ _); cbn; conjs; auto; intros; congruence.
Qed.

Lemma transcribe_frame (s : RealtimeSTT) (audio : frame)
    (transcribe : frame -> PyResult str) (processing_time : Q) :
  let r := _transcribe_audio str_lower s audio transcribe processing_time in
  config (fst r) = config s /\ model_loaded (fst r) = model_loaded s
  /\ audio_queue (fst r) = audio_queue s
  /\ result_queue (fst r) = result_queue s
  /\ is_running (fst r) = is_running s
  /\ on_transcription (fst r) = on_transcription s
  /\ on_error (fst r) = on_error s
  /\ (exists evs, trace (fst r) = trace s ++ evs
                  /\ Forall not_error_callback evs)
  /\ (forall text, snd r = Return text -> text <> [] ->
        last_result (fst r) = text)
  /\ (model_loaded s = true -> exists text, snd r = Return text)
  /\ (model_loaded s = false -> r = (s, Raise "RuntimeError")).
Proof.
  unfold _transcribe_audio.
  destruct (model_loaded s) eqn:Hm; cbn [negb].
  2: { cbn. conjs; auto; try discriminate.
       exists []. rewrite app_nil_r. auto. }
  destruct (sample_rate (config s) =? 0)%Z.
  { cbn. conjs; auto; try discriminate.
    - exists [LogError "Transcription error"]. split; [reflexivity|].
      repeat constructor.
    - intros text H. injection H as <-. congruence.
    - eauto. }
  destruct (ltb _ (min_audio_length (config s))).
  { cbn. conjs; auto; try discriminate.
    - exists []. rewrite app_nil_r. auto.
    - intros text H. injection H as <-. congruence.
    - eauto. }
  match goal with |- context [transcribe ?x] => set (a := x) end.
  destruct (transcribe a) as [result_text|e].
  - set (s2 := set_processing_times _ _).
    pose proof (filter_frame s2 (strip result_text)) as Hf.
    destruct (_filter_transcription str_lower s2 (strip result_text))
      as [s3 out].
    cbn [fst snd] in *.
    destruct Hf as (H1 & H2 & H3 & H4 & H5 & H6 & H7 & H8 & H9).
    unfold s2 in H1, H2, H3, H4, H5, H6, H7, H8.
    cbn in H1, H2, H3, H4, H5, H6, H7, H8.
    conjs; try congruence; try assumption.
    + exists [ModelCall a]. split; [rewrite H8; reflexivity|].
      repeat constructor.
    + intros text H. injection H as <-. exact H9.
    + eauto.
  - cbn. conjs; auto; try discriminate.
    + exists [ModelCall a; LogError "Transcription error"].
      rewrite <- app_assoc. split; [reflexivity|]. repeat constructor.
    + intros text H. injection H as <-. congruence.
    + eauto.
Qed.

Lemma model_calls_emit (e : event) (s : RealtimeSTT) :
  model_calls (emit e s)
  = model_calls s ++ match e with ModelCall a => [a] | _ => [] end.
Proof.
  unfold model_calls. cbn [trace emit]. rewrite omap_app.
  destruct e; reflexivity.
Qed.

Lemma transcribe_fits (s : RealtimeSTT) (audio : frame)
    (transcribe : frame -> PyResult str) (processing_time : Q) :
  model_loaded s = true -> (0 < sample_rate (config s))%Z ->
  fits (config s) audio ->
  model_calls (fst (_transcribe_audio str_lower s audio transcribe
                      processing_time))
  = model_calls s ++ [audio].
Proof.
  intros Hm Hrate [Hmin Hmax]. unfold _transcribe_audio. rewrite Hm.
  cbn [negb]. destruct (Z.eqb_spec (sample_rate (config s)) 0); [lia|].
  assert (H1 : ltb (inject_Z (Z.of_nat (length audio))
                    / inject_Z (sample_rate (config s)))
                   (min_audio_length (config s)) = false).
  { unfold ltb. apply negb_false_iff, Qle_bool_iff. exact Hmin. }
  assert (H2 : ltb (max_audio_length (config s))
                   (inject_Z (Z.of_nat (length audio))
                    / inject_Z (sample_rate (config s))) = false).
  { unfold ltb. apply negb_false_iff, Qle_bool_iff. exact Hmax. }
  rewrite H1, H2.
  destruct (transcribe audio) as [text|e].
  - set (s2 := set_processing_times _ _).
    destruct (filter_frame s2 (strip text)) as (_ & _ & _ & _ & _ & _ & _ & Ht & _).
    destruct (_filter_transcription str_lower s2 (strip text)) as [s3 out].
    cbn [fst] in *. unfold model_calls at 1. rewrite Ht.
    apply (model_calls_emit (ModelCall audio) s).
  - cbn [fst]. rewrite !model_calls_emit, <- app_assoc, app_nil_r.
    reflexivity.
Qed.

Lemma worker_step_cases (s : RealtimeSTT) (audio : frame)
    (rest : list (option frame)) (transcribe : frame -> PyResult str)
    (processing_time : Q) :
  queued (audio_queue s) = Some audio :: rest ->
  exists s',
    _processing_worker_step str_lower s transcribe processing_time = Some s'
    /\ queued (audio_queue s') = rest
    /\ is_running s' = is_running s
    /\ model_loaded s' = model_loaded s
    /\ (result_queue s' = result_queue s
        \/ exists text, text <> [] /\ last_result s' = text
                        /\ result_queue s' = result_queue s ++ [text])
    /\ (model_loaded s = false ->
        result_queue s' = result_queue s
        /\ trace s'
           = trace s ++ LogError "Processing worker error"
               :: (if on_error s
                   then [ErrorCallback "STT processing error"] else []))
    /\ (model_loaded s = true ->
        exists evs, trace s' = trace s ++ evs
                    /\ Forall not_error_callback evs)
    /\ config s' = config s
    /\ maxsize (audio_queue s') = maxsize (audio_queue s)
    /\ (model_loaded s = true -> (0 < sample_rate (config s))%Z ->
        fits (config s) audio -> model_calls s' = model_calls s ++ [audio]).
Proof.
  intros Hq. unfold _processing_worker_step.
  replace (bool_decide (queued (audio_queue s) = [])) with false
    by (symmetry; apply bool_decide_eq_false; rewrite Hq; discriminate).
  rewrite andb_false_r. unfold queue_get. rewrite Hq.
  set (s1 := set_audio_queue _ s).
  pose proof (transcribe_frame s1 audio transcribe processing_time) as Ht.
  pose proof (transcribe_fits s1 audio transcribe processing_time) as Hfit.
  destruct (_transcribe_audio str_lower s1 audio transcribe processing_time)
    as [s2 r]. cbn [fst snd] in Ht, Hfit.
  destruct Ht as (H1 & H2 & H3 & H4 & H5 & H6 & H7 & (evs & H8 & Hevs)
                  & H9 & H10 & H11).
  change (model_loaded s1) with (model_loaded s) in *.
  change (trace s1) with (trace s) in *.
  change (is_running s1) with (is_running s) in *.
  change (result_queue s1) with (result_queue s) in *.
  change (on_error s1) with (on_error s) in *.
  change (config s1) with (config s) in *.
  change (model_calls s1) with (model_calls s) in *.
  destruct r as [text|e].
  - assert (Hm : model_loaded s = true).
    { destruct (model_loaded s); [reflexivity|].
      specialize (H11 eq_refl). discriminate. }
    destruct text as [|c text].
    + exists s2. split; [reflexivity|]. rewrite H3.
      conjs; auto; try congruence. intros _. eauto.
    + assert (Hlr : last_result s2 = c :: text)
        by (apply H9; [reflexivity|discriminate]).
      eexists. split; [reflexivity|].
      destruct (on_transcription _); cbn [audio_queue is_running model_loaded
        result_queue last_result trace emit set_result_queue config];
        rewrite ?H3, ?H5, ?H2, ?H4, ?Hlr.
      * conjs; auto; try congruence.
        -- right. exists (c :: text). split; [discriminate|]. auto.
        -- intros _. rewrite H8.
           exists (evs ++ [TranscriptionCallback (c :: text)]).
           rewrite app_assoc. split; [reflexivity|].
           apply Forall_app. split; [exact Hevs|repeat constructor].
        -- intros Hl Hr Hf. rewrite model_calls_emit, app_nil_r.
           exact (Hfit Hl Hr Hf).
      * conjs; auto; try congruence.
        -- right. exists (c :: text). split; [discriminate|]. auto.
        -- intros _. eauto.
  - assert (Hm : model_loaded s = false).
    { destruct (model_loaded s); [|reflexivity].
      destruct (H10 eq_refl). discriminate. }
    specialize (H11 Hm). injection H11 as -> _.
    eexists. split; [reflexivity|].
    destruct (on_error s) eqn:Hoe; cbn; rewrite ?Hoe; cbn.
    + conjs; auto; try congruence. intros _. split; [reflexivity|].
      rewrite <- app_assoc. reflexivity.
    + conjs; auto; try congruence.
Qed.

(** X9: an iteration of the processing worker that finds a segment on the
    queue takes it off and goes on, whatever the model does: the loop is
    never left on an error. The results grow by at most one text, which is
    not empty and is then the last result; without a loaded model the
    segment is answered by a log record and the error callback only; with
    a loaded model the error callback is never invoked, even when the model
    raises. *)
Theorem worker_step_survives (s : RealtimeSTT) (audio : frame)
    (rest : list (option frame)) (transcribe : frame -> PyResult str)
    (processing_time : Q) :
  queued (audio_queue s) = Some audio :: rest ->
  exists s',
    _processing_worker_step str_lower s transcribe processing_time = Some s'
    /\ queued (audio_queue s') = rest
    /\ is_running s' = is_running s
    /\ model_loaded s' = model_loaded s
    /\ (result_queue s' = result_queue s
        \/ exists text, text <> [] /\ last_result s' = text
                        /\ result_queue s' = result_queue s ++ [text])
    /\ (model_loaded s = false ->
        result_queue s' = result_queue s
        /\ trace s'
           = trace s ++ LogError "Processing worker error"
               :: (if on_error s
                   then [ErrorCallback "STT processing error"] else []))
    /\ (model_loaded s = true ->
        exists evs, trace s' = trace s ++ evs
                    /\ Forall not_error_callback evs).
Proof.
  intros Hq.
  destruct (worker_step_cases s audio rest transcribe processing_time Hq)
    as (s' & H1 & H2 & H3 & H4 & H5 & H6 & H7 & _).
  exists s'. auto 10.
Qed.

Lemma worker_drains (audios : list frame) (s : RealtimeSTT)
    (transcribe : frame -> PyResult str) (processing_time : Q) :
  queued (audio_queue s) = map Some audios ++ [None] ->
  exists s',
    _processing_worker str_lower (S (length audios)) s transcribe
      processing_time = Some s'
    /\ queued (audio_queue s') = []
    /\ is_running s' = is_running s
    /\ (model_loaded s = true -> (0 < sample_rate (config s))%Z ->
        Forall (fits (config s)) audios ->
        model_calls s' = model_calls s ++ audios).
Proof.
  revert s. induction audios as [|a audios IH]; intros s Hq.
  - cbn [length _processing_worker]. unfold _processing_worker_step.
    cbn [map app] in Hq.
    replace (bool_decide (queued (audio_queue s) = [])) with false
      by (symmetry; apply bool_decide_eq_false; rewrite Hq; discriminate).
    rewrite andb_false_r. unfold queue_get. rewrite Hq.
    eexists. split; [reflexivity|]. cbn. conjs; auto.
    intros _ _ _. rewrite app_nil_r. reflexivity.
  - cbn [map app] in Hq.
    destruct (worker_step_cases s a (map Some audios ++ [None]) transcribe
                processing_time Hq)
      as (s1 & Hstep & Hq1 & Hrun & Hml & _ & _ & _ & Hcfg & _ & Hcalls).
    destruct (IH s1 Hq1) as (s' & Hw & Hq' & Hrun' & Hcalls').
    exists s'. cbn [length]. remember (S (length audios)) as fuel.
    cbn [_processing_worker]. rewrite Hstep.
    split; [exact Hw|]. split; [exact Hq'|]. split; [congruence|].
    intros Hl Hr Hall. inversion Hall as [|? ? Ha Hrest]; subst.
    rewrite Hcalls'.
    + rewrite (Hcalls Hl Hr Ha), <- app_assoc. reflexivity.
    + congruence.
    + rewrite Hcfg. exact Hr.
    + rewrite Hcfg. exact Hrest.
Qed.

(** X10: [stop] on a running stage whose queue is unbounded, as [__init__]
    creates it, returns with the termination signal queued behind the
    segments that were waiting; the worker then handles every one of these
    segments and ends, after one iteration per segment and one for the
    signal, with an empty queue: when the model is loaded and the segments
    have an admissible length, each is handed to the model, in order. A
    segment submitted after [stop] is refused with a warning. *)
Theorem stop_drains_queue (s : RealtimeSTT) (audios : list frame)
    (transcribe : frame -> PyResult str) (processing_time : Q) :
  is_running s = true ->
  maxsize (audio_queue s) = 0%Z ->
  queued (audio_queue s) = map Some audios ->
  exists s1 s',
    stop s = Some s1
    /\ is_running s1 = false
    /\ queued (audio_queue s1) = map Some audios ++ [None]
    /\ _processing_worker str_lower (S (length audios)) s1 transcribe
         processing_time = Some s'
    /\ is_running s' = false
    /\ queued (audio_queue s') = []
    /\ (model_loaded s = true -> (0 < sample_rate (config s))%Z ->
        Forall (fits (config s)) audios ->
        model_calls s' = model_calls s ++ audios)
    /\ forall (a : frame) (freed : nat),
         process_audio s' a freed = emit (LogWarning "STT not running") s'.
Proof.
  intros Hrun Hmax Hq. unfold stop. rewrite Hrun. cbn [negb].
  unfold queue_put, queue_full.
  cbn [audio_queue set_is_running maxsize queued drop].
  rewrite Hmax. cbn [Z.ltb Z.compare andb].
  eexists. 
  match goal with |- context [Some ?x = Some _] => set (s1 := x) end.
  assert (Hq1 : queued (audio_queue s1) = map Some audios ++ [None]).
  { unfold s1. cbn. rewrite Hq. reflexivity. }
  destruct (worker_drains audios s1 transcribe processing_time Hq1)
    as (s' & Hw & Hq' & Hrun' & Hcalls).
  exists s'. split; [reflexivity|]. split; [reflexivity|].
  split; [exact Hq1|]. split; [exact Hw|].
  split; [rewrite Hrun'; reflexivity|]. split; [exact Hq'|].
  split; [exact Hcalls|].
  intros a freed. unfold process_audio. rewrite Hrun'. reflexivity.
Qed.



Lemma transcribe_no_worker_error (s : RealtimeSTT) (audio : frame)
    (transcribe : frame -> PyResult str) (processing_time : Q) :
  exists evs,
    trace (fst (_transcribe_audio str_lower s audio transcribe
                  processing_time)) = trace s ++ evs
    /\ Forall (fun e => e <> LogError "Processing worker error"
                        /\ e <> ErrorCallback "STT processing error") evs.
Proof.
  unfold _transcribe_audio.
  destruct (negb (model_loaded s)).
  { exists []. rewrite app_nil_r. auto. }
  destruct (sample_rate (config s) =? 0)%Z.
  { exists [LogError "Transcription error"]. split; [reflexivity|].
    repeat constructor; discriminate. }
  destruct (ltb _ (min_audio_length (config s))).
  { exists []. rewrite app_nil_r. auto. }
  match goal with |- context [transcribe ?x] => set (a := x) end.
  destruct (transcribe a) as [text|e].
  - set (s2 := set_processing_times _ _).
    destruct (filter_frame s2 (strip text)) as (_ & _ & _ & _ & _ & _ & _ & Ht & _).
    destruct (_filter_transcription str_lower s2 (strip text)) as [s3 out].
    cbn [fst] in *. exists [ModelCall a]. split; [rewrite Ht; reflexivity|].
    repeat constructor; discriminate.
  - exists [ModelCall a; LogError "Transcription error"].
    cbn [fst trace emit]. rewrite <- app_assoc. split; [reflexivity|].
    repeat constructor; discriminate.
Qed.

Lemma stt_step_never_failed (s s1 : RealtimeSTT) :
  never_failed s -> stt_step str_lower s s1 -> never_failed s1.
Proof.
  intros [Hload Htrace] Hstep.
  assert (Hcases : (is_running s = false /\ queued (audio_queue s) = [])
                   \/ model_loaded s = true).
  { destruct (is_running s); [right; apply Hload; auto|].
    destruct (queued (audio_queue s)); [left; auto|].
    right. apply Hload. right. discriminate. }
  clear Hload.
  assert (Hnew : forall evs,
            Forall (fun e => e <> LogError "Processing worker error"
                             /\ e <> ErrorCallback "STT processing error") evs ->
            Forall (fun e => e <> LogError "Processing worker error"
                             /\ e <> ErrorCallback "STT processing error")
                   (trace s ++ evs)).
  { intros evs Hevs. apply Forall_app. split; assumption. }
  destruct Hstep as [load_ok|audio freed|s1 Hstop|transcribe time s1 Hwork].
  - unfold start.
    destruct (is_running s) eqn:Hrun.
    { destruct Hcases as [[Hf _]|Hm]; [discriminate|].
      split; [intros _; exact Hm|]. apply (Hnew [_]).
      repeat constructor; discriminate. }
    destruct (model_loaded s) eqn:Hm.
    { split; [intros _; exact Hm|exact Htrace]. }
    destruct Hcases as [[_ Hq]|Hf]; [|discriminate].
    destruct load_ok.
    { split; [reflexivity|]. apply (Hnew [_]).
      repeat constructor; discriminate. }
    cbn [fst]. split.
    + intros H. exfalso.
      destruct (on_error _); cbn in H; rewrite Hrun, Hq in H;
        destruct H as [H|H]; try discriminate; contradiction.
    + destruct (on_error _); cbn [trace emit]; rewrite <- ?app_assoc;
        apply Hnew; repeat constructor; discriminate.
  - unfold process_audio. destruct (is_running s) eqn:Hrun; cbn [negb].
    + destruct Hcases as [[Hf _]|Hm]; [discriminate|].
      destruct (queue_put _ _ _) as [q [u|e]]; split;
        try (intros _; exact Hm); cbn [trace emit set_audio_queue];
        try exact Htrace.
      apply Hnew. repeat constructor; discriminate.
    + split.
      * cbn. rewrite Hrun. intros [H|H]; [discriminate|].
        destruct Hcases as [[_ Hq]|Hm]; [contradiction|exact Hm].
      * apply (Hnew [_]). repeat constructor; discriminate.
  - unfold stop in Hstop. destruct (is_running s) eqn:Hrun; cbn [negb] in Hstop.
    + destruct Hcases as [[Hf _]|Hm]; [discriminate|].
      destruct (queue_put _ _ _) as [q [u|e]]; [|discriminate].
      injection Hstop as <-. split; [intros _; exact Hm|exact Htrace].
    + injection Hstop as <-. split; [|exact Htrace].
      rewrite Hrun. intros [H|H]; [discriminate|].
      destruct Hcases as [[_ Hq]|Hm]; [contradiction|exact Hm].
  - unfold _processing_worker_step in Hwork.
    destruct (negb (is_running s) && bool_decide (queued (audio_queue s) = []));
      [discriminate|].
    unfold queue_get in Hwork.
    destruct (queued (audio_queue s)) as [|[audio|] rest] eqn:Hq.
    + injection Hwork as <-. split; [|exact Htrace].
      rewrite Hq. intros [H|H]; [|contradiction].
      destruct Hcases as [[Hf _]|Hm]; [congruence|exact Hm].
    + assert (Hm : model_loaded s = true)
        by (destruct Hcases as [[_ Hf]|Hm]; [discriminate|exact Hm]).
      set (s0 := set_audio_queue _ s) in Hwork.
      destruct (transcribe_frame s0 audio transcribe time)
        as (_ & Hm2 & _ & _ & _ & _ & _ & _ & _ & Hret & _).
      destruct (transcribe_no_worker_error s0 audio transcribe time)
        as (evs & Hevs & Hok).
      destruct (Hret Hm) as [text Htext].
      destruct (_transcribe_audio str_lower s0 audio transcribe time)
        as [s2 r]. cbn [fst snd] in *. subst r.
      change (model_loaded s0) with (model_loaded s) in Hm2.
      change (trace s0) with (trace s) in Hevs.
      assert (Htr2 : Forall (fun e => e <> LogError "Processing worker error"
                               /\ e <> ErrorCallback "STT processing error")
                            (trace s2)).
      { rewrite Hevs. apply Hnew. exact Hok. }
      destruct text as [|c text]; injection Hwork as <-.
      * split; [intros _; congruence|exact Htr2].
      * destruct (on_transcription _); split;
          try (intros _; cbn; congruence); cbn [trace emit set_result_queue];
          try exact Htr2.
        apply Forall_app. split; [exact Htr2|].
        repeat constructor; discriminate.
    + discriminate.
Qed.

Lemma stt_run_never_failed (s s1 : RealtimeSTT) :
  never_failed s -> rtc (stt_step str_lower) s s1 -> never_failed s1.
Proof.
  intros Hok Hrun. induction Hrun as [|s s1 s2 Hstep _ IH]; [exact Hok|].
  apply IH. exact (stt_step_never_failed _ _ Hok Hstep).
Qed.

(** X27: on every state that a stage reaches from its constructor through
    calls of [start], [process_audio] and [stop] and iterations of its
    worker, in any order, a stage that runs or has something queued has its
    model loaded. The worker therefore never takes its error branch: no
    processing error is ever logged by the worker and the error callback is
    never invoked with a processing error, whatever the model does. *)
Theorem worker_error_branch_is_dead (cfg : RealtimeSTTConfig)
    (s : RealtimeSTT) :
  rtc (stt_step str_lower) (init cfg) s ->
  (is_running s = true \/ queued (audio_queue s) <> [] ->
   model_loaded s = true)
  /\ Forall (fun e => e <> LogError "Processing worker error"
                      /\ e <> ErrorCallback "STT processing error")
            (trace s)
  /\ forall audio rest transcribe processing_time,
       queued (audio_queue s) = Some audio :: rest ->
       exists s' text,
         _processing_worker_step str_lower s transcribe processing_time
         = Some s'
         /\ snd (_transcribe_audio str_lower
                   (set_audio_queue (mkQueue (maxsize (audio_queue s)) rest) s)
                   audio transcribe processing_time) = Return text.
Proof.
  intros Hrun.
  assert (Hinv : never_failed s).
  { apply (stt_run_never_failed (init cfg)); [|exact Hrun].
    split; [|constructor]. cbn. intros [H|H]; [discriminate|contradiction]. }
  destruct Hinv as [Hload Htrace].
  split; [exact Hload|]. split; [exact Htrace|].
  intros audio rest transcribe time Hq.
  assert (Hm : model_loaded s = true).
  { apply Hload. right. rewrite Hq. discriminate. }
  destruct (worker_step_cases s audio rest transcribe time Hq)
    as (s' & Hstep & _).
  destruct (transcribe_frame
              (set_audio_queue (mkQueue (maxsize (audio_queue s)) rest) s)
              audio transcribe time)
    as (_ & _ & _ & _ & _ & _ & _ & _ & _ & Hret & _).
  destruct (Hret Hm) as [text Htext].
  exists s', text. split; [exact Hstep|exact Htext].
Qed.

End Filter.

Lemma worker_error_branch_is_dead_witness :
  rtc (stt_step lower_ascii) (init default_config)
      (fst (start (init default_config) true))
  /\ Forall (fun e => e <> LogError "Processing worker error"
                      /\ e <> ErrorCallback "STT processing error")
            (trace (fst (start (init default_config) true))).
Proof.
  assert (H : rtc (stt_step lower_ascii) (init default_config)
                  (fst (start (init default_config) true)))
    by (apply rtc_once; constructor).
  split; [exact H|].
  exact (proj1 (proj2 (worker_error_branch_is_dead lower_ascii default_config
                         _ H))).
Defined.

Lemma worker_step_survives_witness :
  queued (audio_queue waiting_stt) = [Some quarter_second]
  /\ exists s',
      _processing_worker_step lower_ascii waiting_stt
        (fun _ => Raise "RuntimeError") 1 = Some s'
      /\ queued (audio_queue s') = [].
Proof.
  split; [reflexivity|].
  destruct (worker_step_survives lower_ascii waiting_stt quarter_second []
              (fun _ => Raise "RuntimeError") 1 eq_refl)
    as (s' & H1 & H2 & _).
  exists s'. split; assumption.
Defined.

Lemma stop_drains_queue_witness :
  is_running coarse_waiting = true
  /\ maxsize (audio_queue coarse_waiting) = 0%Z
  /\ queued (audio_queue coarse_waiting) = map Some [one_second]
  /\ exists s1 s',
      stop coarse_waiting = Some s1
      /\ _processing_worker lower_ascii 2 s1 (fun _ => Return (lit "hello")) 1
         = Some s'
      /\ queued (audio_queue s') = [].
Proof.
  split; [reflexivity|]. split; [reflexivity|]. split; [reflexivity|].
  destruct (stop_drains_queue lower_ascii coarse_waiting [one_second]
              (fun _ => Return (lit "hello")) 1 eq_refl eq_refl eq_refl)
    as (s1 & s' & H1 & _ & _ & H4 & _ & H6 & _).
  exists s1, s'. auto.
Defined.


End RealtimeSTTControlFacts.

(** ** realtime_translator.py: cache, counters and statistics *)

Module TranslatorCacheFacts.
Import Py PyFacts RealtimeTranslator RealtimeTranslatorFacts TranslatorStats.
#[local] Open Scope Q_scope.

Lemma utf8_char_encodable (c : N) :
  is_Some (Md5.utf8_char c) <-> encodable c = true.
Proof.
  unfold Md5.utf8_char, encodable.
  destruct (N.ltb_spec c 128).
  { replace (c <? 1114112)%N with true by (symmetry; apply N.ltb_lt; lia).
    replace (55296 <=? c)%N with false by (symmetry; apply N.leb_gt; lia).
    cbn. split; eauto. }
  destruct (N.ltb_spec c 2048).
  { replace (c <? 1114112)%N with true by (symmetry; apply N.ltb_lt; lia).
    replace (55296 <=? c)%N with false by (symmetry; apply N.leb_gt; lia).
    cbn. split; eauto. }
  destruct (N.ltb_spec c 65536).
  { replace (c <? 1114112)%N with true by (symmetry; apply N.ltb_lt; lia).
    destruct ((55296 <=? c)%N && (c <=? 57343)%N); cbn; split; eauto;
      try discriminate. intros [x Hx]. discriminate. }
  replace (55296 <=? c)%N with true by (symmetry; apply N.leb_le; lia).
  replace (c <=? 57343)%N with false by (symmetry; apply N.leb_gt; lia).
  destruct (c <? 1114112)%N; cbn; split; eauto; try discriminate.
  intros [x Hx]. discriminate.
Qed.

Lemma utf8_encode_encodable (text : str) :
  is_Some (Md5.utf8_encode text) <-> forallb encodable text = true.
Proof.
  induction text as [|c text IH]; cbn [Md5.utf8_encode forallb].
  - split; eauto.
  - rewrite andb_true_iff, <- IH, <- utf8_char_encodable.
    destruct (Md5.utf8_char c), (Md5.utf8_encode text); split;
      try (intros [x Hx]; discriminate); try (intros [[x Hx] [y Hy]]; discriminate);
      eauto.
Qed.

Lemma hex_digit_ok (n : N) : (n < 16)%N -> is_hex_digit (Md5.hex_digit n) = true.
Proof.
  intros H. unfold Md5.hex_digit, is_hex_digit.
  destruct (N.ltb_spec n 10).
  - replace (48 <=? 48 + n)%N with true by (symmetry; apply N.leb_le; lia).
    replace (48 + n <=? 57)%N with true by (symmetry; apply N.leb_le; lia).
    reflexivity.
  - replace (97 <=? 87 + n)%N with true by (symmetry; apply N.leb_le; lia).
    replace (87 + n <=? 102)%N with true by (symmetry; apply N.leb_le; lia).
    apply orb_true_r.
Qed.

Lemma hex_pairs (bs : list N) :
  let hex := flat_map (fun b => [Md5.hex_digit (N.shiftr b 4);
                                 Md5.hex_digit (N.land b 15)]) bs in
  length hex = (2 * length bs)%nat
  /\ (Forall (fun b => (b < 256)%N) bs -> forallb is_hex_digit hex = true).
Proof.
  induction bs as [|b bs [IHl IHf]]; cbn [flat_map length app forallb].
  - auto.
  - split; [cbn in IHl |- *; rewrite IHl; lia|].
    intros Hall. inversion Hall as [|? ? Hb Hbs]; subst.
    cbn [app forallb]. rewrite (IHf Hbs), !hex_digit_ok; [reflexivity| |].
    + change 15%N with (N.ones 4). rewrite N.land_ones.
      apply N.mod_lt. discriminate.
    + rewrite N.shiftr_div_pow2. change (2 ^ 4)%N with 16%N.
      apply N.Div0.div_lt_upper_bound. lia.
Qed.

Lemma le_bytes_small (n : nat) (w : N) :
  length (Md5.le_bytes n w) = n
  /\ Forall (fun b => (b < 256)%N) (Md5.le_bytes n w).
Proof.
  unfold Md5.le_bytes. split; [rewrite length_map, length_seq; reflexivity|].
  apply Forall_map. apply Forall_forall. intros i _. cbn beta.
  change 255%N with (N.ones 8). rewrite N.land_ones.
  apply N.mod_lt. discriminate.
Qed.

(** X12: the cache key of a text exists exactly when every code point of the
    text can be encoded in UTF-8 (no surrogate, below 0x110000); it is then a
    string of 32 lower-case hexadecimal digits, so never the empty string. *)
Theorem cache_key_format (text : str) :
  (forallb encodable text = true <-> exists k, get_cache_key text = Return k)
  /\ forall k, get_cache_key text = Return k ->
       length k = 32%nat /\ forallb is_hex_digit k = true.
Proof.
  unfold get_cache_key. split.
  - rewrite <- utf8_encode_encodable.
    destruct (Md5.utf8_encode text) as [data|]; split; eauto.
    + intros [x Hx]. discriminate.
    + intros [k Hk]. discriminate.
  - intros k. destruct (Md5.utf8_encode text) as [data|]; [|discriminate].
    intros H. injection H as <-. unfold Md5.hexdigest, Md5.digest.
    destruct (fold_left _ _ _) as [[[a b] c] d].
    match goal with |- context [flat_map _ ?bs] =>
      destruct (hex_pairs bs) as [Hl Hf]; cbv zeta in Hl, Hf
    end.
    split.
    + rewrite Hl, !length_app.
      rewrite !(proj1 (le_bytes_small 4 _)). reflexivity.
    + apply Hf. repeat (apply Forall_app; split); apply le_bytes_small.
Qed.










Lemma postprocess_trimmed (text raw out : str) :
  postprocess text raw = Return out -> strip out = out.
Proof.
  unfold postprocess.
  destruct (after_first text raw) as [rest|].
  - destruct text; [discriminate|]. intros H. injection H as <-.
    apply strip_idem.
  - intros H. injection H as <-. apply strip_idem.
Qed.

(** X15: a call of [translate_text] whose only new event is the engine call,
    that is one answered by the engine without error, returns a translation
    with no blank at either end, made from the prompt that ends with the
    normalized text; the stage then remembers that text as the last one
    translated, and with the cache enabled the translation is stored under
    the key of that text. *)
Theorem engine_answer_recorded (s : RealtimeTranslator) (text prompt out : str)
    (engine : str -> PyResult str) (processing_time : Q) :
  let r := translate_text s text engine processing_time in
  trace (fst r) = trace s ++ [EngineCall prompt] ->
  snd r = Return out ->
  strip out = out
  /\ prompt = prompt_prefix ++ normalize (config s) text
  /\ (exists raw, engine prompt = Return raw
                  /\ postprocess (normalize (config s) text) raw = Return out)
  /\ last_translated_text (fst r) = normalize (config s) text
  /\ cache_misses (fst r) = S (cache_misses s)
  /\ (use_cache (config s) = true ->
      exists k, get_cache_key (normalize (config s) text) = Return k
                /\ translation_cache s !! k = None
                /\ translation_cache (fst r) !! k = Some out).
Proof.
  cbv zeta.
  pose proof (translate_text_ending s text engine processing_time) as H.
  destruct (translate_text s text engine processing_time) as [s' r].
  cbn [fst snd] in *. intros Htr Hr. subst r.
  assert (Hnil : forall l : list event, l = l ++ [EngineCall prompt] -> False).
  { intros l Hl. apply (f_equal length) in Hl. rewrite length_app in Hl.
    simpl in Hl. lia. }
  inversion H as [Hf|e Hc Hk|k cached Ha Hc Hk Hl|Hm|Ha Hm Hfail
                  |raw out' Ha Hm He Hp Hkey]; subst; record_simpl;
    try (exfalso; exact (Hnil _ Htr)).
  - exfalso. rewrite <- app_assoc in Htr. apply app_inv_head in Htr.
    discriminate.
  - apply app_inv_head in Htr. injection Htr as <-.
    split; [exact (postprocess_trimmed _ _ _ Hp)|].
    split; [reflexivity|]. split; [eauto|]. split; [reflexivity|].
    split; [reflexivity|].
    intros Hc. rewrite Hc. destruct (Hkey Hc) as (k & Hk & Hnone).
    exists k. rewrite Hk. split; [reflexivity|]. split; [exact Hnone|].
    apply lookup_insert_eq.
Qed.

(** X16: the cache hit rate that [get_stats] reports is hits over hits plus
    misses, a value between 0 and 1, and 0 when nothing was counted; the
    average translation time is 0 without recorded times. *)
Theorem get_stats_rate (s : RealtimeTranslator) :
  let st := get_stats s in
  0 <= cache_hit_rate st /\ cache_hit_rate st <= 1
  /\ cache_hit_rate st * inject_Z (Z.of_nat (cache_hits s + cache_misses s))
     == inject_Z (Z.of_nat (cache_hits s))
  /\ (cache_hits s = 0%nat -> cache_hit_rate st == 0)
  /\ (translation_times s = [] -> avg_translation_time st = 0)
  /\ stats_cache_hits st = cache_hits s
  /\ stats_cache_misses st = cache_misses s.
Proof.
  cbv zeta. unfold get_stats.
  cbn [cache_hit_rate avg_translation_time stats_cache_hits stats_cache_misses].
  set (h := cache_hits s). set (m := cache_misses s).
  assert (Hh : 0 <= inject_Z (Z.of_nat h)).
  { change 0 with (inject_Z 0). rewrite <- Zle_Qle. lia. }
  destruct (Nat.ltb_spec 0 (h + m)) as [Hpos|Hzero].
  - assert (Ht : 0 < inject_Z (Z.of_nat (h + m))).
    { change 0 with (inject_Z 0). rewrite <- Zlt_Qlt. lia. }
    assert (Hle : inject_Z (Z.of_nat h) <= inject_Z (Z.of_nat (h + m))).
    { rewrite <- Zle_Qle. lia. }
    split; [apply Qle_shift_div_l; [exact Ht|lra]|].
    split; [apply Qle_shift_div_r; [exact Ht|lra]|].
    split; [field; lra|].
    split; [intros H0; rewrite H0; change (inject_Z (Z.of_nat 0)) with 0;
            unfold Qdiv; ring|].
    split; [intros ->; reflexivity|]. auto.
  - assert (h = 0%nat /\ m = 0%nat) as [-> ->] by lia.
    split; [lra|]. split; [lra|]. split; [reflexivity|].
    split; [reflexivity|]. split; [intros ->; reflexivity|]. auto.
Qed.













Lemma engine_answer_recorded_witness :
  trace (fst (translate_text ready hello annyeong 1))
  = trace ready ++ [EngineCall (prompt_prefix ++ hello)]
  /\ snd (translate_text ready hello annyeong 1) = Return (lit "annyeong")
  /\ strip (lit "annyeong") = lit "annyeong".
Proof.
  assert (H1 : trace (fst (translate_text ready hello annyeong 1))
               = trace ready ++ [EngineCall (prompt_prefix ++ hello)])
    by (vm_compute; reflexivity).
  assert (H2 : snd (translate_text ready hello annyeong 1)
               = Return (lit "annyeong")) by (vm_compute; reflexivity).
  split; [exact H1|]. split; [exact H2|].
  exact (proj1 (engine_answer_recorded ready hello (prompt_prefix ++ hello)
                  (lit "annyeong") annyeong 1 H1 H2)).
Defined.

End TranslatorCacheFacts.

(** ** overlay_ui.py: subtitles, history and the update queue *)

Module OverlayUIFacts.
Import Py PyFacts OverlayUI.
#[local] Open Scope Q_scope.

Ltac overlay_simpl :=
  cbn [config original_label translated_label is_visible current_original
       current_translated last_update_time translation_history hide_timer
       update_queue set_labels set_is_visible set_current
       set_translation_history set_hide_timer set_update_queue set_config
       write_labels] in *.

Lemma clip_spec (cfg : OverlayConfig) (text : str) :
  (0 <= max_line_length cfg)%Z ->
  (Z.of_nat (length (clip cfg text)) <= max_line_length cfg + 3)%Z
  /\ ((Z.of_nat (length text) <= max_line_length cfg)%Z -> clip cfg text = text)
  /\ ((max_line_length cfg < Z.of_nat (length text))%Z ->
      clip cfg text
      = take (Z.to_nat (max_line_length cfg)) text ++ lit "...").
Proof.
  intros Hmax. unfold clip, slice_to.
  destruct (Z.ltb_spec (max_line_length cfg) (Z.of_nat (length text))) as [Hlt|Hle].
  - destruct (Z.ltb_spec (max_line_length cfg) 0); [lia|].
    split; [|split; [lia|reflexivity]].
    rewrite length_app, length_take. cbn [length lit]. simpl length. lia.
  - split; [lia|]. split; [reflexivity|lia].
Qed.

Lemma write_labels_frame (o t : str) (s : TransparentOverlay) :
  let s' := write_labels o t s in
  config s' = config s /\ is_visible s' = is_visible s
  /\ current_original s' = current_original s
  /\ current_translated s' = current_translated s
  /\ last_update_time s' = last_update_time s
  /\ translation_history s' = translation_history s
  /\ hide_timer s' = hide_timer s /\ update_queue s' = update_queue s.
Proof. cbv zeta. unfold write_labels. overlay_simpl. repeat split. Qed.

(** What [_update_subtitle_display] leaves in every field but the history. *)
Lemma display_frame (s : TransparentOverlay) (o t : str) (now : Q) :
  let s' := _update_subtitle_display s o t now in
  config s' = config s
  /\ current_original s' = o /\ current_translated s' = t
  /\ last_update_time s' = now
  /\ is_visible s' = true
  /\ update_queue s' = update_queue s
  /\ hide_timer s'
     = (if auto_hide_enabled (config s) && ltb 0 (auto_hide_delay (config s))
        then Some (auto_hide_delay (config s)) else None)
  /\ original_label s'
     = match original_label s with
       | Some old =>
           Some (if show_original (config s) then clip (config s) o else old)
       | None => None
       end
  /\ translated_label s'
     = match translated_label s with
       | Some old =>
           Some (if show_translated (config s) then clip (config s) t else old)
       | None => None
       end.
Proof.
  cbv zeta. unfold _update_subtitle_display, _show_overlay,
    _update_lyrics_style, _update_default_style.
  overlay_simpl.
  destruct (is_visible s) eqn:Hv; cbn [negb]; overlay_simpl; rewrite ?Hv;
    overlay_simpl;
    destruct (lyrics_style (config s));
    try destruct (negb (bool_decide (t = [])) && negb (str_eqb t waiting));
    overlay_simpl;
    destruct (hide_timer s) eqn:Hh; overlay_simpl; rewrite ?Hh;
    destruct (auto_hide_enabled (config s) && ltb 0 (auto_hide_delay (config s)));
    overlay_simpl; repeat split; rewrite ?Hv, ?Hh; reflexivity.
Qed.

(** X17: [_update_subtitle_display] keeps the texts whole as the current
    subtitle, records the time, and leaves the overlay visible with the
    hide timer counting exactly when automatic hiding is enabled with a
    positive delay; a label that exists and whose kind of text is shown
    holds the text cut to max_line_length characters followed by three
    dots when it is longer, never more than max_line_length + 3
    characters. *)
Theorem subtitle_display (s : TransparentOverlay) (o t : str) (now : Q) :
  (0 <= max_line_length (config s))%Z ->
  let s' := _update_subtitle_display s o t now in
  current_original s' = o /\ current_translated s' = t
  /\ last_update_time s' = now
  /\ is_visible s' = true
  /\ (is_Some (hide_timer s') <->
      auto_hide_enabled (config s) = true /\ 0 < auto_hide_delay (config s))
  /\ (forall old, original_label s = Some old ->
        show_original (config s) = true ->
        exists shown,
          original_label s' = Some shown
          /\ (Z.of_nat (length shown) <= max_line_length (config s) + 3)%Z
          /\ ((Z.of_nat (length o) <= max_line_length (config s))%Z ->
              shown = o)
          /\ ((max_line_length (config s) < Z.of_nat (length o))%Z ->
              shown = take (Z.to_nat (max_line_length (config s))) o
                      ++ lit "..."))
  /\ (forall old, translated_label s = Some old ->
        show_translated (config s) = true ->
        exists shown,
          translated_label s' = Some shown
          /\ (Z.of_nat (length shown) <= max_line_length (config s) + 3)%Z
          /\ ((Z.of_nat (length t) <= max_line_length (config s))%Z ->
              shown = t)
          /\ ((max_line_length (config s) < Z.of_nat (length t))%Z ->
              shown = take (Z.to_nat (max_line_length (config s))) t
                      ++ lit "...")).
Proof.
  intros Hmax.
  destruct (display_frame s o t now)
    as (_ & Ho & Ht & Hnow & Hv & _ & Htimer & Hol & Htl).
  cbv zeta. split; [exact Ho|]. split; [exact Ht|]. split; [exact Hnow|].
  split; [exact Hv|]. split.
  { rewrite Htimer. split.
    - destruct (auto_hide_enabled (config s)); cbn [andb].
      + destruct (ltb 0 (auto_hide_delay (config s))) eqn:Hd.
        * intros _. split; [reflexivity|]. apply ltb_lt. exact Hd.
        * intros [x Hx]. discriminate.
      + intros [x Hx]. discriminate.
    - intros [-> Hd]. apply ltb_lt in Hd. rewrite Hd. eauto. }
  split.
  - intros old Hold Hshow. rewrite Hol, Hold, Hshow.
    exists (clip (config s) o). split; [reflexivity|].
    exact (clip_spec (config s) o Hmax).
  - intros old Hold Hshow. rewrite Htl, Hold, Hshow.
    exists (clip (config s) t). split; [reflexivity|].
    exact (clip_spec (config s) t Hmax).
Qed.

Lemma subtitle_display_witness :
  (0 <= max_line_length (config fresh_overlay))%Z
  /\ is_visible (_update_subtitle_display fresh_overlay (lit "konnichiwa")
                   (lit "annyeong") 1) = true.
Proof.
  split; [discriminate|].
  exact (proj1 (proj2 (proj2 (proj2
           (subtitle_display fresh_overlay (lit "konnichiwa") (lit "annyeong")
              1 ltac:(discriminate)))))).
Defined.

Lemma display_history (s : TransparentOverlay) (o t : str) (now : Q) :
  translation_history (_update_subtitle_display s o t now)
  = if lyrics_style (config s) && negb (bool_decide (t = []))
       && negb (str_eqb t waiting)
    then
      let h := translation_history s ++ [(o, t)] in
      if (max_history_lines (config s) <? Z.of_nat (length h))%Z
      then tail h else h
    else translation_history s.
Proof.
  unfold _update_subtitle_display, _show_overlay, _update_lyrics_style,
    _update_default_style.
  overlay_simpl.
  destruct (is_visible s) eqn:Hv; cbn [negb]; overlay_simpl; rewrite ?Hv;
    overlay_simpl;
    destruct (lyrics_style (config s)); cbn [andb];
    try destruct (negb (bool_decide (t = [])) && negb (str_eqb t waiting));
    overlay_simpl;
    destruct (hide_timer s) eqn:Hh; overlay_simpl; rewrite ?Hh;
    destruct (auto_hide_enabled (config s) && ltb 0 (auto_hide_delay (config s)));
    reflexivity.
Qed.

Lemma display_history_ok (s : TransparentOverlay) (o t : str) (now : Q) :
  history_ok s -> history_ok (_update_subtitle_display s o t now).
Proof.
  intros [Hmax Hlen]. unfold history_ok.
  destruct (display_frame s o t now) as (-> & _).
  rewrite display_history. split; [exact Hmax|].
  destruct (_ && _); [|exact Hlen]. cbv zeta.
  destruct (Z.ltb_spec (max_history_lines (config s))
              (Z.of_nat (length (translation_history s ++ [(o, t)]))))
    as [Hlt|Hle]; [|exact Hle].
  rewrite length_app in Hlt. cbn [length] in Hlt.
  destruct (translation_history s) as [|p h]; cbn [app tail length] in *;
    [lia|]. rewrite length_app. cbn [length]. lia.
Qed.

Lemma show_hide_frame (s : TransparentOverlay) :
  (config (_show_overlay s) = config s
   /\ translation_history (_show_overlay s) = translation_history s
   /\ current_original (_show_overlay s) = current_original s
   /\ current_translated (_show_overlay s) = current_translated s
   /\ last_update_time (_show_overlay s) = last_update_time s
   /\ update_queue (_show_overlay s) = update_queue s)
  /\ (config (_hide_overlay s) = config s
      /\ translation_history (_hide_overlay s) = translation_history s
      /\ current_original (_hide_overlay s) = current_original s
      /\ current_translated (_hide_overlay s) = current_translated s
      /\ last_update_time (_hide_overlay s) = last_update_time s
      /\ update_queue (_hide_overlay s) = update_queue s).
Proof.
  unfold _show_overlay, _hide_overlay.
  destruct (is_visible s); cbn; repeat split.
Qed.

Lemma drain_history_ok (updates : list update) (s : TransparentOverlay)
    (clock : nat -> Q) (i : nat) :
  history_ok s -> history_ok (fst (drain s updates clock i)).
Proof.
  revert s i. induction updates as [|[o t| |] rest IH]; intros s i Hok;
    cbn [drain].
  - exact Hok.
  - apply IH. apply display_history_ok. exact Hok.
  - apply IH. destruct (show_hide_frame s) as [_ (Hc & Hh & _)].
    unfold history_ok. rewrite Hc, Hh. exact Hok.
  - apply IH. destruct (show_hide_frame s) as [(Hc & Hh & _) _].
    unfold history_ok. rewrite Hc, Hh. exact Hok.
Qed.

(** X18: the subtitle history never holds more than max_history_lines
    entries, once it does not and the bound is not negative: every pass of
    [_check_updates] and every subtitle update keeps it so. In lyrics style
    an update with a translation that is neither empty nor the waiting text
    appends the pair just displayed, unclipped, as the newest entry and
    drops the oldest beyond the bound; any other update leaves the history
    as it is. *)
Theorem history_bounded (s : TransparentOverlay) (clock : nat -> Q) :
  history_ok s ->
  history_ok (_check_updates s clock)
  /\ forall (o t : str) (now : Q),
       let s' := _update_subtitle_display s o t now in
       history_ok s'
       /\ (lyrics_style (config s) = true -> t <> [] -> t <> waiting ->
           (0 < max_history_lines (config s))%Z ->
           last (translation_history s') = Some (o, t)
           /\ translation_history s'
              = drop (length (translation_history s) + 1
                      - Z.to_nat (max_history_lines (config s)))
                     (translation_history s ++ [(o, t)]))
       /\ (lyrics_style (config s) = false \/ t = [] \/ t = waiting ->
           translation_history s' = translation_history s).
Proof.
  intros Hok. split.
  - unfold _check_updates.
    pose proof (drain_history_ok (update_queue s) (set_update_queue [] s)
                  clock 0 Hok) as Hd.
    destruct (drain (set_update_queue [] s) (update_queue s) clock 0)
      as [s1 i]. cbn [fst] in Hd.
    destruct (_ && _); [|exact Hd].
    destruct (is_visible s1); [|exact Hd].
    destruct (show_hide_frame s1) as [_ (Hc & Hh & _)].
    unfold history_ok. rewrite Hc, Hh. exact Hd.
  - intros o t now. cbv zeta.
    split; [apply display_history_ok; exact Hok|].
    destruct Hok as [Hmax Hlen]. rewrite display_history. split.
    + intros -> Hne Hnw Hpos. cbn [andb].
      replace (bool_decide (t = [])) with false
        by (symmetry; apply bool_decide_eq_false; exact Hne).
      replace (str_eqb t waiting) with false
        by (symmetry; apply not_true_is_false; rewrite str_eqb_eq; exact Hnw).
      cbn [negb andb]. cbv zeta.
      destruct (Z.ltb_spec (max_history_lines (config s))
                  (Z.of_nat (length (translation_history s ++ [(o, t)]))))
        as [Hlt|Hle]; rewrite length_app in *; cbn [length] in *.
      * replace (length (translation_history s) + 1
                 - Z.to_nat (max_history_lines (config s)))%nat
          with 1%nat by lia.
        destruct (translation_history s) as [|p h] eqn:Eh;
          [cbn [length] in *; lia|].
        cbn [app tail drop]. split; [apply last_snoc|reflexivity].
      * replace (length (translation_history s) + 1
                 - Z.to_nat (max_history_lines (config s)))%nat
          with 0%nat by lia.
        split; [apply last_snoc|reflexivity].
    + intros [->|[->| ->]].
      * reflexivity.
      * rewrite bool_decide_eq_true_2 by reflexivity.
        cbn [negb andb]. rewrite andb_false_r. reflexivity.
      * replace (str_eqb waiting waiting) with true
          by (symmetry; apply str_eqb_eq; reflexivity).
        cbn [negb]. rewrite !andb_false_r. reflexivity.
Qed.

Lemma history_bounded_witness :
  history_ok one_queued
  /\ history_ok (_check_updates one_queued (fun _ => 1)).
Proof.
  assert (H : history_ok one_queued) by (split; cbn; lia).
  split; [exact H|].
  exact (proj1 (history_bounded one_queued (fun _ => 1) H)).
Defined.

Lemma last_subtitle_none (updates : list update) :
  last_subtitle updates = None <-> subtitles updates = 0%nat.
Proof.
  unfold subtitles. induction updates as [|[o t| |] rest IH];
    cbn [last_subtitle List.filter length].
  - tauto.
  - destruct (last_subtitle rest); split; intros H; discriminate.
  - destruct (last_subtitle rest); tauto.
  - destruct (last_subtitle rest); tauto.
Qed.

Lemma drain_spec (updates : list update) (s : TransparentOverlay)
    (clock : nat -> Q) (i : nat) :
  let r := drain s updates clock i in
  snd r = (i + subtitles updates)%nat
  /\ config (fst r) = config s
  /\ update_queue (fst r) = update_queue s
  /\ match last_subtitle updates with
     | Some (o, t) =>
         current_original (fst r) = o /\ current_translated (fst r) = t
         /\ last_update_time (fst r) = clock (i + subtitles updates - 1)%nat
     | None =>
         current_original (fst r) = current_original s
         /\ current_translated (fst r) = current_translated s
         /\ last_update_time (fst r) = last_update_time s
         /\ translation_history (fst r) = translation_history s
     end.
Proof.
  revert s i. induction updates as [|[o t| |] rest IH]; intros s i;
    cbn [drain last_subtitle].
  - cbn. rewrite Nat.add_0_r. auto 10.
  - specialize (IH (_update_subtitle_display s o t (clock i)) (S i)).
    cbv zeta in *. destruct IH as (Hn & Hc & Hq & Hl).
    destruct (display_frame s o t (clock i))
      as (Hc' & Ho & Ht & Hnow & _ & Hq' & _).
    assert (Hs : subtitles (Subtitle o t :: rest) = S (subtitles rest))
      by reflexivity.
    rewrite Hs, Hn, Hc, Hq, Hc', Hq'.
    split; [lia|]. split; [reflexivity|]. split; [reflexivity|].
    destruct (last_subtitle rest) as [[o' t']|] eqn:El.
    + destruct Hl as (H1 & H2 & H3). rewrite H1, H2, H3.
      repeat split. f_equal. lia.
    + destruct Hl as (H1 & H2 & H3 & _). rewrite H1, H2, H3, Ho, Ht, Hnow.
      apply last_subtitle_none in El. rewrite El.
      repeat split. f_equal. lia.
  - specialize (IH (_hide_overlay s) i). cbv zeta in *.
    destruct (show_hide_frame s) as [_ (Hc & Hh & Ho & Ht & Hu & Hq)].
    change (subtitles (Hide :: rest)) with (subtitles rest).
    destruct (last_subtitle rest) as [[o t]|];
      rewrite ?Hc, ?Hh, ?Ho, ?Ht, ?Hu, ?Hq in IH; exact IH.
  - specialize (IH (_show_overlay s) i). cbv zeta in *.
    destruct (show_hide_frame s) as [(Hc & Hh & Ho & Ht & Hu & Hq) _].
    change (subtitles (Show :: rest)) with (subtitles rest).
    destruct (last_subtitle rest) as [[o t]|];
      rewrite ?Hc, ?Hh, ?Ho, ?Ht, ?Hu, ?Hq in IH; exact IH.
Qed.

(** X19: a pass of [_check_updates] empties the update queue and applies the
    updates in order, so that the current subtitle is the last one queued,
    whatever shows and hides were queued around it, and nothing about the
    subtitle or the history changes when no subtitle was queued. After the
    pass, an overlay with automatic hiding enabled, a positive delay, and a
    last update older than the delay is hidden. *)
Theorem check_updates_latest_wins (s : TransparentOverlay) (clock : nat -> Q) :
  let s' := _check_updates s clock in
  let n := subtitles (update_queue s) in
  update_queue s' = []
  /\ config s' = config s
  /\ match last_subtitle (update_queue s) with
     | Some (o, t) =>
         current_original s' = o /\ current_translated s' = t
         /\ last_update_time s' = clock (n - 1)%nat
     | None =>
         current_original s' = current_original s
         /\ current_translated s' = current_translated s
         /\ last_update_time s' = last_update_time s
         /\ translation_history s' = translation_history s
     end
  /\ (auto_hide_enabled (config s) = true ->
      0 < auto_hide_delay (config s) ->
      auto_hide_delay (config s) < clock n - last_update_time s' ->
      is_visible s' = false).
Proof.
  cbv zeta. unfold _check_updates.
  pose proof (drain_spec (update_queue s) (set_update_queue [] s) clock 0)
    as Hd. cbv zeta in Hd.
  destruct (drain (set_update_queue [] s) (update_queue s) clock 0)
    as [s1 i]. cbn [fst snd] in Hd.
  destruct Hd as (Hi & Hc & Hq & Hl). cbn [Nat.add] in Hi, Hl.
  change (config (set_update_queue [] s)) with (config s) in Hc.
  change (update_queue (set_update_queue [] s)) with (@nil update) in Hq.
  overlay_simpl. subst i. rewrite Hc.
  destruct (show_hide_frame s1) as [_ (Hc' & Hh' & Ho' & Ht' & Hu' & Hq')].
  set (c := auto_hide_enabled (config s)
            && ltb 0 (auto_hide_delay (config s))
            && ltb (auto_hide_delay (config s))
                   (clock (subtitles (update_queue s)) - last_update_time s1)).
  assert (Hsame : forall s2,
            s2 = (if c then if is_visible s1 then _hide_overlay s1 else s1
                  else s1) ->
            update_queue s2 = [] /\ config s2 = config s
            /\ current_original s2 = current_original s1
            /\ current_translated s2 = current_translated s1
            /\ last_update_time s2 = last_update_time s1
            /\ translation_history s2 = translation_history s1
            /\ (c = true -> is_visible s2 = false)).
  { intros s2 ->. destruct c.
    - destruct (is_visible s1) eqn:Hv.
      + rewrite Hq', Hc', Ho', Ht', Hu', Hh', Hq, Hc.
        repeat split. intros _. unfold _hide_overlay. rewrite Hv. reflexivity.
      + rewrite Hq, Hc. repeat split; auto.
    - rewrite Hq, Hc. repeat split; auto; discriminate. }
  destruct (Hsame _ eq_refl) as (H1 & H2 & H3 & H4 & H5 & H6 & H7).
  fold c. split; [exact H1|]. split; [exact H2|]. split.
  - destruct (last_subtitle (update_queue s)) as [[o t]|].
    + rewrite H3, H4, H5. exact Hl.
    + rewrite H3, H4, H5, H6. exact Hl.
  - intros He Hd Hlate. apply H7. unfold c. rewrite He.
    apply ltb_lt in Hd. rewrite Hd. cbn [andb]. apply ltb_lt.
    rewrite <- H5. exact Hlate.
Qed.

Lemma pop_while_longer_spec (h : list (str * str)) (lines : Z) :
  ((0 <= lines)%Z ->
   pop_while_longer h lines
   = (drop (length h - Z.to_nat lines) h, Return tt))
  /\ ((lines < 0)%Z -> pop_while_longer h lines = ([], Raise "IndexError")).
Proof.
  induction h as [|p h [IHpos IHneg]]; cbn [pop_while_longer length].
  - change (Z.of_nat 0) with 0%Z. split; intros H.
    + destruct (Z.ltb_spec lines 0); [lia|reflexivity].
    + destruct (Z.ltb_spec lines 0); [reflexivity|lia].
  - split; intros H.
    + destruct (Z.ltb_spec lines (Z.of_nat (S (length h)))).
      * rewrite (IHpos H).
        replace (S (length h) - Z.to_nat lines)%nat
          with (S (length h - Z.to_nat lines)) by lia.
        reflexivity.
      * replace (S (length h) - Z.to_nat lines)%nat with 0%nat by lia.
        reflexivity.
    + destruct (Z.ltb_spec lines (Z.of_nat (S (length h)))); [|lia].
      exact (IHneg H).
Qed.

(** X20: [_update_history_lines] with a number of lines that is not negative
    records it and keeps the newest entries of the history up to that
    number, after which the history respects the bound; with a negative
    number it empties the history and raises IndexError, the number
    recorded all the same. *)
Theorem update_history_lines_keeps_newest (s : TransparentOverlay)
    (lines : Z) :
  let r := _update_history_lines s lines in
  max_history_lines (config (fst r)) = lines
  /\ ((0 <= lines)%Z ->
      snd r = Return tt
      /\ translation_history (fst r)
         = drop (length (translation_history s) - Z.to_nat lines)
                (translation_history s)
      /\ history_ok (fst r))
  /\ ((lines < 0)%Z ->
      snd r = Raise "IndexError" /\ translation_history (fst r) = []).
Proof.
  cbv zeta. unfold _update_history_lines. cbv zeta. overlay_simpl.
  destruct (pop_while_longer_spec (translation_history s) lines)
    as [Hpos Hneg].
  destruct (pop_while_longer (translation_history s) lines) as [h r] eqn:Hp.
  cbn [fst snd]. overlay_simpl. split; [reflexivity|]. split.
  - intros H. specialize (Hpos H). injection Hpos as -> ->.
    split; [reflexivity|]. split; [reflexivity|].
    unfold history_ok. overlay_simpl. cbn [max_history_lines].
    split; [exact H|]. rewrite length_drop. lia.
  - intros H. specialize (Hneg H). injection Hneg as -> ->. auto.
Qed.



Section Colors.

Variable int16 : str -> PyResult Z.


End Colors.


End OverlayUIFacts.

(** ** main.py: configuration, components and the callbacks between them *)

Module MainFacts.
Import Py PyFacts Main.
#[local] Open Scope Q_scope.

Ltac system_simpl :=
  cbn [config audio_capture stt translator overlay is_running stats error_log
       set_audio_capture set_stt set_translator set_overlay set_stats
       count_error log_error init audio_segments_processed texts_transcribed
       translations_completed errors] in *.

Lemma load_base_config_object (config_file : option (PyResult json)) :
  match load_base_config config_file with
  | Some _ => exists base_config, config_file = Some (Return (JObject base_config))
  | None => forall base_config,
      config_file <> Some (Return (JObject base_config))
  end.
Proof.
  destruct config_file as [[[]|]|]; cbn; eauto; intros; discriminate.
Qed.

(** X22: whatever [config.json] holds, the configuration object ends with
    log_level INFO and its four components enabled: the level read from the
    file is overwritten. Without a [config.json] that loads as an object,
    model_name and use_cache are never assigned, so that
    [_initialize_components] raises before the translator and the overlay
    are created: AttributeError when the audio capture could be created,
    the capture and the STT stage then being assigned already. With a file
    that holds an object, and constructors that succeed, all four
    components are created with their callbacks registered, and the
    translator uses the cache exactly when the file's use_cache entry (True
    when absent) is truthy. *)
Theorem config_file_required (config_file : option (PyResult json))
    (env : environment) :
  let cfg := config_init config_file in
  let r := _initialize_components (init cfg) env in
  log_level cfg = Some (JString (lit "INFO"))
  /\ enable_audio_capture cfg && enable_stt cfg && enable_translation cfg
     && enable_overlay cfg = true
  /\ ((forall base_config,
         config_file <> Some (Return (JObject base_config))) ->
      (exists e, snd r = Raise e)
      /\ translator (fst r) = None /\ overlay (fst r) = None
      /\ error_log (fst r) = ["Failed to initialize components"%string]
      /\ (pyaudio_ok env = true ->
          snd r = Raise "AttributeError"
          /\ is_Some (audio_capture (fst r)) /\ is_Some (stt (fst r))))
  /\ (forall base_config,
        config_file = Some (Return (JObject base_config)) ->
        pyaudio_ok env = true -> cache_dir_ok env = true ->
        snd r = Return tt
        /\ (exists c, audio_capture (fst r) = Some c
                      /\ AudioCapture.on_speech_ended c = true
                      /\ AudioCapture.on_continuous_audio c = true)
        /\ (exists c, stt (fst r) = Some c
                      /\ RealtimeSTT.on_transcription c = true
                      /\ RealtimeSTT.on_error c = true)
        /\ (exists c, translator (fst r) = Some c
                      /\ RealtimeTranslator.on_translation c = true
                      /\ RealtimeTranslator.on_error c = true
                      /\ RealtimeTranslator.use_cache
                           (RealtimeTranslator.config c)
                         = truthy (get base_config "use_cache" (JBool true))
                      /\ RealtimeTranslator.translation_cache c
                         = (if truthy (get base_config "use_cache" (JBool true))
                            then loaded_cache env else ∅))
        /\ overlay (fst r)
           = Some (OverlayUI.init (overlay_config env) (now env))
        /\ error_log (fst r) = []).
Proof.
  cbv zeta. split; [reflexivity|]. split; [reflexivity|]. split.
  - intros Hno.
    assert (Hload : load_base_config config_file = None).
    { pose proof (load_base_config_object config_file) as H.
      destruct (load_base_config config_file); [|reflexivity].
      destruct H as [b Hb]. destruct (Hno b Hb). }
    unfold _initialize_components, config_init. rewrite Hload. system_simpl.
    cbn [enable_audio_capture enable_stt enable_translation enable_overlay
         model_name use_cache].
    unfold new_audio_capture.
    destruct (pyaudio_ok env).
    + cbn. split; [eauto|]. split; [reflexivity|]. split; [reflexivity|].
      split; [reflexivity|]. intros _. split; [reflexivity|]. split; eauto.
    + cbn. split; [eauto|]. split; [reflexivity|]. split; [reflexivity|].
      split; [reflexivity|]. discriminate.
  - intros base_config -> Hpa Hcd.
    unfold _initialize_components, config_init. cbn [load_base_config].
    system_simpl.
    cbn [enable_audio_capture enable_stt enable_translation enable_overlay
         model_name use_cache].
    unfold new_audio_capture, new_translator. rewrite Hpa, Hcd.
    cbn. split; [reflexivity|]. split; [eauto|]. split; [eauto|].
    split; [|split; reflexivity].
    eexists. split; [reflexivity|]. cbn. auto.
Qed.

Lemma config_file_required_witness :
  pyaudio_ok kind_environment = true
  /\ cache_dir_ok kind_environment = true
  /\ snd (_initialize_components (init (config_init empty_object))
            kind_environment) = Return tt
  /\ snd (_initialize_components (init (config_init None)) kind_environment)
     = Raise "AttributeError".
Proof.
  pose proof (config_file_required empty_object kind_environment)
    as (_ & _ & _ & Hobj).
  pose proof (config_file_required None kind_environment)
    as (_ & _ & Hnone & _).
  split; [reflexivity|]. split; [reflexivity|]. split.
  - exact (proj1 (Hobj ∅ eq_refl eq_refl eq_refl)).
  - refine (proj1 (proj2 (proj2 (proj2 (proj2 (Hnone _)))) eq_refl)).
    intros b. discriminate.
Defined.

Lemma short_guard (text : str) (n : Z) :
  (1 <= n)%Z ->
  bool_decide (text = []) || (Z.of_nat (length (strip text)) <? n)%Z = false
  <-> (n <= Z.of_nat (length (strip text)))%Z.
Proof.
  intros Hn. rewrite orb_false_iff, bool_decide_eq_false, Z.ltb_ge. split.
  - tauto.
  - intros H. split; [|exact H]. intros ->.
    change (strip []) with (@nil N) in H. simpl in H. lia.
Qed.

Section Pipeline.

Variable str_lower : str -> str.

(** X23: every result that the STT filter lets through is counted by
    [_on_transcription] and handed to the translator unchanged: with a
    running translator whose minimum text length is at most 2 and whose
    queue has room once the put has waited, the text is appended to the
    translation queue as it is, the transcription counter grows by one and
    no error is counted. A text that is empty or has fewer than two
    characters once trimmed changes nothing. *)
Theorem accepted_transcription_is_queued (st st' : RealtimeSTT.RealtimeSTT)
    (raw out : str) (s : ChromeRealtimeTranslator)
    (t : RealtimeTranslator.RealtimeTranslator) (freed : nat) :
  RealtimeSTT._filter_transcription str_lower st raw = (st', out) ->
  out <> [] ->
  translator s = Some t ->
  RealtimeTranslator.is_running t = true ->
  (RealtimeTranslator.min_text_length (RealtimeTranslator.config t) <= 2)%Z ->
  queue_full (mkQueue (maxsize (RealtimeTranslator.translation_queue t))
                (drop freed (queued (RealtimeTranslator.translation_queue t))))
  = false ->
  let s' := _on_transcription s out freed in
  (exists t',
      translator s' = Some t'
      /\ queued (RealtimeTranslator.translation_queue t')
         = drop freed (queued (RealtimeTranslator.translation_queue t))
           ++ [Some out]
      /\ RealtimeTranslator.trace t' = RealtimeTranslator.trace t)
  /\ texts_transcribed (stats s') = S (texts_transcribed (stats s))
  /\ errors (stats s') = errors (stats s)
  /\ error_log s' = error_log s
  /\ forall text freed',
       (Z.of_nat (length (strip text)) < 2)%Z ->
       _on_transcription s text freed' = s.
Proof.
  intros Hf Hne Ht Hrun Hmin Hfull.
  destruct (RealtimeSTTControlFacts.filter_accepts str_lower st st' raw out Hf)
    as (_ & _ & Hacc).
  destruct (Hacc Hne) as (Hout & _ & _ & Hlen & _).
  assert (Hstrip : strip out = out) by (rewrite Hout; apply strip_idem).
  assert (Hpass : bool_decide (out = [])
                  || (Z.of_nat (length (strip out)) <? 2)%Z = false).
  { apply short_guard; [lia|]. rewrite Hstrip. lia. }
  assert (Hpass' : bool_decide (out = [])
                   || (Z.of_nat (length (strip out))
                       <? RealtimeTranslator.min_text_length
                            (RealtimeTranslator.config t))%Z = false).
  { rewrite orb_false_iff, bool_decide_eq_false, Z.ltb_ge.
    split; [exact Hne|]. rewrite Hstrip. lia. }
  cbv zeta. unfold _on_transcription. rewrite Hpass. system_simpl.
  rewrite Ht. unfold RealtimeTranslator.translate_async.
  rewrite Hrun, Hpass'. cbn [negb]. unfold queue_put. rewrite Hfull, Hstrip.
  system_simpl. split.
  { eexists. split; [reflexivity|]. cbn. auto. }
  split; [reflexivity|]. split; [reflexivity|]. split; [reflexivity|].
  intros text freed' Hshort.
  replace (bool_decide (text = [])
           || (Z.of_nat (length (strip text)) <? 2)%Z) with true; [reflexivity|].
  symmetry. apply orb_true_iff. right. apply Z.ltb_lt. exact Hshort.
Qed.

End Pipeline.

Lemma last_subtitle_snoc (updates : list OverlayUI.update) (o t : str) :
  OverlayUI.last_subtitle (updates ++ [OverlayUI.Subtitle o t]) = Some (o, t).
Proof.
  induction updates as [|u rest IH]; cbn [app OverlayUI.last_subtitle].
  - reflexivity.
  - rewrite IH. reflexivity.
Qed.

(** X24: a translation that is not blank is counted by [_on_translation] and
    queued for the overlay as the newest update; the next pass of
    [_check_updates] empties the queue and makes it the current subtitle,
    original and translation whole, whatever was queued before it. A
    translation that is empty or blank changes nothing: it is neither
    counted nor displayed. *)
Theorem translation_is_displayed (s : ChromeRealtimeTranslator)
    (o : OverlayUI.TransparentOverlay) (original translated : str)
    (clock : nat -> Q) :
  overlay s = Some o ->
  strip translated <> [] ->
  let s' := _on_translation s original translated in
  (exists o',
      overlay s' = Some o'
      /\ OverlayUI.update_queue o'
         = OverlayUI.update_queue o ++ [OverlayUI.Subtitle original translated]
      /\ let shown := OverlayUI._check_updates o' clock in
         OverlayUI.current_original shown = original
         /\ OverlayUI.current_translated shown = translated
         /\ OverlayUI.update_queue shown = [])
  /\ translations_completed (stats s') = S (translations_completed (stats s))
  /\ errors (stats s') = errors (stats s)
  /\ forall original' blank,
       strip blank = [] -> _on_translation s original' blank = s.
Proof.
  intros Ho Hne.
  assert (Hpass : bool_decide (translated = [])
                  || (Z.of_nat (length (strip translated)) <? 1)%Z = false).
  { apply short_guard; [lia|].
    destruct (strip translated); [contradiction|]. simpl. lia. }
  cbv zeta. unfold _on_translation. rewrite Hpass. system_simpl. rewrite Ho.
  system_simpl. split.
  - eexists. split; [reflexivity|].
    set (o' := OverlayUI.update_subtitle o original translated).
    assert (Hq : OverlayUI.update_queue o'
                 = OverlayUI.update_queue o
                   ++ [OverlayUI.Subtitle original translated])
      by reflexivity.
    split; [exact Hq|]. cbv zeta.
    unfold OverlayUI._check_updates.
    pose proof (OverlayUIFacts.drain_spec (OverlayUI.update_queue o')
                  (OverlayUI.set_update_queue [] o') clock 0) as Hd.
    cbv zeta in Hd. rewrite Hq, last_subtitle_snoc in Hd. rewrite Hq.
    destruct (OverlayUI.drain (OverlayUI.set_update_queue [] o')
                (OverlayUI.update_queue o
                 ++ [OverlayUI.Subtitle original translated]) clock 0)
      as [s1 i].
    cbn [fst snd] in Hd. destruct Hd as (_ & _ & Hq1 & Ho1 & Ht1 & _).
    change (OverlayUI.update_queue (OverlayUI.set_update_queue [] o'))
      with (@nil OverlayUI.update) in Hq1.
    destruct (OverlayUIFacts.show_hide_frame s1)
      as [_ (_ & _ & Hho & Hht & _ & Hhq)].
    destruct (_ && _); [|auto].
    destruct (OverlayUI.is_visible s1); [|auto].
    rewrite Hho, Hht, Hhq. auto.
  - split; [reflexivity|]. split; [reflexivity|].
    intros original' blank Hblank.
    replace (bool_decide (blank = [])
             || (Z.of_nat (length (strip blank)) <? 1)%Z) with true;
      [reflexivity|].
    symmetry. apply orb_true_iff. right. rewrite Hblank. reflexivity.
Qed.

(** X25: a segment handed to [_on_audio_segment] is always counted as
    processed. With debug saving off, as the configuration object sets it,
    no error is counted; when the STT stage runs on its unbounded queue the
    segment is appended to that queue, and when the stage does not run the
    segment is dropped with a warning of the stage and counted all the
    same. [_on_continuous_audio] queues the segment in the same way and
    counts nothing. *)
Theorem segment_is_queued (s : ChromeRealtimeTranslator)
    (c : RealtimeSTT.RealtimeSTT) (audio : RealtimeSTT.frame) (freed : nat)
    (save : PyResult unit) :
  stt s = Some c ->
  save_debug_audio (config s) = false ->
  maxsize (RealtimeSTT.audio_queue c) = 0%Z ->
  let s' := _on_audio_segment s audio freed save in
  audio_segments_processed (stats s') = S (audio_segments_processed (stats s))
  /\ errors (stats s') = errors (stats s)
  /\ error_log s' = error_log s
  /\ stt s' = Some (RealtimeSTT.process_audio c audio freed)
  /\ stt (_on_continuous_audio s audio freed)
     = Some (RealtimeSTT.process_audio c audio freed)
  /\ stats (_on_continuous_audio s audio freed) = stats s
  /\ (RealtimeSTT.is_running c = true ->
      queued (RealtimeSTT.audio_queue (RealtimeSTT.process_audio c audio freed))
      = drop freed (queued (RealtimeSTT.audio_queue c)) ++ [Some audio]
      /\ RealtimeSTT.trace (RealtimeSTT.process_audio c audio freed)
         = RealtimeSTT.trace c)
  /\ (RealtimeSTT.is_running c = false ->
      RealtimeSTT.audio_queue (RealtimeSTT.process_audio c audio freed)
      = RealtimeSTT.audio_queue c
      /\ RealtimeSTT.trace (RealtimeSTT.process_audio c audio freed)
         = RealtimeSTT.trace c ++ [RealtimeSTT.LogWarning "STT not running"]).
Proof.
  intros Hstt Hsave Hmax. cbv zeta.
  unfold _on_audio_segment, _on_continuous_audio. system_simpl.
  rewrite Hstt. system_simpl. rewrite Hsave. system_simpl.
  split; [reflexivity|]. split; [reflexivity|]. split; [reflexivity|].
  split; [reflexivity|]. split; [reflexivity|]. split; [reflexivity|].
  unfold RealtimeSTT.process_audio, queue_put, queue_full.
  cbn [maxsize queued]. rewrite Hmax. cbn [Z.ltb Z.compare andb].
  split; intros ->; cbn; auto.
Qed.

Lemma segment_is_queued_witness :
  save_debug_audio (config wired_stt) = false
  /\ audio_segments_processed
       (stats (_on_audio_segment wired_stt RealtimeSTT.quarter_second 0
                 (Return tt))) = 1%nat.
Proof.
  split; [reflexivity|].
  exact (proj1 (segment_is_queued wired_stt RealtimeSTT.running_stt
                  RealtimeSTT.quarter_second 0 (Return tt)
                  eq_refl eq_refl eq_refl)).
Defined.

Lemma accepted_transcription_is_queued_witness :
  RealtimeSTT._filter_transcription lower_ascii RealtimeSTT.running_stt
    (lit " konnichiwa ")
  = (RealtimeSTT.set_last_result (lit "konnichiwa") RealtimeSTT.running_stt,
     lit "konnichiwa")
  /\ texts_transcribed (stats (_on_transcription wired (lit "konnichiwa") 0))
     = 1%nat.
Proof.
  assert (H : RealtimeSTT._filter_transcription lower_ascii
                RealtimeSTT.running_stt (lit " konnichiwa ")
              = (RealtimeSTT.set_last_result (lit "konnichiwa")
                   RealtimeSTT.running_stt, lit "konnichiwa"))
    by (vm_compute; reflexivity).
  split; [exact H|].
  refine (proj1 (proj2 (accepted_transcription_is_queued lower_ascii _ _ _ _
                          wired _ 0 H _ eq_refl eq_refl _ eq_refl))).
  - discriminate.
  - vm_compute. discriminate.
Defined.

Lemma translation_is_displayed_witness :
  overlay wired = Some OverlayUI.fresh_overlay
  /\ translations_completed
       (stats (_on_translation wired (lit "konnichiwa") (lit "annyeong")))
     = 1%nat.
Proof.
  split; [reflexivity|].
  refine (proj1 (proj2 (translation_is_displayed wired OverlayUI.fresh_overlay
                          (lit "konnichiwa") (lit "annyeong") (fun _ => 1)
                          eq_refl _))).
  vm_compute. discriminate.
Defined.

End MainFacts.

(** ** realtime_translator.py: loading the model and starting *)

Module TranslatorStartFacts.
Import Py PyFacts RealtimeTranslator RealtimeTranslatorFacts TranslatorStats
  TranslatorStart.
#[local] Open Scope Q_scope.

Ltac split_last :=
  match goal with
  | |- _ /\ _ /\ _ /\ _ /\ _ /\ _ =>
      refine ((fun H => match H with
                        | conj a (conj b (conj c (conj d e))) =>
                            conj a (conj b (conj c (conj d (conj e _))))
                        end) _);
      [intros s0 load_ok Hs0; rewrite Hs0; reflexivity|]
  end.

Lemma dummy_text_normal (cfg : RealtimeTranslatorConfig) :
  (min_text_length cfg <= 11 <= max_text_length cfg)%Z ->
  accepted cfg dummy_text /\ normalize cfg dummy_text = dummy_text.
Proof.
  intros [Hmin Hmax].
  assert (Hs : strip dummy_text = dummy_text) by (vm_compute; reflexivity).
  split.
  - split; [discriminate|]. rewrite Hs. exact Hmin.
  - apply normalize_short; [exact Hs|exact Hmax].
Qed.

(** X26: starting a translator whose model is not loaded runs the warm-up
    through [translate_text], and the warm-up counts as a request: when the
    limits admit the text Hello world and it is not the last text
    translated, one of the two cache counters has grown by one once [start]
    has returned. When the engine answers the warm-up, or the cache does,
    Hello world is remembered as the last text translated, so that with
    skip_duplicates enabled a first request for that text is discarded with
    an empty result, whatever the engine would answer. A translator that
    already runs is left as it is, with a warning. *)
Theorem warmup_is_a_request (s : RealtimeTranslator)
    (engine : str -> PyResult str) (processing_time : Q) :
  is_running s = false ->
  model_loaded s = false ->
  (min_text_length (config s) <= 11 <= max_text_length (config s))%Z ->
  last_translated_text s <> dummy_text ->
  let r := start s true engine processing_time in
  snd r = Return tt
  /\ is_running (fst r) = true
  /\ model_loaded (fst r) = true
  /\ (cache_hits (fst r) + cache_misses (fst r)
      = S (cache_hits s + cache_misses s))%nat
  /\ (((exists raw, engine (prompt_prefix ++ dummy_text) = Return raw)
       \/ (use_cache (config s) = true
           /\ exists k, get_cache_key dummy_text = Return k
                        /\ is_Some (translation_cache s !! k))) ->
      last_translated_text (fst r) = dummy_text
      /\ (skip_duplicates (config s) = true ->
          forall text engine' processing_time',
            normalize (config s) text = dummy_text ->
            translate_text (fst r) text engine' processing_time'
            = (fst r, Return [])))
  /\ forall s0 load_ok,
       is_running s0 = true ->
       start s0 load_ok engine processing_time
       = (emit (LogWarning "Translator already running") s0, Return tt).
Proof.
  intros Hrun Hmodel Hlim Hlast.
  destruct (dummy_text_normal (config s) Hlim) as [Hacc Hnorm].
  assert (Hdup : forall s2 : RealtimeTranslator,
            config s2 = config s -> last_translated_text s2 = dummy_text ->
            skip_duplicates (config s) = true ->
            forall text engine' processing_time',
              normalize (config s) text = dummy_text ->
              translate_text s2 text engine' processing_time'
              = (s2, Return [])).
  { intros s2 Hc2 Hl2 Hskip text engine' time' Hn.
    apply translate_text_duplicate; rewrite Hc2; [exact Hskip|].
    rewrite Hn, Hl2. reflexivity. }
  cbv zeta. unfold start, load_model, _warmup_model.
  rewrite Hrun, Hmodel.
  split_last.
  remember (translate_text (set_model_loaded true s) dummy_text engine
              processing_time) as tr eqn:Htr.
  unfold translate_text in Htr. cbv zeta in Htr.
  cbn [config set_model_loaded last_translated_text translation_cache
       model_loaded set_cache_misses negb] in Htr.
  apply accepted_guard in Hacc. rewrite Hacc, Hnorm in Htr.
  replace (skip_duplicates (config s)
           && str_eqb dummy_text (last_translated_text s)) with false in Htr.
  2:{ symmetry. apply andb_false_iff. right.
      apply not_true_is_false. rewrite str_eqb_eq.
      intros H. apply Hlast. symmetry. exact H. }
  destruct (get_cache_key dummy_text) as [k|e] eqn:Hk;
    [|vm_compute in Hk; discriminate].
  destruct (get_cache_key_nonempty _ _ Hk) as (c & k' & ->).
  assert (Hpost : forall raw, exists out,
            postprocess dummy_text raw = Return out).
  { intros raw. unfold postprocess.
    destruct (after_first dummy_text raw); cbn; eauto. }
  destruct (use_cache (config s)) eqn:Hc; cbn [mbind option_bind] in Htr.
  - match type of Htr with
    | context [match ?x with Some _ => _ | None => _ end] =>
        destruct x as [v|] eqn:Hv
    end.
    + subst tr. record_simpl. split; [reflexivity|]. split; [reflexivity|].
      split; [reflexivity|]. split; [lia|].
      intros _. split; [reflexivity|]. intros Hskip. apply Hdup; auto.
    + destruct (engine (prompt_prefix ++ dummy_text)) as [raw|e] eqn:He.
      * destruct (Hpost raw) as [out Hout]. rewrite Hout in Htr.
        subst tr. record_simpl.
        split; [reflexivity|]. split; [reflexivity|].
        split; [reflexivity|]. split; [lia|].
        intros _. split; [reflexivity|]. intros Hskip. apply Hdup; auto.
      * subst tr. record_simpl. split; [reflexivity|]. split; [reflexivity|].
        split; [reflexivity|]. split; [lia|].
        intros [[raw Hraw]|(_ & k2 & Hk2 & [v2 Hv2])]; [discriminate|].
        injection Hk2 as <-. congruence.
  - destruct (engine (prompt_prefix ++ dummy_text)) as [raw|e] eqn:He.
    + destruct (Hpost raw) as [out Hout]. rewrite Hout in Htr.
      subst tr. record_simpl.
      split; [reflexivity|]. split; [reflexivity|].
      split; [reflexivity|]. split; [lia|].
      intros _. split; [reflexivity|]. intros Hskip. apply Hdup; auto.
    + subst tr. record_simpl. split; [reflexivity|]. split; [reflexivity|].
      split; [reflexivity|]. split; [lia|].
      intros [[raw Hraw]|(Hf & _)]; discriminate.
Qed.

Lemma warmup_is_a_request_witness :
  is_running fresh = false
  /\ model_loaded fresh = false
  /\ (min_text_length (config fresh) <= 11 <= max_text_length (config fresh))%Z
  /\ last_translated_text fresh <> dummy_text
  /\ snd (start fresh true annyeong 1) = Return tt.
Proof.
  assert (Hlim : (min_text_length (config fresh) <= 11
                  <= max_text_length (config fresh))%Z) by (cbn; lia).
  assert (Hlast : last_translated_text fresh <> dummy_text) by discriminate.
  split; [reflexivity|]. split; [reflexivity|]. split; [exact Hlim|].
  split; [exact Hlast|].
  exact (proj1 (warmup_is_a_request fresh annyeong 1 eq_refl eq_refl Hlim
                  Hlast)).
Defined.

End TranslatorStartFacts.
